(** * OctopusCopilot: resource resolution and log extraction

    A shallow embedding of [src/infrastructure/octopus.py]: the activity-log
    renderer ([get_logs], [filter_logs], [activity_logs_to_string]), the
    response classifier ([handle_response]), the page generators, the
    name resolvers and their process-wide caches.

    Python values are modelled as follows: [str] as [string] (the UTF-8
    encoding of the text; [str.lower] and [str.strip], which work on
    Unicode text, are operations the development is parametric in),
    [int] as [Z], [bytes] as [list Byte.byte],
    [None]-able arguments as [option], JSON objects with known keys as
    records, and the dictionaries used as caches as [gmap]. Remote calls are
    functions that thread an explicit world state. *)

From Stdlib Require Import ZArith String Ascii List Bool Lia.
From stdpp Require Import gmap strings list.

Local Open Scope string_scope.
Local Open Scope Z_scope.

(** ** Python primitives used by the module *)

Module Py.

(** Truthiness of a possibly-[None] list: [None] and [[]] are falsy. *)
Definition truthy_list {A : Type} (o : option (list A)) : bool :=
  match o with
  | Some (_ :: _) => true
  | _ => false
  end.

(** Truthiness of an [int] or [None]: [None] and [0] are falsy. *)
Definition truthy_int (o : option Z) : bool :=
  match o with
  | Some n => negb (n =? 0)
  | None => false
  end.

(** Truthiness of a [str]: only the empty string is falsy. *)
Definition truthy_str (s : string) : bool :=
  match s with
  | EmptyString => false
  | String _ _ => true
  end.

(** [any(xs)] over a list of strings. *)
Definition any_str (xs : list string) : bool := existsb truthy_str xs.

(** [s.startswith(p)]. *)
Definition startswith (s p : string) : bool := String.prefix p s.

(** [x in xs] for a list of strings. *)
Definition contains (x : string) (xs : list string) : bool :=
  existsb (String.eqb x) xs.

(** [sep.join(xs)]. *)
Fixpoint join (sep : string) (xs : list string) : string :=
  match xs with
  | [] => ""
  | [x] => x
  | x :: rest => x ++ sep ++ join sep rest
  end.

(** [str.lower()] and [str.strip()] are built-ins of the Python runtime on
    Unicode text: they map the letters of every script (a capital E with
    an acute accent as well as a capital E) and strip every Unicode
    whitespace (U+00A0 as well as the space). The functions of the module
    are modelled, and their properties proved, for whatever these two
    operations are. *)
Class Text := mkText {
  lower : string -> string;
  strip : string -> string
}.

End Py.

(** ** The activity log tree *)

Module ActivityLog.

(** An entry of [log_item["LogElements"]]. *)
Record LogElement := mkLogElement {
  Category : string;
  MessageText : string
}.

(** A node of the [ActivityLogs] tree of a task. *)
Inductive LogItem := mkLogItem {
  Name : string;
  Status : string;
  LogElements : list LogElement;
  Children : list LogItem
}.

Section LogRendering.

(** The three helpers below are imported by the module from
    [domain.converters.string_to_int], [domain.sanitizers.sanitized_list]
    and [fuzzywuzzy]; they are parameters of the renderer. *)
Variable string_to_int : string -> option Z.
Variable normalize_log_step_name : string -> string.
Variable fuzz_ratio : string -> string -> Z.

Definition step_name_match_ratio : Z := 80.

(** [filter_logs(log_item, steps)]. *)
Definition filter_logs (log_item : LogItem) (steps : option (list string)) : bool :=
  match steps with
  | None => true
  | Some [] => true
  | Some steps =>
      let step_ints :=
        List.filter (fun step => Py.truthy_int (string_to_int step)) steps in
      let found_index :=
        match step_ints with
        | [] => false
        | _ =>
            Py.any_str
              (List.filter
                 (fun step_int => Py.startswith (Name log_item) ("Step " ++ step_int))
                 step_ints)
        end in
      let found_name :=
        Py.any_str
          (List.filter
             (fun step =>
                step_name_match_ratio <=?
                  fuzz_ratio (normalize_log_step_name step)
                             (normalize_log_step_name (Name log_item)))
             steps) in
      if (negb found_index && negb found_name)%bool then false else true
  end.

(** The lines [get_logs] collects in [logs] for the node itself, before it
    looks at the children: its name when [include_name], then the message
    of every log element that passes the category filter. *)
Definition own_logs (log_item : LogItem) (categories : option (list string))
           (include_name : bool) : list string :=
  let filtered_logs :=
    if Py.truthy_list categories
    then List.filter
           (fun x => Py.contains (Category x) (default [] categories))
           (LogElements log_item)
    else LogElements log_item in
  (if include_name then [Name log_item] else []) ++ map MessageText filtered_logs.

(** [get_logs(log_item, depth, steps, categories, include_name)]. *)
Fixpoint get_logs (log_item : LogItem) (depth : nat) (steps categories : option (list string))
         (include_name : bool) {struct log_item} : list string :=
  match log_item with
  | mkLogItem name status elements children =>
      if (Nat.eqb depth 0 && Nat.eqb (length elements) 0 && Nat.eqb (length children) 0)%bool
      then
        if negb (Py.truthy_list categories)
        then ["No logs found (status: " ++ status ++ ")."]
        else []
      else
        let logs := own_logs (mkLogItem name status elements children) categories include_name in
        if (Nat.eqb depth 1 && negb (filter_logs (mkLogItem name status elements children) steps))%bool
        then logs
        else
          logs ++ flat_map
                    (fun child => get_logs child (depth + 1) steps categories include_name)
                    children
  end.

(** Modelled from the spec: [flatten_list], absent from the sources; the
    renderer "returns a flattened ordered sequence of strings", so the
    per-root line lists are concatenated in order. *)
Definition flatten_list (xss : list (list string)) : list string := concat xss.

(** [activity_logs_to_string(activity_logs, sanitized_steps, categories,
    join_string, include_name)]. *)
Definition activity_logs_to_string (activity_logs : option (list LogItem))
           (sanitized_steps categories : option (list string))
           (join_string : string) (include_name : bool) : string :=
  if negb (Py.truthy_list activity_logs) then ""
  else
    let logs :=
      flatten_list
        (map (fun i => get_logs i 0 sanitized_steps categories include_name)
             (default [] activity_logs)) in
    Py.join join_string logs.

(** The unpruned pre-order rendering of a whole subtree: the node's own
    lines followed by the rendering of each child in order. This is the
    reference against which pruning is stated. *)
Fixpoint subtree_logs (log_item : LogItem) (categories : option (list string))
         (include_name : bool) {struct log_item} : list string :=
  match log_item with
  | mkLogItem name status elements children =>
      own_logs (mkLogItem name status elements children) categories include_name
      ++ flat_map (fun child => subtree_logs child categories include_name) children
  end.

End LogRendering.

(** *** The rendering in the words of the specification

    The contract of the log tree filter, written out from its text and
    without any of the definitions above; [get_logs] is compared with
    it. *)

(** "If categoryFilter is non-empty, only LogLines whose Category is in the
    filter set are emitted; otherwise all LogLines are emitted." *)
Definition spec_emits (category_filter : option (list string)) (line : LogElement) : bool :=
  match category_filter with
  | Some (category :: categories) =>
      existsb (fun c => String.eqb c (Category line)) (category :: categories)
  | _ => true
  end.

(** The lines a node emits for itself: "If includeName is true, the node's
    Name is emitted before its filtered LogLines." *)
Definition spec_node_lines (node : LogItem) (category_filter : option (list string))
           (include_name : bool) : list string :=
  match include_name with
  | true => Name node :: map MessageText (List.filter (spec_emits category_filter)
                                                      (LogElements node))
  | false => map MessageText (List.filter (spec_emits category_filter) (LogElements node))
  end.

(** The lines of an entire subtree: "Traversal is depth-first, pre-order";
    "Output ordering is exactly pre-order traversal order". *)
Fixpoint spec_subtree_lines (node : LogItem) (category_filter : option (list string))
         (include_name : bool) {struct node} : list string :=
  match node with
  | mkLogItem name status lines children =>
      spec_node_lines (mkLogItem name status lines children) category_filter include_name
      ++ concat (map (fun child => spec_subtree_lines child category_filter include_name)
                     children)
  end.

End ActivityLog.

(** ** Exceptions, results and remote calls *)

(** The exceptions that can leave the functions modelled here. [HTTPError]
    is urllib3's transport error, the only one the [retry] decorator
    catches; the others are the module's domain errors and the errors of the
    Python runtime on undecodable bodies. *)
Inductive Exn :=
| HTTPError
| UnicodeDecodeError
| JSONDecodeError
| ValueError (msg : string)
| OctopusApiKeyInvalid
| OctopusRequestFailed (msg : string)
| ResourceNotFound (kind name : string)
| SpaceNotFound (name : string).

Inductive Result (A : Type) :=
| Ok (a : A)
| Raise (e : Exn).
Arguments Ok {A} a.
Arguments Raise {A} e.

(** A computation that may raise and that threads the state of the outside
    world (the remote server, the network). *)
Definition M (W A : Type) : Type := W -> Result A * W.

Definition ret {W A : Type} (a : A) : M W A := fun w => (Ok a, w).

Definition raise {W A : Type} (e : Exn) : M W A := fun w => (Raise e, w).

Definition bind {W A B : Type} (c : M W A) (k : A -> M W B) : M W B :=
  fun w =>
    match c w with
    | (Ok a, w') => k a w'
    | (Raise e, w') => (Raise e, w')
    end.

Notation "'do' x <- c ; k" := (bind c (fun x => k))
  (at level 10, x name, c at level 100, k at level 200).

(** Lifts a pure computation that may raise. *)
Definition lift {W A : Type} (r : Result A) : M W A := fun w => (r, w).

(** Lifts the reading of a JSON body, which raises when it fails. *)
Definition lift_json {W A : Type} (o : option A) : M W A :=
  match o with
  | Some a => ret a
  | None => raise JSONDecodeError
  end.

(** *** Text and bytes

    A Python [str] is represented by its UTF-8 encoding, so decoding a
    [bytes] value checks that it is well-formed UTF-8 and keeps the bytes. *)

Module Utf8.

Definition between (lo hi b : N) : bool := ((lo <=? b) && (b <=? hi))%N%bool.

(** A continuation byte, 0x80-0xBF. *)
Definition cont (b : N) : bool := between 128 191 b.

(** The second byte of a three-byte sequence: no overlong forms after
    0xE0, no surrogates after 0xED. *)
Definition second3 (b0 b1 : N) : bool :=
  if (b0 =? 224)%N then between 160 191 b1
  else if (b0 =? 237)%N then between 128 159 b1
  else cont b1.

(** The second byte of a four-byte sequence: no overlong forms after
    0xF0, nothing above U+10FFFF after 0xF4. *)
Definition second4 (b0 b1 : N) : bool :=
  if (b0 =? 240)%N then between 144 191 b1
  else if (b0 =? 244)%N then between 128 143 b1
  else cont b1.

Fixpoint valid (bs : list N) : bool :=
  match bs with
  | [] => true
  | b0 :: r0 =>
      if (b0 <? 128)%N then valid r0
      else
        match r0 with
        | [] => false
        | b1 :: r1 =>
            if between 194 223 b0 then (cont b1 && valid r1)%bool
            else
              match r1 with
              | [] => false
              | b2 :: r2 =>
                  if between 224 239 b0
                  then (second3 b0 b1 && cont b2 && valid r2)%bool
                  else
                    match r2 with
                    | [] => false
                    | b3 :: r3 =>
                        if between 240 244 b0
                        then (second4 b0 b1 && cont b2 && cont b3 && valid r3)%bool
                        else false
                    end
              end
        end
  end.

(** [data.decode('utf-8')]: raises [UnicodeDecodeError] on bytes that are
    not well-formed UTF-8. *)
Definition decode (data : list Byte.byte) : Result string :=
  if valid (map Byte.to_N data)
  then Ok (string_of_list_byte data)
  else Raise UnicodeDecodeError.

End Utf8.

(** *** Requests, responses and resources *)

Inductive QueryValue :=
| QInt (n : Z)
| QStr (s : string).

(** [build_url(base, path, query)] comes from [domain.url.build_url], which
    is not part of the sources; a URL is kept as the triple of the arguments
    it was built from. An omitted query is the empty list. *)
Record Url := build_url {
  url_base : string;
  url_path : string;
  url_query : list (string * QueryValue)
}.

(** The arguments of [http.request(method, url, headers=...)]. *)
Record Request := mkRequest {
  req_method : string;
  req_url : Url;
  req_headers : list (string * string)
}.

(** What the transport returns: [response.status] and [response.data]. *)
Record Response := mkResponse {
  status : Z;
  data : list Byte.byte
}.

(** A resource as the server lists it: a JSON object of which the resolvers
    read the keys ["Id"] and ["Name"]. *)
Record Item := mkItem {
  Id : string;
  Name : string
}.

(** A JSON object with the keys ["Id"] and ["Name"] is a non-empty [dict],
    which Python treats as true. *)
Definition truthy_item (_ : Item) : bool := true.

(** The collaborators the module imports and that are outside the sources:
    the connection pool [http] and the constant [TAKE_ALL] of
    [infrastructure.http_pool], [quote_safe], the emptiness test behind
    [ensure_string_not_empty], and the JSON reading of a response body
    ([resp.json()] as one resource, [resp.json()["Items"]] as a list; [None]
    when the body cannot be read that way, which raises in Python). *)
Class Env (W : Type) := mkEnv {
  http_request : Request -> M W Response;
  TAKE_ALL : Z;
  quote_safe : string -> string;
  string_not_empty : string -> bool;
  json_item : Response -> option Item;
  json_items : Response -> option (list Item)
}.

(** The same collaborators with a transport that records every request it
    receives, in order, next to the world state. *)
Definition logged {W : Type} (E : Env W) : Env (W * list Request) :=
  {| http_request := fun req wl =>
       let '(r, w') := @http_request W E req (fst wl) in (r, (w', (snd wl ++ [req])%list));
     TAKE_ALL := @TAKE_ALL W E;
     quote_safe := @quote_safe W E;
     string_not_empty := @string_not_empty W E;
     json_item := @json_item W E;
     json_items := @json_items W E |}.

(** Modelled from the spec: [get_item_fuzzy], of
    [domain.sanitizers.sanitized_list], absent from the sources. "If exactly
    one candidate has a name equal to [queriedName], return it; else if
    exactly one candidate has a name equal to [queriedName] after
    lowercasing and trimming, return it; else fall through." *)
Definition get_item_fuzzy {T : Py.Text} (items : list Item) (name : string) : option Item :=
  match List.filter (fun i => String.eqb (Name i) name) items with
  | [i] => Some i
  | _ =>
      match List.filter
              (fun i => String.eqb (Py.strip (Py.lower (Name i)))
                                   (Py.strip (Py.lower name))) items with
      | [i] => Some i
      | _ => None
      end
  end.

(** [environment_cache] and [tenant_cache]: server url, then space id, then
    queried name. *)
Abbreviation Cache := (gmap string (gmap string (gmap string Item))).

Section Remote.

Context {T : Py.Text} {W : Type} {E : Env W}.

(** [get_octopus_headers(my_api_key)], for a key that is not [None]. *)
Definition get_octopus_headers (my_api_key : string) : list (string * string) :=
  [("X-Octopus-ApiKey", my_api_key); ("User-Agent", "OctopusAI")].

(** [ensure_string_not_empty(value, message)] of
    [domain.validation.argument_validation]: raises [ValueError] with the
    message when the test fails. *)
Definition ensure_string_not_empty (value message : string) : M W unit :=
  if string_not_empty value then ret tt else raise (ValueError message).

(** [logger.info(...)]: the log sink is not part of the model. *)
Definition logger_info (msg : string) : M W unit := ret tt.

(** [handle_response(callback)]. *)
Definition handle_response (callback : M W Response) : M W Response :=
  do response <- callback;
  if status response =? 401 then
    do text <- lift (Utf8.decode (data response));
    do _u <- logger_info text;
    raise OctopusApiKeyInvalid
  else if (negb (status response =? 200) && negb (status response =? 201))%bool then
    do text <- lift (Utf8.decode (data response));
    do _u <- logger_info text;
    do body <- lift (Utf8.decode (data response));
    raise (OctopusRequestFailed ("Request failed with " ++ body))
  else ret response.

(** The decorator [@retry(HTTPError, tries=..., delay=2)], for [tries] of
    one or more (the module always writes [tries=3]): the call is attempted
    again while it raises [HTTPError] and attempts remain; the last attempt
    lets the exception through. Any other exception leaves at once. The
    delay between attempts is not modelled, nor is what [@logging_wrapper]
    prints. *)
Fixpoint retry {A : Type} (tries : nat) (f : M W A) : M W A :=
  match tries with
  | O => f
  | S O => f
  | S n =>
      fun w =>
        match f w with
        | (Raise HTTPError, w') => retry n f w'
        | r => r
        end
  end.

(** [get_space(space_id, api_key, octopus_url)]. *)
Definition get_space (space_id api_key octopus_url : string) : M W Item :=
  retry 3
    (do _a <- ensure_string_not_empty space_id
                "space_id must be a non-empty string (get_space).";
     do _b <- ensure_string_not_empty octopus_url
                "octopus_url must be the Octopus Url (get_space).";
     do _c <- ensure_string_not_empty api_key
                "api_key must be the Octopus Api key (get_space).";
     let base_url := "api/Spaces/" ++ quote_safe space_id in
     let api := build_url octopus_url base_url [] in
     do resp <- handle_response
                  (http_request (mkRequest "GET" api (get_octopus_headers api_key)));
     lift_json (json_item resp)).

(** [get_space_id_and_name_from_name(space_name, my_api_key,
    my_octopus_api)]: returns the pair of the id and the actual name. *)
Definition get_space_id_and_name_from_name (space_name my_api_key my_octopus_api : string)
  : M W (string * string) :=
  do _a <- ensure_string_not_empty space_name
             "space_name must be a non-empty string (get_space_id_and_name_from_name).";
  do _b <- ensure_string_not_empty my_octopus_api
             "my_octopus_api must be the Octopus Url (get_space_id_and_name_from_name).";
  do _c <- ensure_string_not_empty my_api_key
             "my_api_key must be the Octopus Api key (get_space_id_and_name_from_name).";
  if Py.startswith space_name "Spaces-" then
    do space <- get_space space_name my_api_key my_octopus_api;
    ret (Id space, Name space)
  else
    let api := build_url my_octopus_api "api/spaces" [("take", QInt TAKE_ALL)] in
    do resp <- handle_response
                 (http_request (mkRequest "GET" api (get_octopus_headers my_api_key)));
    do items <- lift_json (json_items resp);
    match List.filter (fun s => String.eqb (Name s) space_name) items with
    | [s] => ret (Id s, Name s)
    | _ =>
        match List.filter
                (fun s => String.eqb (Py.strip (Py.lower (Name s)))
                                     (Py.strip (Py.lower space_name))) items with
        | [s] => ret (Id s, Name s)
        | _ => raise (SpaceNotFound space_name)
        end
    end.

(** [get_project(space_id, project_name, api_key, octopus_url)]. *)
Definition get_project (space_id project_name api_key octopus_url : string) : M W Item :=
  retry 3
    (do _a <- ensure_string_not_empty space_id
                "space_id must be a non-empty string (get_project).";
     do _b <- ensure_string_not_empty project_name
                "project_name must be a non-empty string (get_project).";
     if Py.startswith project_name "Projects-" then
       let base_url := "api/" ++ quote_safe space_id ++ "/Projects/" ++ quote_safe project_name in
       let api := build_url octopus_url base_url [] in
       do resp <- handle_response
                    (http_request (mkRequest "GET" api (get_octopus_headers api_key)));
       lift_json (json_item resp)
     else
       let base_url := "api/" ++ quote_safe space_id ++ "/Projects" in
       let api := build_url octopus_url base_url [("partialname", QStr project_name)] in
       do resp <- handle_response
                    (http_request (mkRequest "GET" api (get_octopus_headers api_key)));
       do items <- lift_json (json_items resp);
       match get_item_fuzzy items project_name with
       | Some project => ret project
       | None =>
           let api := build_url octopus_url base_url [("take", QInt TAKE_ALL)] in
           do resp <- handle_response
                        (http_request (mkRequest "GET" api (get_octopus_headers api_key)));
           do items <- lift_json (json_items resp);
           match get_item_fuzzy items project_name with
           | Some project => ret project
           | None => raise (ResourceNotFound "Project" project_name)
           end
       end).

(** The body shared by the resolvers that have no id shortcut: a listing
    filtered by [partialname], then the plain listing of [base_url], each
    followed by [get_item_fuzzy]; [ResourceNotFound(kind, name)] when both
    give nothing. The three functions below instantiate it as the source
    writes it out. *)
Definition probe_then_list (kind base_url name api_key octopus_url : string) : M W Item :=
  let api := build_url octopus_url base_url [("partialname", QStr name)] in
  do resp <- handle_response
               (http_request (mkRequest "GET" api (get_octopus_headers api_key)));
  do items <- lift_json (json_items resp);
  match get_item_fuzzy items name with
  | Some found => ret found
  | None =>
      let api := build_url octopus_url base_url [] in
      do resp <- handle_response
                   (http_request (mkRequest "GET" api (get_octopus_headers api_key)));
      do items <- lift_json (json_items resp);
      match get_item_fuzzy items name with
      | Some found => ret found
      | None => raise (ResourceNotFound kind name)
      end
  end.

(** [get_environment_fuzzy(space_id, environment_name, api_key, octopus_url)]. *)
Definition get_environment_fuzzy (space_id environment_name api_key octopus_url : string)
  : M W Item :=
  retry 3
    (let base_url := "api/" ++ quote_safe space_id ++ "/Environments" in
     probe_then_list "Environment" base_url environment_name api_key octopus_url).

(** [get_tenant_fuzzy(space_id, tenant_name, api_key, octopus_url)]. *)
Definition get_tenant_fuzzy (space_id tenant_name api_key octopus_url : string)
  : M W Item :=
  retry 3
    (let base_url := "api/" ++ quote_safe space_id ++ "/Tenants" in
     probe_then_list "Tenant" base_url tenant_name api_key octopus_url).

(** [get_project_fuzzy(space_id, project_name, api_key, octopus_url)]. *)
Definition get_project_fuzzy (space_id project_name api_key octopus_url : string)
  : M W Item :=
  retry 3
    (let base_url := "api/" ++ quote_safe space_id ++ "/Projects" in
     probe_then_list "Project" base_url project_name api_key octopus_url).

(** *** Page-by-page listing *)

(** [get_spaces_batch(skip, take, api_key, octopus_url)]. *)
Definition get_spaces_batch (skip take : Z) (api_key octopus_url : string)
  : M W (list Item) :=
  retry 3
    (let api := build_url octopus_url "api/Spaces"
                  [("take", QInt take); ("skip", QInt skip)] in
     do resp <- handle_response
                  (http_request (mkRequest "GET" api (get_octopus_headers api_key)));
     lift_json (json_items resp)).

(** [get_projects_batch(skip, take, space_id, api_key, octopus_url)]. *)
Definition get_projects_batch (skip take : Z) (space_id api_key octopus_url : string)
  : M W (list Item) :=
  retry 3
    (let api := build_url octopus_url ("api/" ++ quote_safe space_id ++ "/Projects")
                  [("take", QInt take); ("skip", QInt skip)] in
     do resp <- handle_response
                  (http_request (mkRequest "GET" api (get_octopus_headers api_key)));
     lift_json (json_items resp)).

(** How a generator stands after its consumer has let it run: it left its
    loop, it raised, or it is suspended and would fetch another page. *)
Inductive GenEnd :=
| Exhausted
| Failed (e : Exn)
| Suspended.

(** The loop of [get_spaces_generator] and [get_projects_generator]:
    [while True]: fetch the batch at [skip], yield its items, leave when
    [len(batch) != take], else [skip += take]. [fuel] bounds the number of
    pages the consumer lets the generator fetch; the result is the items
    yielded so far, how the generator stands, and the world. *)
Fixpoint generator_loop {A : Type} (fuel : nat) (get_batch : Z -> Z -> M W (list A))
         (skip take : Z) (w : W) : list A * GenEnd * W :=
  match fuel with
  | O => ([], Suspended, w)
  | S fuel' =>
      match get_batch skip take w with
      | (Raise e, w') => ([], Failed e, w')
      | (Ok batch, w') =>
          if negb (Z.of_nat (length batch) =? take)
          then (batch, Exhausted, w')
          else
            let '(rest, e, w'') := generator_loop fuel' get_batch (skip + take) take w' in
            ((batch ++ rest)%list, e, w'')
      end
  end.

(** [get_spaces_generator(api_key, octopus_url)]. *)
Definition get_spaces_generator (fuel : nat) (api_key octopus_url : string) (w : W)
  : list Item * GenEnd * W :=
  let skip := 0 in
  let take := 30 in
  generator_loop fuel
    (fun skip take => get_spaces_batch skip take api_key octopus_url) skip take w.

(** [get_projects_generator(space_id, api_key, octopus_url)]. *)
Definition get_projects_generator (fuel : nat) (space_id api_key octopus_url : string) (w : W)
  : list Item * GenEnd * W :=
  let skip := 0 in
  let take := 30 in
  generator_loop fuel
    (fun skip take => get_projects_batch skip take space_id api_key octopus_url) skip take w.

(** *** The process-wide caches *)

(** Truthiness of [d.get(k)] when the values are dictionaries: a missing
    key gives [None], and an empty dictionary is false as well. *)
Definition truthy_dict {V : Type} (o : option (gmap string V)) : bool :=
  match o with
  | Some d => negb (bool_decide (d = ∅))
  | None => false
  end.

(** [d.get(k)] on the innermost level, when it is true. *)
Definition get_true (d : gmap string Item) (k : string) : option Item :=
  match d !! k with
  | Some v => if truthy_item v then Some v else None
  | None => None
  end.

(** [cache[octopus_url][space_id]], read after both levels were created. *)
Definition names_of (cache : Cache) (octopus_url space_id : string) : gmap string Item :=
  default ∅ (default ∅ (cache !! octopus_url) !! space_id).

(** [if not cache.get(octopus_url): cache[octopus_url] = {}]. *)
Definition guard_url (cache : Cache) (octopus_url : string) : Cache :=
  if negb (truthy_dict (cache !! octopus_url))
  then <[octopus_url := ∅]> cache else cache.

(** [if not cache[octopus_url].get(space_id): cache[octopus_url][space_id] = {}]. *)
Definition guard_space (cache : Cache) (octopus_url space_id : string) : Cache :=
  if negb (truthy_dict (default ∅ (cache !! octopus_url) !! space_id))
  then <[octopus_url := <[space_id := ∅]> (default ∅ (cache !! octopus_url))]> cache
  else cache.

(** [cache[octopus_url][space_id][name] = r]. *)
Definition store (cache : Cache) (octopus_url space_id name : string) (r : Item) : Cache :=
  <[octopus_url :=
      <[space_id := <[name := r]> (names_of cache octopus_url space_id)]>
        (default ∅ (cache !! octopus_url))]> cache.

(** The body shared by [get_environment_fuzzy_cached] and
    [get_tenant_fuzzy_cached]: create the two outer levels when they are
    missing or empty, call [resolver] and store its result when the name
    has no true entry, return the entry. The state is the cache
    dictionary paired with the world. *)
Definition fuzzy_cached (resolver : string -> string -> string -> string -> M W Item)
           (space_id name api_key octopus_url : string) : M (Cache * W) Item :=
  fun st =>
    let cache := fst st in
    let w := snd st in
    let cache1 := guard_url cache octopus_url in
    let cache2 := guard_space cache1 octopus_url space_id in
    match get_true (names_of cache2 octopus_url space_id) name with
    | Some found => (Ok found, (cache2, w))
    | None =>
        match resolver space_id name api_key octopus_url w with
        | (Ok r, w') => (Ok r, (store cache2 octopus_url space_id name r, w'))
        | (Raise e, w') => (Raise e, (cache2, w'))
        end
    end.

(** [get_environment_fuzzy_cached(space_id, environment_name, api_key,
    octopus_url)], over [environment_cache]. *)
Definition get_environment_fuzzy_cached
           (space_id environment_name api_key octopus_url : string) : M (Cache * W) Item :=
  fuzzy_cached get_environment_fuzzy space_id environment_name api_key octopus_url.

(** [get_tenant_fuzzy_cached(space_id, tenant_name, api_key, octopus_url)],
    over [tenant_cache]. *)
Definition get_tenant_fuzzy_cached
           (space_id tenant_name api_key octopus_url : string) : M (Cache * W) Item :=
  fuzzy_cached get_tenant_fuzzy space_id tenant_name api_key octopus_url.

End Remote.

(** ** Observation of calls *)



(** A batch function that records the [(skip, take)] of every call, in
    order, next to the world state. *)
Definition logged_batch {W A : Type} (get_batch : Z -> Z -> M W (list A))
  : Z -> Z -> M (W * list (Z * Z)) (list A) :=
  fun skip take wl =>
    let '(r, w') := get_batch skip take (fst wl) in
    (r, (w', (snd wl ++ [(skip, take)])%list)).

(** [fetches get_batch skip take batches w w']: called at [skip],
    [skip + take], ... from the world [w], the batch function returns the
    [batches] one after the other and leaves the world [w']. *)
Fixpoint fetches {W A : Type} (get_batch : Z -> Z -> M W (list A)) (skip take : Z)
         (batches : list (list A)) (w w' : W) : Prop :=
  match batches with
  | [] => w' = w
  | b :: rest =>
      exists w1, get_batch skip take w = (Ok b, w1)
                 /\ fetches get_batch (skip + take) take rest w1 w'
  end.

(** The requests of the first [n] pages of size [take], from [skip]. *)
Fixpoint page_requests (n : nat) (skip take : Z) : list (Z * Z) :=
  match n with
  | O => []
  | S n' => (skip, take) :: page_requests n' (skip + take) take
  end.

(** [answers req w items w']: the transport answers [req] with a 200 or 201
    response whose body lists [items]. *)
Definition answers {W : Type} {E : Env W} (req : Request) (w : W) (items : list Item) (w' : W)
  : Prop :=
  exists resp, http_request req w = (Ok resp, w')
               /\ (status resp = 200 \/ status resp = 201)
               /\ json_items resp = Some items.

(** The candidates whose name is the queried name, and those whose name is
    the queried name once both are lowercased and trimmed. *)
Definition exact_matches (items : list Item) (name : string) : list Item :=
  List.filter (fun i => String.eqb (Name i) name) items.

Definition loose_matches {T : Py.Text} (items : list Item) (name : string) : list Item :=
  List.filter
    (fun i => String.eqb (Py.strip (Py.lower (Name i))) (Py.strip (Py.lower name))) items.

(** A resolver that counts its invocations next to the world state. *)
Definition counted {W : Type} (resolver : string -> string -> string -> string -> M W Item)
  : string -> string -> string -> string -> M (W * nat) Item :=
  fun space_id name api_key octopus_url wn =>
    let '(r, w') := resolver space_id name api_key octopus_url (fst wn) in
    (r, (w', S (snd wn))).

(** Runs a sequence of cached lookups, whatever their arguments and
    outcomes, and returns the final cache and world. *)
Fixpoint run_calls {W : Type}
         (cached : string -> string -> string -> string -> M (Cache * W) Item)
         (calls : list (string * string * string * string)) (st : Cache * W) : Cache * W :=
  match calls with
  | [] => st
  | (space_id, name, api_key, octopus_url) :: rest =>
      run_calls cached rest (snd (cached space_id name api_key octopus_url st))
  end.

(** ** Stand-ins for the collaborators

    Concrete versions of the helpers that are outside the sources, used to
    evaluate the functions above on concrete inputs. *)

Module StandIn.

(** [str.lower] and [str.strip] on ASCII text, where they agree with the
    built-ins: they serve to evaluate the functions on ASCII samples. *)

(** [c.lower()] on one ASCII character. *)
Definition lower_ascii (c : ascii) : ascii :=
  let n := nat_of_ascii c in
  if (Nat.leb 65 n && Nat.leb n 90)%bool then ascii_of_nat (n + 32) else c.

(** [s.lower()] for an ASCII [s]. *)
Fixpoint lower (s : string) : string :=
  match s with
  | EmptyString => EmptyString
  | String c r => String (lower_ascii c) (lower r)
  end.

(** [c.isspace()] on one ASCII character: tab, line feed, vertical tab,
    form feed, carriage return, the four separators 0x1c-0x1f, space. *)
Definition isspace (c : ascii) : bool :=
  let n := nat_of_ascii c in
  ((Nat.leb 9 n && Nat.leb n 13) || (Nat.leb 28 n && Nat.leb n 32))%bool.

Fixpoint lstrip (s : string) : string :=
  match s with
  | EmptyString => EmptyString
  | String c r => if isspace c then lstrip r else s
  end.

(** Drops trailing whitespace: a character is kept when it is not a space
    or when something is kept after it. *)
Fixpoint rstrip (s : string) : string :=
  match s with
  | EmptyString => EmptyString
  | String c r =>
      match rstrip r with
      | EmptyString => if isspace c then EmptyString else String c EmptyString
      | r' => String c r'
      end
  end.

(** [s.strip()] for an ASCII [s]. *)
Definition strip (s : string) : string := rstrip (lstrip s).

Definition ascii_text : Py.Text := {| Py.lower := lower; Py.strip := strip |}.

Definition is_digit (c : ascii) : bool :=
  let n := nat_of_ascii c in (Nat.leb 48 n && Nat.leb n 57)%bool.

Fixpoint digits_value (s : string) (acc : Z) : option Z :=
  match s with
  | EmptyString => Some acc
  | String c r =>
      if is_digit c
      then digits_value r (10 * acc + Z.of_nat (nat_of_ascii c - 48))
      else None
  end.

(** Modelled from the spec: [string_to_int], of
    [domain.converters.string_to_int], absent from the sources. A step
    filter token is "an integer step index": a run of decimal digits with
    an optional sign gives its value, anything else gives [None]. *)
Definition string_to_int (s : string) : option Z :=
  match s with
  | EmptyString => None
  | String "-"%char (String c r) => option_map Z.opp (digits_value (String c r) 0)
  | String "+"%char (String c r) => digits_value (String c r) 0
  | String "-"%char EmptyString => None
  | String "+"%char EmptyString => None
  | _ => digits_value s 0
  end.

Definition is_letter (c : ascii) : bool :=
  let n := nat_of_ascii c in
  ((Nat.leb 65 n && Nat.leb n 90) || (Nat.leb 97 n && Nat.leb n 122))%bool.

Fixpoint drop_punctuation (s : string) : string :=
  match s with
  | EmptyString => EmptyString
  | String c r =>
      if (is_letter c || is_digit c || isspace c)%bool
      then String c (drop_punctuation r)
      else drop_punctuation r
  end.

(** Modelled from the spec: [normalize_log_step_name], of
    [domain.sanitizers.sanitized_list], absent from the sources: the
    "normalized form (case-folded, punctuation-insensitive)" of a name. *)
Definition normalize_log_step_name (s : string) : string :=
  strip (lower (drop_punctuation s)).

(** Length of a longest common subsequence. *)
Fixpoint lcs (a b : list ascii) : nat :=
  match a with
  | [] => O
  | x :: a' =>
      (fix inner (b : list ascii) : nat :=
         match b with
         | [] => O
         | y :: b' =>
             if Ascii.eqb x y then S (lcs a' b')
             else Nat.max (lcs a' b) (inner b')
         end) b
  end.

(** Modelled from the spec: [fuzz.ratio] of [fuzzywuzzy], an external
    library: "a fuzzy similarity score (on a 0-100 scale, e.g.
    Levenshtein-ratio-style)". Twice the number of matching characters
    over the total length, in percent, rounded; equal strings score 100
    and an empty string scores 0 against anything else. *)
Definition fuzz_ratio (s1 s2 : string) : Z :=
  if String.eqb s1 s2 then 100
  else
    let a := list_ascii_of_string s1 in
    let b := list_ascii_of_string s2 in
    let total := Z.of_nat (length a + length b) in
    if total =? 0 then 0
    else (2 * (200 * Z.of_nat (lcs a b)) + total) / (2 * total).

(** A scripted transport: the world is the list of the outcomes of the
    coming [http.request] calls; a call takes the first one, and raises
    [HTTPError] when none is left. *)
Definition scripted_request (req : Request) : M (list (Result Response)) Response :=
  fun w =>
    match w with
    | [] => (Raise HTTPError, [])
    | r :: w' => (r, w')
    end.

Fixpoint lines_from (cur : list Byte.byte) (bs : list Byte.byte) : list string :=
  match bs with
  | [] => match cur with [] => [] | _ => [string_of_list_byte (rev cur)] end
  | b :: r =>
      if Byte.eqb b Byte.x0a
      then string_of_list_byte (rev cur) :: lines_from [] r
      else lines_from (b :: cur) r
  end.

(** A line-oriented stand-in for the JSON body of a listing: every line
    of the body is the name of one resource, whose id is that name
    prefixed by ["Id-"]. *)
Definition items_of_lines (resp : Response) : option (list Item) :=
  Some (map (fun n => mkItem ("Id-" ++ n) n) (lines_from [] (data resp))).

(** The stand-in for the JSON body of a single resource: the first line
    of the body is its name. *)
Definition item_of_lines (resp : Response) : option Item :=
  match lines_from [] (data resp) with
  | n :: _ => Some (mkItem ("Id-" ++ n) n)
  | [] => None
  end.

#[export] Instance scripted : Env (list (Result Response)) :=
  {| http_request := scripted_request;
     TAKE_ALL := 10000;
     quote_safe := fun s => s;
     string_not_empty := Py.truthy_str;
     json_item := item_of_lines;
     json_items := items_of_lines |}.

(** A response with the given status whose body is the given text. *)
Definition response_of (code : Z) (body : string) : Response :=
  mkResponse code (list_byte_of_string body).

(** A fake listing function: the world is the list of the batches still
    to be served; every call serves the next one, whatever [skip] and
    [take], and an exhausted list serves empty batches. *)
Definition fake_batches (skip take : Z) : M (list (list nat)) (list nat) :=
  fun w =>
    match w with
    | [] => (Ok [], [])
    | b :: w' => (Ok b, w')
    end.

End StandIn.

(** ** Further functions of the module *)

(** A channel as the server lists it, with the key ["IsDefault"]. *)
Record Channel := mkChannel {
  ChannelId : string;
  ChannelName : string;
  IsDefault : bool
}.

(** A release as the server lists it, with the key ["Version"]. *)
Record Release := mkRelease {
  ReleaseId : string;
  Version : string
}.

(** [list(map(f, xs))] for a function that may raise: the elements are
    handled from left to right and the first exception ends the call. *)
Fixpoint map_m {S A B : Type} (f : A -> M S B) (xs : list A) : M S (list B) :=
  match xs with
  | [] => ret []
  | x :: rest =>
      do y <- f x;
      do ys <- map_m f rest;
      ret (y :: ys)
  end.

Section RemoteMore.

Context {T : Py.Text} {W : Type} {E : Env W}.

(** The JSON reading of a listing of channels and of a listing of releases
    ([resp.json()["Items"]] with the keys the two functions below read). *)
Variable json_channels : Response -> option (list Channel).
Variable json_releases : Response -> option (list Release).

(** [get_environments_batch(skip, take, space_id, api_key, octopus_url)]. *)
Definition get_environments_batch (skip take : Z) (space_id api_key octopus_url : string)
  : M W (list Item) :=
  retry 3
    (let api := build_url octopus_url ("api/" ++ quote_safe space_id ++ "/Environments")
                  [("take", QInt take); ("skip", QInt skip)] in
     do resp <- handle_response
                  (http_request (mkRequest "GET" api (get_octopus_headers api_key)));
     lift_json (json_items resp)).

(** [get_environments_generator(space_id, api_key, octopus_url)]. *)
Definition get_environments_generator (fuel : nat) (space_id api_key octopus_url : string) (w : W)
  : list Item * GenEnd * W :=
  let skip := 0 in
  let take := 30 in
  generator_loop fuel
    (fun skip take => get_environments_batch skip take space_id api_key octopus_url) skip take w.

(** [get_tenants_batch(skip, take, space_id, api_key, octopus_url)]. *)
Definition get_tenants_batch (skip take : Z) (space_id api_key octopus_url : string)
  : M W (list Item) :=
  retry 3
    (let api := build_url octopus_url ("api/" ++ quote_safe space_id ++ "/Tenants")
                  [("take", QInt take); ("skip", QInt skip)] in
     do resp <- handle_response
                  (http_request (mkRequest "GET" api (get_octopus_headers api_key)));
     lift_json (json_items resp)).

(** [get_tenants_generator(space_id, api_key, octopus_url)]. *)
Definition get_tenants_generator (fuel : nat) (space_id api_key octopus_url : string) (w : W)
  : list Item * GenEnd * W :=
  let skip := 0 in
  let take := 30 in
  generator_loop fuel
    (fun skip take => get_tenants_batch skip take space_id api_key octopus_url) skip take w.

(** [get_runbooks_batch(skip, take, space_id, project_id, api_key, octopus_url)]. *)
Definition get_runbooks_batch (skip take : Z) (space_id project_id api_key octopus_url : string)
  : M W (list Item) :=
  retry 3
    (let api := build_url octopus_url
                  ("api/" ++ quote_safe space_id ++ "/Projects/" ++ quote_safe project_id
                          ++ "/Runbooks")
                  [("take", QInt take); ("skip", QInt skip)] in
     do resp <- handle_response
                  (http_request (mkRequest "GET" api (get_octopus_headers api_key)));
     lift_json (json_items resp)).

(** [get_runbooks_generator(space_id, project_id, api_key, octopus_url)]. *)
Definition get_runbooks_generator (fuel : nat) (space_id project_id api_key octopus_url : string)
           (w : W) : list Item * GenEnd * W :=
  let skip := 0 in
  let take := 30 in
  generator_loop fuel
    (fun skip take => get_runbooks_batch skip take space_id project_id api_key octopus_url)
    skip take w.

(** [get_all_runbooks_batch(skip, take, space_id, api_key, octopus_url)]. *)
Definition get_all_runbooks_batch (skip take : Z) (space_id api_key octopus_url : string)
  : M W (list Item) :=
  retry 3
    (let api := build_url octopus_url ("api/" ++ quote_safe space_id ++ "/Runbooks")
                  [("take", QInt take); ("skip", QInt skip)] in
     do resp <- handle_response
                  (http_request (mkRequest "GET" api (get_octopus_headers api_key)));
     lift_json (json_items resp)).

(** [get_all_runbooks_generator(space_id, api_key, octopus_url)]. *)
Definition get_all_runbooks_generator (fuel : nat) (space_id api_key octopus_url : string) (w : W)
  : list Item * GenEnd * W :=
  let skip := 0 in
  let take := 30 in
  generator_loop fuel
    (fun skip take => get_all_runbooks_batch skip take space_id api_key octopus_url) skip take w.

(** [get_runbook_fuzzy(space_id, project_id, runbook_name, api_key, octopus_url)]. *)
Definition get_runbook_fuzzy (space_id project_id runbook_name api_key octopus_url : string)
  : M W Item :=
  retry 3
    (let base_url := "api/" ++ quote_safe space_id ++ "/Projects/" ++ quote_safe project_id
                            ++ "/Runbooks" in
     probe_then_list "Runbook" base_url runbook_name api_key octopus_url).

(** [get_environment(space_id, environment_id, api_key, octopus_url)]. *)
Definition get_environment (space_id environment_id api_key octopus_url : string) : M W Item :=
  retry 3
    (do _a <- ensure_string_not_empty space_id
                "space_id must be a non-empty string (get_environment).";
     do _b <- ensure_string_not_empty environment_id
                "environment_id must be a non-empty string (get_environment).";
     let base_url := "api/" ++ quote_safe space_id ++ "/Environments/"
                            ++ quote_safe environment_id in
     let api := build_url octopus_url base_url [] in
     do resp <- handle_response
                  (http_request (mkRequest "GET" api (get_octopus_headers api_key)));
     lift_json (json_item resp)).

(** [get_tenant(space_id, tenant_id, api_key, octopus_url)]. *)
Definition get_tenant (space_id tenant_id api_key octopus_url : string) : M W Item :=
  retry 3
    (let base_url := "api/" ++ quote_safe space_id ++ "/Tenants/" ++ quote_safe tenant_id in
     let api := build_url octopus_url base_url [] in
     do resp <- handle_response
                  (http_request (mkRequest "GET" api (get_octopus_headers api_key)));
     lift_json (json_item resp)).

(** [get_task(space_id, task_id, api_key, octopus_url)], where [task_id]
    may be [None]; the result is [None] when no task is asked for. *)
Definition get_task (space_id : string) (task_id : option string) (api_key octopus_url : string)
  : M W (option Item) :=
  retry 3
    (do _a <- ensure_string_not_empty space_id "space_id must be a non-empty string (get_task).";
     match task_id with
     | None => ret None
     | Some EmptyString => ret None
     | Some task_id =>
         let api := build_url octopus_url
                      ("api/" ++ quote_safe space_id ++ "/Tasks/" ++ quote_safe task_id) [] in
         do resp <- handle_response
                      (http_request (mkRequest "GET" api (get_octopus_headers api_key)));
         do task <- lift_json (json_item resp);
         ret (Some task)
     end).

(** [get_channels(space_id, project_id, api_key, octopus_url)], with the
    reading of the listed channels as a parameter: the callers read
    different keys of the same objects. *)
Definition get_channels_as {A : Type} (reader : Response -> option (list A))
           (space_id project_id api_key octopus_url : string) : M W (list A) :=
  retry 3
    (let api := build_url octopus_url
                  ("api/" ++ quote_safe space_id ++ "/projects/" ++ quote_safe project_id
                          ++ "/Channels") [] in
     do resp <- handle_response
                  (http_request (mkRequest "GET" api (get_octopus_headers api_key)));
     lift_json (reader resp)).

Definition get_channels (space_id project_id api_key octopus_url : string) : M W (list Item) :=
  get_channels_as json_items space_id project_id api_key octopus_url.

(** [get_channel(space_id, channel_id, api_key, octopus_url)]. *)
Definition get_channel (space_id channel_id api_key octopus_url : string) : M W Item :=
  retry 3
    (let api := build_url octopus_url
                  ("api/" ++ quote_safe space_id ++ "/Channels/" ++ quote_safe channel_id) [] in
     do resp <- handle_response
                  (http_request (mkRequest "GET" api (get_octopus_headers api_key)));
     lift_json (json_item resp)).

(** [get_channel_by_name(space_id, project_id, channel_name, api_key,
    octopus_url)]. *)
Definition get_channel_by_name (space_id project_id channel_name api_key octopus_url : string)
  : M W Item :=
  retry 3
    (do channels <- get_channels space_id project_id api_key octopus_url;
     match get_item_fuzzy channels channel_name with
     | None => raise (ResourceNotFound "Channel" project_id)
     | Some matching_channel => ret matching_channel
     end).

(** [get_default_channel(space_id, project_id, api_key, octopus_url)]. *)
Definition get_default_channel (space_id project_id api_key octopus_url : string)
  : M W Channel :=
  retry 3
    (do channels <- get_channels_as json_channels space_id project_id api_key octopus_url;
     match List.filter IsDefault channels with
     | [] => raise (ResourceNotFound "Default Channel" project_id)
     | first :: _ => ret first
     end).

(** [get_release_fuzzy(space_id, project_id, release_version, api_key,
    octopus_url)]. *)
Definition get_release_fuzzy (space_id project_id release_version api_key octopus_url : string)
  : M W Release :=
  retry 3
    (let base_url := "api/" ++ quote_safe space_id ++ "/projects/" ++ quote_safe project_id
                            ++ "/releases" in
     let api := build_url octopus_url base_url [("searchByVersion", QStr release_version)] in
     do resp <- handle_response
                  (http_request (mkRequest "GET" api (get_octopus_headers api_key)));
     do releases <- lift_json (json_releases resp);
     match List.filter (fun release => String.eqb (Version release) release_version) releases with
     | [] => raise (ResourceNotFound "Release" release_version)
     | first :: _ => ret first
     end).

(** [get_channel_cached(space_id, channel_id, api_key, octopus_url)], over
    [channel_cache]: the body of the two cached resolvers, with
    [get_channel] as the resolver and the channel id as the innermost key. *)
Definition get_channel_cached (space_id channel_id api_key octopus_url : string)
  : M (Cache * W) Item :=
  fuzzy_cached get_channel space_id channel_id api_key octopus_url.

(** [get_environments_fuzzy_cached(space_id, environment_names, api_key,
    octopus_url)]. *)
Definition get_environments_fuzzy_cached (space_id : string)
           (environment_names : option (list string)) (api_key octopus_url : string)
  : M (Cache * W) (list Item) :=
  if negb (Py.truthy_list environment_names) then ret []
  else
    map_m (fun env => get_environment_fuzzy_cached space_id env api_key octopus_url)
          (default [] environment_names).

(** [get_tenants_fuzzy_cached(space_id, tenant_names, api_key, octopus_url)]. *)
Definition get_tenants_fuzzy_cached (space_id : string)
           (tenant_names : option (list string)) (api_key octopus_url : string)
  : M (Cache * W) (list Item) :=
  if Py.truthy_list tenant_names
  then map_m (fun tenant => get_tenant_fuzzy_cached space_id tenant api_key octopus_url)
             (default [] tenant_names)
  else ret [].

(** [get_task_interruptions(space_id, server_task, api_key, octopus_url)]. *)
Definition get_task_interruptions (space_id server_task api_key octopus_url : string)
  : M W (option (list Item)) :=
  retry 3
    (let base_url := "api/" ++ quote_safe space_id ++ "/interruptions" in
     let api := build_url octopus_url base_url [("regarding", QStr server_task)] in
     do resp <- handle_response
                  (http_request (mkRequest "GET" api (get_octopus_headers api_key)));
     do interruptions <- lift_json (json_items resp);
     if Nat.eqb (length interruptions) 0 then ret None else ret (Some interruptions)).

(** [get_users(api_key, octopus_url)]. *)
Definition get_users (api_key octopus_url : string) : M W (option (list Item)) :=
  retry 3
    (let base_url := "api/users" in
     let api := build_url octopus_url base_url [("take", QInt TAKE_ALL)] in
     do resp <- handle_response
                  (http_request (mkRequest "GET" api (get_octopus_headers api_key)));
     do interruptions <- lift_json (json_items resp);
     if Nat.eqb (length interruptions) 0 then ret None else ret (Some interruptions)).

End RemoteMore.

(** ** Further observation of calls *)

(** The elements of a log tree, in the order of the traversal. *)
Fixpoint all_elements (log_item : ActivityLog.LogItem) : list ActivityLog.LogElement :=
  match log_item with
  | ActivityLog.mkLogItem _ _ elements children =>
      (elements ++ flat_map all_elements children)%list
  end.

(** The names of the nodes of a log tree, in the order of the traversal. *)
Fixpoint all_names (log_item : ActivityLog.LogItem) : list string :=
  match log_item with
  | ActivityLog.mkLogItem name _ _ children => name :: flat_map all_names children
  end.

(** [ends_after_one_request E call req reader]: whenever the transport
    hands back a response to [req], of any status, [call] sends [req] once
    and nothing else, and does not end in [HTTPError]; a 200 or 201 answer
    gives what [reader] reads in it, a 401 answer with a readable body the
    invalid-key error, any other answer with a readable body the failed
    request that carries the body. *)
Definition ends_after_one_request {W A : Type} (E : Env W)
           (call : M (W * list Request) A) (req : Request) (reader : Response -> option A)
  : Prop :=
  forall w log resp w1,
    http_request req w = (Ok resp, w1) ->
    exists r,
      call (w, log) = (r, (w1, (log ++ [req])%list))
      /\ r <> Raise HTTPError
      /\ (status resp = 200 \/ status resp = 201 ->
          r = match reader resp with Some a => Ok a | None => Raise JSONDecodeError end)
      /\ (forall text, status resp = 401 -> Utf8.decode (data resp) = Ok text ->
                       r = Raise OctopusApiKeyInvalid)
      /\ (forall text, status resp <> 401 -> status resp <> 200 -> status resp <> 201 ->
                       Utf8.decode (data resp) = Ok text ->
                       r = Raise (OctopusRequestFailed ("Request failed with " ++ text))).

(** [gives_up_after E call req n]: against a transport that raises
    [HTTPError] on [req] whatever the world, [call] sends [req] exactly [n]
    times, nothing else, and ends in [HTTPError]. *)
Definition gives_up_after {W A : Type} (E : Env W)
           (call : M (W * list Request) A) (req : Request) (n : nat) : Prop :=
  (forall v, fst (http_request req v) = Raise HTTPError) ->
  forall w log,
    fst (call (w, log)) = Raise HTTPError
    /\ snd (snd (call (w, log))) = (log ++ repeat req n)%list.

(** [resolves_in_one_request E call probe name]: when the transport
    answers [probe] with a listing in which [get_item_fuzzy] selects a
    candidate for [name], [call] returns that candidate and has sent
    [probe] and nothing else. *)
Definition resolves_in_one_request {T : Py.Text} {W : Type} (E : Env W)
           (call : M (W * list Request) Item) (probe : Request) (name : string) : Prop :=
  forall w log items found w1,
    answers probe w items w1 ->
    get_item_fuzzy items name = Some found ->
    call (w, log) = (Ok found, (w1, (log ++ [probe])%list)).

(** [resolves_in_two_requests E call probe full name]: when the listing that
    answers [probe] selects nothing for [name] and the listing that answers
    [full] selects a candidate, [call] returns that candidate and has sent
    [probe], then [full], and nothing else. *)
Definition resolves_in_two_requests {T : Py.Text} {W : Type} (E : Env W)
           (call : M (W * list Request) Item) (probe full : Request) (name : string) : Prop :=
  forall w log l1 l2 found w1 w2,
    answers probe w l1 w1 ->
    get_item_fuzzy l1 name = None ->
    answers full w1 l2 w2 ->
    get_item_fuzzy l2 name = Some found ->
    call (w, log) = (Ok found, (w2, (log ++ [probe; full])%list)).

(** [forgets_failures resolver cached]: when a key has no entry and the
    resolver raises, the cached lookup raises the same exception, leaves the
    world as the resolver left it and gives no key an entry; the next
    lookup of the key runs the resolver again. *)
Definition forgets_failures {W : Type}
           (resolver : string -> string -> string -> string -> M W Item)
           (cached : string -> string -> string -> string -> M (Cache * W) Item) : Prop :=
  forall space_id name api_key octopus_url cache w e w1,
    names_of cache octopus_url space_id !! name = None ->
    resolver space_id name api_key octopus_url w = (Raise e, w1) ->
    let failed := cached space_id name api_key octopus_url (cache, w) in
    fst failed = Raise e
    /\ snd (snd failed) = w1
    /\ (forall u s n, names_of (fst (snd failed)) u s !! n = names_of cache u s !! n)
    /\ (forall r w2,
           resolver space_id name api_key octopus_url w1 = (Ok r, w2) ->
           let again := cached space_id name api_key octopus_url (snd failed) in
           fst again = Ok r /\ snd (snd again) = w2).

(** [keeps_other_keys cached]: a cached lookup, whatever its outcome, leaves
    the entry of every other key as it was: it neither creates, replaces
    nor removes it. *)
Definition keeps_other_keys {W : Type}
           (cached : string -> string -> string -> string -> M (Cache * W) Item) : Prop :=
  forall space_id name api_key octopus_url st u s n,
    (u, s, n) <> (octopus_url, space_id, name) ->
    names_of (fst (snd (cached space_id name api_key octopus_url st))) u s !! n
    = names_of (fst st) u s !! n.

(** [resolves_once resolver cached]: the first lookup of a key runs the
    resolver and stores what it found; after any further lookups, a lookup
    of that key returns the stored value and leaves cache and world as
    they are. *)
Definition resolves_once {W : Type}
           (resolver : string -> string -> string -> string -> M W Item)
           (cached : string -> string -> string -> string -> M (Cache * W) Item) : Prop :=
  forall space_id name api_key octopus_url cache w r w1,
    names_of cache octopus_url space_id !! name = None ->
    resolver space_id name api_key octopus_url w = (Ok r, w1) ->
    let first := cached space_id name api_key octopus_url (cache, w) in
    fst first = Ok r
    /\ snd (snd first) = w1
    /\ forall calls api_key',
        let st := run_calls cached calls (snd first) in
        cached space_id name api_key' octopus_url st = (Ok r, st).

(** ** Further stand-ins *)

Module StandInMore.

(** A transport that is down: every request raises [HTTPError]. *)
Definition dead_request (req : Request) : M unit Response :=
  fun w => (Raise HTTPError, w).

#[export] Instance dead : Env unit :=
  {| http_request := dead_request;
     TAKE_ALL := 10000;
     quote_safe := fun s => s;
     string_not_empty := Py.truthy_str;
     json_item := StandIn.item_of_lines;
     json_items := StandIn.items_of_lines |}.

(** A line-oriented stand-in for a listing of channels: every line is the
    name of a channel, and a leading star marks the default one. *)
Definition channels_of_lines (resp : Response) : option (list Channel) :=
  Some (map (fun n =>
               match n with
               | String "*"%char r => mkChannel ("Id-" ++ r) r true
               | _ => mkChannel ("Id-" ++ n) n false
               end)
            (StandIn.lines_from [] (data resp))).

(** A line-oriented stand-in for a listing of releases: every line is the
    version of a release. *)
Definition releases_of_lines (resp : Response) : option (list Release) :=
  Some (map (fun v => mkRelease ("Releases-" ++ v) v) (StandIn.lines_from [] (data resp))).

(** A listing function that ignores [skip] and serves the same full page
    of 30 items to every call. *)
Definition same_page (skip take : Z) : M unit (list nat) :=
  fun w => (Ok (repeat 7%nat 30), w).

(** A scripted listing function: the world is the list of the outcomes of
    the coming calls, batches or exceptions; an exhausted list serves empty
    batches. *)
Definition scripted_batches (skip take : Z) : M (list (Result (list nat))) (list nat) :=
  fun w =>
    match w with
    | [] => (Ok [], [])
    | r :: w' => (r, w')
    end.

End StandInMore.

(** * The primitives on sample values *)

Module PrimitiveChecks.

Example strip_sample : StandIn.strip "  Dev  Ops " = "Dev  Ops".
Proof. reflexivity. Qed.

Example lower_sample : StandIn.lower "Step 1: Deploy" = "step 1: deploy".
Proof. reflexivity. Qed.

Example join_sample : Py.join ", " ["a"; "b"; "c"] = "a, b, c".
Proof. reflexivity. Qed.

(** Two-byte "e acute" is well formed; an overlong slash, a surrogate and a
    lone continuation byte are not. *)
Example utf8_samples :
  Utf8.valid [195; 169]%N = true
  /\ Utf8.valid [192; 175]%N = false
  /\ Utf8.valid [237; 160; 128]%N = false
  /\ Utf8.valid [128]%N = false
  /\ Utf8.valid [240; 159; 144; 153]%N = true.
Proof. repeat split. Qed.

Example string_to_int_samples :
  StandIn.string_to_int "12" = Some 12
  /\ StandIn.string_to_int "0" = Some 0
  /\ StandIn.string_to_int "Deploy" = None
  /\ StandIn.string_to_int "" = None.
Proof. repeat split. Qed.

Example fuzz_ratio_samples :
  StandIn.fuzz_ratio "deploy web" "deploy web" = 100
  /\ StandIn.fuzz_ratio "deploy web" "deploy webs" = 95
  /\ StandIn.fuzz_ratio "1" "step 2 notify" = 0.
Proof. vm_compute. repeat split. Qed.

End PrimitiveChecks.

(** * Properties of the activity-log renderer *)

Module ActivityLogFacts.

Import ActivityLog.

(** Induction on a log tree, with the property available for every child. *)
Lemma LogItem_tree_ind (P : LogItem -> Prop) :
  (forall name status elements children,
      Forall P children -> P (mkLogItem name status elements children)) ->
  forall log_item, P log_item.
Proof.
  intros step. fix IH 1. intros [name status elements children].
  apply step. induction children as [|c cs IHcs]; constructor.
  - apply IH.
  - exact IHcs.
Qed.

Lemma flat_map_Forall_eq {A B : Type} (f g : A -> list B) (l : list A) :
  Forall (fun x => f x = g x) l -> flat_map f l = flat_map g l.
Proof.
  induction 1 as [|x xs Hx _ IH]; simpl; [reflexivity|]. now rewrite Hx, IH.
Qed.

Section Renderer.

Variable string_to_int : string -> option Z.
Variable normalize_log_step_name : string -> string.
Variable fuzz_ratio : string -> string -> Z.

Local Abbreviation filter_logs :=
  (filter_logs string_to_int normalize_log_step_name fuzz_ratio).
Local Abbreviation get_logs := (get_logs string_to_int normalize_log_step_name fuzz_ratio).
Local Abbreviation activity_logs_to_string :=
  (activity_logs_to_string string_to_int normalize_log_step_name fuzz_ratio).

(** One unfolding of [get_logs] away from the degenerate root case. *)
Lemma get_logs_below_root log_item depth steps categories include_name :
  get_logs log_item (S depth) steps categories include_name
  = if (Nat.eqb (S depth) 1 && negb (filter_logs log_item steps))%bool
    then own_logs log_item categories include_name
    else (own_logs log_item categories include_name
          ++ flat_map (fun child => get_logs child (S depth + 1) steps categories include_name)
                      (Children log_item))%list.
Proof. destruct log_item; reflexivity. Qed.

Lemma subtree_logs_unfold log_item categories include_name :
  subtree_logs log_item categories include_name
  = (own_logs log_item categories include_name
     ++ flat_map (fun child => subtree_logs child categories include_name)
                 (Children log_item))%list.
Proof. destruct log_item; reflexivity. Qed.

(** From depth 2 on, the step filter plays no part: the whole subtree is
    rendered. *)
Lemma get_logs_deep steps categories include_name :
  forall log_item depth,
    get_logs log_item (S (S depth)) steps categories include_name
    = subtree_logs log_item categories include_name.
Proof.
  induction log_item as [name status elements children IH] using LogItem_tree_ind.
  intros depth. rewrite get_logs_below_root, subtree_logs_unfold. simpl.
  f_equal. apply flat_map_Forall_eq.
  eapply Forall_impl; [exact IH|]. intros child Hchild. apply Hchild.
Qed.

(** At depth 1 the step filter decides between the whole subtree and the
    node's own lines. *)
Lemma get_logs_step log_item steps categories include_name :
  get_logs log_item 1 steps categories include_name
  = if filter_logs log_item steps
    then subtree_logs log_item categories include_name
    else own_logs log_item categories include_name.
Proof.
  rewrite get_logs_below_root, subtree_logs_unfold. simpl.
  destruct (filter_logs log_item steps); simpl; [|reflexivity].
  f_equal. apply flat_map_Forall_eq, Forall_forall. intros child _.
  apply get_logs_deep.
Qed.

Lemma get_logs_root name status elements children steps categories include_name :
  get_logs (mkLogItem name status elements children) 0 steps categories include_name
  = if (Nat.eqb (length elements) 0 && Nat.eqb (length children) 0)%bool
    then (if negb (Py.truthy_list categories)
          then ["No logs found (status: " ++ status ++ ")."]
          else [])
    else (own_logs (mkLogItem name status elements children) categories include_name
          ++ flat_map (fun child => get_logs child 1 steps categories include_name)
                      children)%list.
Proof. reflexivity. Qed.

(** [get_logs] collects for a node what the specification says the node
    emits. *)
Lemma own_logs_spec log_item categories include_name :
  own_logs log_item categories include_name
  = spec_node_lines log_item categories include_name.
Proof.
  unfold own_logs, spec_node_lines.
  assert (Hlines :
            (if Py.truthy_list categories
             then List.filter (fun x => Py.contains (Category x) (default [] categories))
                              (LogElements log_item)
             else LogElements log_item)
            = List.filter (spec_emits categories) (LogElements log_item)).
  { destruct categories as [[|c cs]|]; cbn [Py.truthy_list spec_emits default].
    - induction (LogElements log_item) as [|e l IH]; simpl; [reflexivity|]. now rewrite <- IH.
    - apply filter_ext. intros e. unfold Py.contains, id, spec_emits.
      induction (c :: cs) as [|c' l IH]; simpl; [reflexivity|].
      now rewrite IH, String.eqb_sym.
    - induction (LogElements log_item) as [|e l IH]; simpl; [reflexivity|]. now rewrite <- IH. }
  rewrite Hlines. destruct include_name; reflexivity.
Qed.

Lemma subtree_logs_spec categories include_name :
  forall log_item,
    subtree_logs log_item categories include_name
    = spec_subtree_lines log_item categories include_name.
Proof.
  induction log_item as [name status elements children IH] using LogItem_tree_ind.
  rewrite subtree_logs_unfold. cbn [spec_subtree_lines Children].
  rewrite own_logs_spec, flat_map_concat_map. do 2 f_equal.
  apply map_ext_Forall. exact IH.
Qed.

(** C1. Pruning happens at depth 1 only, under every step filter. A direct
    child of the task root that fails the step filter contributes exactly
    the lines it emits itself, its name when [include_name] and then the
    messages of its log lines that pass the category filter, and nothing of
    its descendants; one that passes contributes its entire subtree in
    pre-order; a node at depth 2 or more contributes its entire subtree
    whatever the step filter; and the rendering of a root that has log
    lines or children is its own lines followed by these contributions of
    its children, in order. The right-hand sides are the specification's
    rendering, written without [get_logs]. *)
Theorem step_filter_prunes_at_depth_one steps categories include_name :
  (forall node,
      filter_logs node steps = false ->
      get_logs node 1 steps categories include_name
      = ((if include_name then [Name node] else [])
         ++ map MessageText
              (List.filter
                 (fun line =>
                    match categories with
                    | Some (c :: cs) => existsb (fun c' => String.eqb c' (Category line)) (c :: cs)
                    | _ => true
                    end)
                 (LogElements node)))%list)
  /\ (forall node,
         filter_logs node steps = true ->
         get_logs node 1 steps categories include_name
         = spec_subtree_lines node categories include_name)
  /\ (forall node depth,
         get_logs node (S (S depth)) steps categories include_name
         = spec_subtree_lines node categories include_name)
  /\ (forall name status elements children,
         elements <> [] \/ children <> [] ->
         get_logs (mkLogItem name status elements children) 0 steps categories include_name
         = (spec_node_lines (mkLogItem name status elements children) categories include_name
            ++ concat
                 (map (fun child =>
                         if filter_logs child steps
                         then spec_subtree_lines child categories include_name
                         else spec_node_lines child categories include_name)
                      children))%list).
Proof.
  repeat apply conj.
  - intros node Hfail. rewrite get_logs_step, Hfail, own_logs_spec.
    unfold spec_node_lines. destruct include_name; reflexivity.
  - intros node Hpass. rewrite get_logs_step, Hpass. apply subtree_logs_spec.
  - intros node depth. rewrite get_logs_deep. apply subtree_logs_spec.
  - intros name status elements children Hcontent. rewrite get_logs_root.
    assert (Hroot : (Nat.eqb (length elements) 0 && Nat.eqb (length children) 0)%bool = false).
    { destruct Hcontent as [H|H]; [destruct elements|destruct children];
        try contradiction; simpl; trivial. now rewrite andb_false_r. }
    rewrite Hroot, own_logs_spec, flat_map_concat_map. do 2 f_equal.
    apply map_ext. intros child. rewrite get_logs_step.
    destruct (filter_logs child steps); [apply subtree_logs_spec|apply own_logs_spec].
Qed.

(** C8. A root without log elements and without children renders, when no
    category filter is given ([None] or the empty list), as the single line
    that reports its status, and as no line at all under a non-empty
    category filter. *)
Theorem degenerate_root_line name status steps include_name :
  get_logs (mkLogItem name status [] []) 0 steps None include_name
  = ["No logs found (status: " ++ status ++ ")."]
  /\ get_logs (mkLogItem name status [] []) 0 steps (Some []) include_name
     = ["No logs found (status: " ++ status ++ ")."]
  /\ (forall category categories,
         get_logs (mkLogItem name status [] []) 0 steps (Some (category :: categories))
                  include_name = [])
  /\ get_logs (mkLogItem name "Failed" [] []) 0 steps None include_name
     = ["No logs found (status: Failed)."].
Proof. repeat split. Qed.

(** C10. Rendering a forest that is [None] or empty gives the empty
    string, whatever the step filter, the category filter, the join string
    and [include_name]; the line that reports a status needs a root that is
    present: a forest made of one root without elements and children, with
    no category filter, renders as that line. *)
Theorem empty_forest_renders_empty steps categories join_string include_name :
  activity_logs_to_string None steps categories join_string include_name = ""
  /\ activity_logs_to_string (Some []) steps categories join_string include_name = ""
  /\ (forall name status,
         activity_logs_to_string (Some [mkLogItem name status [] []]) steps None
                                 join_string include_name
         = "No logs found (status: " ++ status ++ ").").
Proof. repeat split. Qed.

Lemma any_str_filter (p : string -> bool) (l : list string) :
  Py.any_str (List.filter p l) = true
  <-> exists x, In x l /\ x <> "" /\ p x = true.
Proof.
  unfold Py.any_str. rewrite existsb_exists. split.
  - intros (x & Hin & Hx). apply filter_In in Hin as [Hin Hp].
    exists x. repeat split; trivial. intros ->. discriminate.
  - intros (x & Hin & Hne & Hp). exists x. split.
    + apply filter_In. now split.
    + destruct x; [contradiction|reflexivity].
Qed.

(** What [filter_logs] computes on a filter that has tokens: some
    non-empty token that [string_to_int] turns into a non-zero integer
    follows ["Step "] at the start of the name, or some non-empty token
    scores 80 or more against the name once both are normalized. *)
Lemma filter_logs_true_iff log_item step steps :
  filter_logs log_item (Some (step :: steps)) = true
  <-> (exists tok, In tok (step :: steps) /\ tok <> ""
                   /\ Py.truthy_int (string_to_int tok) = true
                   /\ Py.startswith (Name log_item) ("Step " ++ tok) = true)
      \/ (exists tok, In tok (step :: steps) /\ tok <> ""
                      /\ 80 <= fuzz_ratio (normalize_log_step_name tok)
                                          (normalize_log_step_name (Name log_item))).
Proof.
  unfold ActivityLog.filter_logs.
  set (ints := List.filter (fun s => Py.truthy_int (string_to_int s)) (step :: steps)).
  set (by_index := List.filter _ ints).
  set (by_name := List.filter _ (step :: steps)).
  assert (Hindex :
            match ints with [] => false | _ => Py.any_str by_index end = true
            <-> exists tok, In tok (step :: steps) /\ tok <> ""
                            /\ Py.truthy_int (string_to_int tok) = true
                            /\ Py.startswith (Name log_item) ("Step " ++ tok) = true).
  { transitivity (Py.any_str by_index = true).
    - subst by_index. destruct ints; [simpl; tauto | tauto].
    - subst by_index. rewrite any_str_filter. split.
      + intros (x & Hin & Hne & Hp). subst ints. apply filter_In in Hin as [Hin Hint].
        exists x. auto.
      + intros (x & Hin & Hne & Hint & Hp). exists x. repeat split; trivial.
        subst ints. apply filter_In. now split. }
  assert (Hname :
            Py.any_str by_name = true
            <-> exists tok, In tok (step :: steps) /\ tok <> ""
                            /\ 80 <= fuzz_ratio (normalize_log_step_name tok)
                                                (normalize_log_step_name (Name log_item))).
  { subst by_name. rewrite any_str_filter. unfold step_name_match_ratio.
    split; intros (x & Hin & Hne & Hp); exists x; repeat split; trivial; lia. }
  rewrite <- Hindex, <- Hname.
  destruct (match ints with [] => false | _ => Py.any_str by_index end),
    (Py.any_str by_name); simpl; intuition congruence.
Qed.

Lemma filter_logs_no_filter log_item :
  filter_logs log_item None = true /\ filter_logs log_item (Some []) = true.
Proof. split; reflexivity. Qed.

End Renderer.

Lemma step_filter_witness :
  let leaf n m := mkLogItem n "Success" [mkLogElement "Info" m] [] in
  let step1 := mkLogItem "Step 1 Deploy" "Success"
                         [mkLogElement "Info" "deploying"; mkLogElement "Error" "disk full"]
                         [leaf "Deploy on web01" "copied"] in
  let step2 := mkLogItem "Step 2 Notify" "Success"
                         [mkLogElement "Error" "no route"; mkLogElement "Info" "notifying"]
                         [leaf "Notify on web01" "sent"] in
  let root := mkLogItem "Task" "Success" [] [step1; step2] in
  let get_logs :=
    get_logs StandIn.string_to_int StandIn.normalize_log_step_name StandIn.fuzz_ratio in
  get_logs step2 1%nat (Some ["1"]) (Some ["Info"]) true = ["Step 2 Notify"; "notifying"]
  /\ get_logs step2 1%nat (Some ["1"]) None false = ["no route"; "notifying"]
  /\ get_logs step1 1%nat (Some ["1"]) None true
     = ["Step 1 Deploy"; "deploying"; "disk full"; "Deploy on web01"; "copied"]
  /\ get_logs step2 2%nat (Some ["1"]) None true
     = ["Step 2 Notify"; "no route"; "notifying"; "Notify on web01"; "sent"]
  /\ get_logs root 0%nat (Some ["1"]) None true
     = ["Task"; "Step 1 Deploy"; "deploying"; "disk full"; "Deploy on web01"; "copied";
        "Step 2 Notify"; "no route"; "notifying"].
Proof.
  intros leaf step1 step2 root get_logs. subst get_logs.
  pose proof (step_filter_prunes_at_depth_one
                StandIn.string_to_int StandIn.normalize_log_step_name StandIn.fuzz_ratio
                (Some ["1"])) as Hrule.
  repeat apply conj.
  - destruct (Hrule (Some ["Info"]) true) as (Hfail & _).
    rewrite Hfail; [reflexivity|vm_compute; reflexivity].
  - destruct (Hrule None false) as (Hfail & _).
    rewrite Hfail; [reflexivity|vm_compute; reflexivity].
  - destruct (Hrule None true) as (_ & Hpass & _).
    rewrite Hpass; [reflexivity|vm_compute; reflexivity].
  - destruct (Hrule None true) as (_ & _ & Hdeep & _).
    rewrite Hdeep. reflexivity.
  - destruct (Hrule None true) as (_ & _ & _ & Hroot).
    subst root. rewrite Hroot; [vm_compute; reflexivity|right; discriminate].
Defined.

(** The scenario of the pruning rule: a root with the steps "Step 1 Deploy"
    and "Step 2 Notify", each with a sub-step, rendered under the step
    filter ["1"]: the first step is rendered whole, the second gives its own
    lines only. *)
Example pruning_scenario :
  let leaf n m := mkLogItem n "Success" [mkLogElement "Info" m] [] in
  let step1 := mkLogItem "Step 1 Deploy" "Success" [mkLogElement "Info" "deploying"]
                         [leaf "Deploy on web01" "copied"] in
  let step2 := mkLogItem "Step 2 Notify" "Success" [mkLogElement "Info" "notifying"]
                         [leaf "Notify on web01" "sent"] in
  let root := mkLogItem "Task" "Success" [] [step1; step2] in
  get_logs StandIn.string_to_int StandIn.normalize_log_step_name StandIn.fuzz_ratio
           root 0 (Some ["1"]) None true
  = ["Task"; "Step 1 Deploy"; "deploying"; "Deploy on web01"; "copied";
     "Step 2 Notify"; "notifying"].
Proof. vm_compute. reflexivity. Qed.

(** C3. Under the step filter ["0"], whose token is the integer 0, the node
    named "Step 0" starts with ["Step "] followed by that token, and yet
    [filter_logs] answers [False]: the token is dropped from the integer
    tokens because [0] is not true, and its similarity with the name is
    below 80. *)
Theorem filter_logs_drops_step_zero :
  let node := mkLogItem "Step 0" "Success" [] [] in
  StandIn.string_to_int "0" = Some 0
  /\ Py.startswith (Name node) ("Step " ++ "0") = true
  /\ StandIn.fuzz_ratio (StandIn.normalize_log_step_name "0")
                        (StandIn.normalize_log_step_name (Name node)) = 29
  /\ filter_logs StandIn.string_to_int StandIn.normalize_log_step_name StandIn.fuzz_ratio
                 node (Some ["0"]) = false.
Proof. vm_compute. repeat split. Qed.

End ActivityLogFacts.

(** * Properties of the response classifier and of the retried calls *)

Module TransportFacts.

Section Classifier.

Context {W : Type}.

Lemma handle_response_raise (callback : M W Response) w e w' :
  callback w = (Raise e, w') -> handle_response callback w = (Raise e, w').
Proof. intros H. unfold handle_response, bind. now rewrite H. Qed.

Lemma handle_response_success (callback : M W Response) w resp w' :
  callback w = (Ok resp, w') ->
  status resp = 200 \/ status resp = 201 ->
  handle_response callback w = (Ok resp, w').
Proof.
  intros H Hs. unfold handle_response, bind. rewrite H.
  destruct Hs as [-> | ->]; reflexivity.
Qed.

(** The classification of a response whose body is well-formed UTF-8:
    401 is the invalid API key, any other status but 200 and 201 is a
    failed request that carries the decoded body, 200 and 201 give the
    response back. *)
Lemma handle_response_decodable (callback : M W Response) w resp w' text :
  callback w = (Ok resp, w') ->
  Utf8.decode (data resp) = Ok text ->
  handle_response callback w
  = if status resp =? 401 then (Raise OctopusApiKeyInvalid, w')
    else if (negb (status resp =? 200) && negb (status resp =? 201))%bool
         then (Raise (OctopusRequestFailed ("Request failed with " ++ text)), w')
         else (Ok resp, w').
Proof.
  intros H Hd. unfold handle_response, bind, lift, logger_info, ret, raise.
  rewrite H, Hd.
  destruct (status resp =? 401); [reflexivity|].
  destruct (negb (status resp =? 200) && negb (status resp =? 201))%bool; reflexivity.
Qed.

(** [handle_response] raises [HTTPError] only when its callback does. *)
Lemma handle_response_http_error (callback : M W Response) w :
  fst (handle_response callback w) = Raise HTTPError ->
  fst (callback w) = Raise HTTPError.
Proof.
  unfold handle_response, bind, lift, logger_info, ret, raise.
  destruct (callback w) as [[resp|e] w']; simpl; [|trivial].
  unfold Utf8.decode.
  destruct (status resp =? 401),
    (negb (status resp =? 200) && negb (status resp =? 201))%bool,
    (Utf8.valid (map Byte.to_N (data resp))); simpl; discriminate.
Qed.

(** The world after [handle_response] is the world after its callback. *)
Lemma handle_response_world (callback : M W Response) w :
  snd (handle_response callback w) = snd (callback w).
Proof.
  unfold handle_response, bind, lift, logger_info, ret, raise.
  destruct (callback w) as [[resp|e] w']; simpl; [|trivial].
  unfold Utf8.decode.
  destruct (status resp =? 401),
    (negb (status resp =? 200) && negb (status resp =? 201))%bool,
    (Utf8.valid (map Byte.to_N (data resp))); reflexivity.
Qed.

(** A result that is not [HTTPError] leaves [retry] at the first attempt. *)
Lemma retry_first {A : Type} (f : M W A) tries w :
  fst (f w) <> Raise HTTPError -> retry tries f w = f w.
Proof.
  intros H. destruct tries as [|[|n]]; simpl; trivial.
  destruct (f w) as [[a|e] w']; trivial.
  destruct e; trivial. now contradiction H.
Qed.

End Classifier.

(** C9. A 401 response whose body is the single byte 0xFF is not raised as
    the invalid-API-key error: decoding the body for the log raises
    [UnicodeDecodeError] first. So does a 401 whose body is a Latin-1 text
    with an accented letter (the five bytes of "Acc", 0xE8, "s"), and so
    does a 500 response with such a body, which is not raised as a failed
    request. A 401 response with a readable body is the invalid-API-key
    error. *)
Theorem handle_response_undecodable_body :
  handle_response (ret (mkResponse 401 [Byte.xff])) tt = (Raise UnicodeDecodeError, tt)
  /\ handle_response
       (ret (mkResponse 401 [Byte.x41; Byte.x63; Byte.x63; Byte.xe8; Byte.x73])) tt
     = (Raise UnicodeDecodeError, tt)
  /\ handle_response (ret (mkResponse 500 [Byte.xff])) tt = (Raise UnicodeDecodeError, tt)
  /\ handle_response (ret (StandIn.response_of 401 "denied")) tt
     = (Raise OctopusApiKeyInvalid, tt).
Proof. repeat split. Qed.

End TransportFacts.

(** * Properties of the resolvers *)

Module ResolverFacts.

Import TransportFacts.

Section IdShortcut.

Context {T : Py.Text} {W : Type} (E : Env W).







End IdShortcut.

Section IdShortcutSamples.

#[local] Existing Instance StandIn.ascii_text.

(** The retry policy at work on the one call of the id shortcut: with a
    transport that raises [HTTPError] once and then answers, the GET of
    the space "Spaces-1" is attempted twice and the resolution returns
    what the second attempt read. *)
Lemma id_shortcut_second_attempt :
  let world := [Raise HTTPError; Ok (StandIn.response_of 200 "Default")] in
  let req := mkRequest "GET" (build_url "https://octopus.example" "api/Spaces/Spaces-1" [])
                       [("X-Octopus-ApiKey", "API-KEY"); ("User-Agent", "OctopusAI")] in
  let run := get_space_id_and_name_from_name (E := logged StandIn.scripted)
               "Spaces-1" "API-KEY" "https://octopus.example" (world, []) in
  fst run = Ok ("Id-Default", "Default")
  /\ snd (snd run) = [req; req].
Proof. vm_compute. repeat split. Qed.


End IdShortcutSamples.

Section TwoTiers.

Context {T : Py.Text} {W : Type} {E : Env W}.

(** A request that is answered with a listing hands the listed items to
    what follows. *)
Lemma listing_answered {A : Type} req w items w' (k : list Item -> M W A) :
  answers req w items w' ->
  (do resp <- handle_response (http_request req);
   do found <- lift_json (json_items resp);
   k found) w = k items w'.
Proof.
  intros (resp & Hreq & Hs & Hj). unfold bind at 1.
  rewrite (handle_response_success _ _ _ _ Hreq Hs).
  unfold bind, lift_json. rewrite Hj. reflexivity.
Qed.

Lemma not_singleton {A B : Type} (l : list A) (f : A -> B) (d : B) :
  (2 <= length l)%nat ->
  match l with
  | [x] => f x
  | _ => d
  end = d.
Proof. destruct l as [|a [|b l]]; simpl; intros H; trivial; lia. Qed.

Lemma exact_le_loose items name :
  (length (exact_matches items name) <= length (loose_matches items name))%nat.
Proof.
  unfold exact_matches, loose_matches.
  induction items as [|i items IH]; simpl; [lia|].
  destruct (String.eqb (Name i) name) eqn:Hex.
  - apply String.eqb_eq in Hex. rewrite Hex, String.eqb_refl. simpl. lia.
  - destruct (String.eqb (Py.strip (Py.lower (Name i))) _); simpl; lia.
Qed.

(** A name carried by two or more candidates is selected by neither the
    exact nor the lowercased-and-trimmed comparison. *)
Lemma get_item_fuzzy_duplicates items name :
  (2 <= length (exact_matches items name))%nat ->
  get_item_fuzzy items name = None.
Proof.
  intros H. unfold get_item_fuzzy.
  change (List.filter (fun i => String.eqb (Name i) name) items)
    with (exact_matches items name).
  change (List.filter _ items) with (loose_matches items name).
  rewrite not_singleton by exact H.
  apply not_singleton. pose proof (exact_le_loose items name). lia.
Qed.

Lemma filter_none {A : Type} (f : A -> bool) (l : list A) :
  Forall (fun x => f x = false) l -> List.filter f l = [].
Proof. induction 1 as [|x xs Hx _ IH]; simpl; [reflexivity|]. now rewrite Hx. Qed.

Lemma get_item_fuzzy_no_match items name :
  Forall (fun i => Name i <> name
                   /\ Py.strip (Py.lower (Name i)) <> Py.strip (Py.lower name)) items ->
  get_item_fuzzy items name = None.
Proof.
  intros H. unfold get_item_fuzzy.
  rewrite !filter_none; [reflexivity| |].
  - eapply Forall_impl; [exact H|]. intros i [_ Hi]. now apply String.eqb_neq.
  - eapply Forall_impl; [exact H|]. intros i [Hi _]. now apply String.eqb_neq.
Qed.

(** Both listings answered and [get_item_fuzzy] empty-handed on both: the
    shared body raises [ResourceNotFound] for its kind and the name. *)
Lemma probe_then_list_not_found kind base_url name key url l1 l2 w w1 w2 :
  answers (mkRequest "GET" (build_url url base_url [("partialname", QStr name)])
                     (get_octopus_headers key)) w l1 w1 ->
  answers (mkRequest "GET" (build_url url base_url []) (get_octopus_headers key)) w1 l2 w2 ->
  get_item_fuzzy l1 name = None ->
  get_item_fuzzy l2 name = None ->
  forall tries,
    retry tries (probe_then_list kind base_url name key url) w
    = (Raise (ResourceNotFound kind name), w2).
Proof.
  intros Hprobe Hfull H1 H2 tries.
  assert (Hbody : probe_then_list kind base_url name key url w
                  = (Raise (ResourceNotFound kind name), w2)).
  { unfold probe_then_list.
    rewrite (listing_answered _ _ _ _ _ Hprobe), H1.
    rewrite (listing_answered _ _ _ _ _ Hfull), H2. reflexivity. }
  rewrite retry_first; rewrite Hbody; [reflexivity|discriminate].
Qed.

(** C6. When both the listing filtered by [partialname] and the plain
    listing are answered and no candidate of either has the queried name,
    be it exactly or once lowercased and trimmed, [get_environment_fuzzy]
    and [get_project_fuzzy] raise [ResourceNotFound] with their kind and
    the name as it was queried; no resource is returned. *)
Theorem not_found_when_nothing_matches space_id name key url l1 l2 w w1 w2 :
  Forall (fun i => Name i <> name
                   /\ Py.strip (Py.lower (Name i)) <> Py.strip (Py.lower name)) l1 ->
  Forall (fun i => Name i <> name
                   /\ Py.strip (Py.lower (Name i)) <> Py.strip (Py.lower name)) l2 ->
  (let base_url := "api/" ++ quote_safe space_id ++ "/Environments" in
   answers (mkRequest "GET" (build_url url base_url [("partialname", QStr name)])
                      (get_octopus_headers key)) w l1 w1 ->
   answers (mkRequest "GET" (build_url url base_url []) (get_octopus_headers key))
           w1 l2 w2 ->
   get_environment_fuzzy space_id name key url w
   = (Raise (ResourceNotFound "Environment" name), w2))
  /\ (let base_url := "api/" ++ quote_safe space_id ++ "/Projects" in
      answers (mkRequest "GET" (build_url url base_url [("partialname", QStr name)])
                         (get_octopus_headers key)) w l1 w1 ->
      answers (mkRequest "GET" (build_url url base_url []) (get_octopus_headers key))
              w1 l2 w2 ->
      get_project_fuzzy space_id name key url w
      = (Raise (ResourceNotFound "Project" name), w2)).
Proof.
  intros H1 H2. apply get_item_fuzzy_no_match in H1, H2.
  split; intros base_url Hprobe Hfull.
  - unfold get_environment_fuzzy. now apply probe_then_list_not_found with l1 l2 w1.
  - unfold get_project_fuzzy. now apply probe_then_list_not_found with l1 l2 w1.
Qed.

(** C7. A queried name that two or more candidates carry exactly is
    selected at no tier: [get_item_fuzzy] gives nothing on such a list;
    [get_space_id_and_name_from_name] raises [SpaceNotFound] when its
    listing holds the name twice or more; and [get_project_fuzzy] raises
    [ResourceNotFound] when both of its listings do. *)
Theorem duplicated_name_is_not_found :
  (forall items name,
      (2 <= length (exact_matches items name))%nat ->
      get_item_fuzzy items name = None)
  /\ (forall space_name key url items w w',
         Py.startswith space_name "Spaces-" = false ->
         string_not_empty space_name = true ->
         string_not_empty url = true ->
         string_not_empty key = true ->
         answers (mkRequest "GET" (build_url url "api/spaces" [("take", QInt TAKE_ALL)])
                            (get_octopus_headers key)) w items w' ->
         (2 <= length (exact_matches items space_name))%nat ->
         get_space_id_and_name_from_name space_name key url w
         = (Raise (SpaceNotFound space_name), w'))
  /\ (forall space_id name key url l1 l2 w w1 w2,
         let base_url := "api/" ++ quote_safe space_id ++ "/Projects" in
         answers (mkRequest "GET" (build_url url base_url [("partialname", QStr name)])
                            (get_octopus_headers key)) w l1 w1 ->
         answers (mkRequest "GET" (build_url url base_url []) (get_octopus_headers key))
                 w1 l2 w2 ->
         (2 <= length (exact_matches l1 name))%nat ->
         (2 <= length (exact_matches l2 name))%nat ->
         get_project_fuzzy space_id name key url w
         = (Raise (ResourceNotFound "Project" name), w2)).
Proof.
  split; [|split].
  - apply get_item_fuzzy_duplicates.
  - intros space_name key url items w w' Hprefix Hname Hurl Hkey Hans Hdup.
    unfold get_space_id_and_name_from_name, ensure_string_not_empty.
    rewrite Hname, Hurl, Hkey, Hprefix.
    unfold bind at 1 2 3. cbn [ret].
    rewrite (listing_answered _ _ _ _ _ Hans).
    change (List.filter (fun s => String.eqb (Name s) space_name) items)
      with (exact_matches items space_name).
    change (List.filter _ items) with (loose_matches items space_name).
    rewrite not_singleton by exact Hdup.
    rewrite not_singleton; [reflexivity|].
    pose proof (exact_le_loose items space_name). lia.
  - intros space_id name key url l1 l2 w w1 w2 base_url Hprobe Hfull Hd1 Hd2.
    unfold get_project_fuzzy.
    apply probe_then_list_not_found with l1 l2 w1; trivial;
      now apply get_item_fuzzy_duplicates.
Qed.

End TwoTiers.

(** Closes [answers] for the scripted transport, whose next outcome is
    found by evaluation. *)
Ltac scripted_answer :=
  eexists; split; [reflexivity | split; [left; reflexivity | reflexivity]].

Ltac differs := let H := fresh in intros H; vm_compute in H; discriminate H.

Section TwoTiersSamples.

#[local] Existing Instance StandIn.ascii_text.

Lemma not_found_witness :
  let nl := String "010"%char EmptyString in
  let world := [Ok (StandIn.response_of 200 "Dev");
                Ok (StandIn.response_of 200 ("Dev" ++ nl ++ "Test"))] in
  get_environment_fuzzy (E := StandIn.scripted)
    "Spaces-1" "Production" "API-KEY" "https://octopus.example" world
  = (Raise (ResourceNotFound "Environment" "Production"), [])
  /\ get_project_fuzzy (E := StandIn.scripted)
       "Spaces-1" "Production" "API-KEY" "https://octopus.example" world
     = (Raise (ResourceNotFound "Project" "Production"), []).
Proof.
  intros nl world.
  destruct (not_found_when_nothing_matches (E := StandIn.scripted)
              "Spaces-1" "Production" "API-KEY" "https://octopus.example"
              [mkItem "Id-Dev" "Dev"] [mkItem "Id-Dev" "Dev"; mkItem "Id-Test" "Test"]
              world [Ok (StandIn.response_of 200 ("Dev" ++ nl ++ "Test"))] [])
    as [Henv Hproject].
  - repeat constructor; differs.
  - repeat constructor; differs.
  - split; [apply Henv | apply Hproject]; scripted_answer.
Defined.

Lemma duplicated_name_witness :
  let nl := String "010"%char EmptyString in
  get_item_fuzzy [mkItem "Spaces-1" "Default"; mkItem "Spaces-2" "Default"] "Default" = None
  /\ get_space_id_and_name_from_name (E := StandIn.scripted)
       "Default" "API-KEY" "https://octopus.example"
       [Ok (StandIn.response_of 200 ("Default" ++ nl ++ "Default"))]
     = (Raise (SpaceNotFound "Default"), [])
  /\ get_project_fuzzy (E := StandIn.scripted)
       "Spaces-1" "Web" "API-KEY" "https://octopus.example"
       [Ok (StandIn.response_of 200 ("Web" ++ nl ++ "Web"));
        Ok (StandIn.response_of 200 ("Api" ++ nl ++ "Web" ++ nl ++ "Web"))]
     = (Raise (ResourceNotFound "Project" "Web"), []).
Proof.
  intros nl.
  destruct (duplicated_name_is_not_found (E := StandIn.scripted))
    as (Hrule & Hspace & Hproject).
  split; [|split].
  - apply Hrule. vm_compute. lia.
  - apply Hspace with (items := [mkItem "Id-Default" "Default"; mkItem "Id-Default" "Default"]);
      try reflexivity; scripted_answer.
  - apply Hproject
      with (l1 := [mkItem "Id-Web" "Web"; mkItem "Id-Web" "Web"])
           (l2 := [mkItem "Id-Api" "Api"; mkItem "Id-Web" "Web"; mkItem "Id-Web" "Web"])
           (w1 := [Ok (StandIn.response_of 200 ("Api" ++ nl ++ "Web" ++ nl ++ "Web"))]);
      [scripted_answer | scripted_answer | vm_compute; lia | vm_compute; lia].
Defined.

End TwoTiersSamples.

End ResolverFacts.

(** * Properties of the caches *)

Module CacheFacts.

Section Cached.

Context {W : Type}.
Variable resolver : string -> string -> string -> string -> M W Item.

(** Creating an empty level changes no entry. *)
Lemma names_of_guard_url cache octopus_url u s :
  names_of (guard_url cache octopus_url) u s = names_of cache u s.
Proof.
  unfold guard_url, names_of, truthy_dict.
  destruct (cache !! octopus_url) as [d|] eqn:Hd; simpl.
  - case_bool_decide as Hempty; simpl; [|reflexivity]. subst d.
    destruct (decide (octopus_url = u)) as [<-|Hne].
    + now rewrite lookup_insert_eq, Hd.
    + now rewrite lookup_insert_ne.
  - destruct (decide (octopus_url = u)) as [<-|Hne].
    + now rewrite lookup_insert_eq, Hd.
    + now rewrite lookup_insert_ne.
Qed.

Lemma names_of_guard_space cache octopus_url space_id u s :
  names_of (guard_space cache octopus_url space_id) u s = names_of cache u s.
Proof.
  unfold guard_space, names_of, truthy_dict.
  set (by_space := default ∅ (cache !! octopus_url)).
  assert (Hfresh : forall d : option (gmap string Item),
             match d with Some d => negb (bool_decide (d = ∅)) | None => false end = false ->
             default ∅ d = ∅).
  { intros [d|]; simpl; [|reflexivity]. case_bool_decide; [congruence|discriminate]. }
  destruct (negb _) eqn:Hguard; simpl; [|reflexivity].
  apply negb_true_iff, Hfresh in Hguard.
  destruct (decide (octopus_url = u)) as [<-|Hne].
  - rewrite lookup_insert_eq. simpl. fold by_space.
    destruct (decide (space_id = s)) as [<-|Hs].
    + now rewrite lookup_insert_eq, Hguard.
    + now rewrite lookup_insert_ne.
  - now rewrite lookup_insert_ne.
Qed.

(** Storing a result changes the entry of its key and no other. *)
Lemma names_of_store (cache : Cache) octopus_url space_id name r u s n :
  names_of (store cache octopus_url space_id name r) u s !! n
  = if decide (octopus_url = u /\ space_id = s /\ name = n) then Some r
    else names_of cache u s !! n.
Proof.
  unfold store. unfold names_of at 1.
  destruct (decide (octopus_url = u)) as [<-|Hu].
  - rewrite lookup_insert_eq. simpl.
    destruct (decide (space_id = s)) as [<-|Hs].
    + rewrite lookup_insert_eq. simpl.
      destruct (decide (name = n)) as [<-|Hn].
      * rewrite lookup_insert_eq. now rewrite decide_True.
      * rewrite lookup_insert_ne by exact Hn. rewrite decide_False by tauto. reflexivity.
    + rewrite lookup_insert_ne by exact Hs. rewrite decide_False by tauto. reflexivity.
  - rewrite lookup_insert_ne by exact Hu. rewrite decide_False by tauto. reflexivity.
Qed.

Lemma get_true_lookup (d : gmap string Item) k : get_true d k = d !! k.
Proof. unfold get_true. destruct (d !! k); reflexivity. Qed.

(** An entry implies that both outer levels exist and are not empty, so
    the guards leave the cache as it is. *)
Lemma guards_idle cache octopus_url space_id name r :
  names_of cache octopus_url space_id !! name = Some r ->
  guard_space (guard_url cache octopus_url) octopus_url space_id = cache.
Proof.
  unfold names_of, guard_space, guard_url, truthy_dict. intros H.
  destruct (cache !! octopus_url) as [d|] eqn:Hd; simpl in *; [|now rewrite lookup_empty in H].
  destruct (d !! space_id) as [m|] eqn:Hm; simpl in *; [|now rewrite lookup_empty in H].
  assert (Hd' : d <> ∅) by (intros ->; now rewrite lookup_empty in Hm).
  assert (Hm' : m <> ∅) by (intros ->; now rewrite lookup_empty in H).
  rewrite bool_decide_eq_false_2 by exact Hd'. simpl.
  rewrite Hd. simpl. rewrite Hm. rewrite bool_decide_eq_false_2 by exact Hm'. reflexivity.
Qed.

Lemma fuzzy_cached_unfold space_id name api_key octopus_url cache w :
  fuzzy_cached resolver space_id name api_key octopus_url (cache, w)
  = let cache2 := guard_space (guard_url cache octopus_url) octopus_url space_id in
    match get_true (names_of cache2 octopus_url space_id) name with
    | Some found => (Ok found, (cache2, w))
    | None =>
        match resolver space_id name api_key octopus_url w with
        | (Ok r, w') => (Ok r, (store cache2 octopus_url space_id name r, w'))
        | (Raise e, w') => (Raise e, (cache2, w'))
        end
    end.
Proof. reflexivity. Qed.

(** A hit: the stored value is returned, and neither the cache nor the
    world changes. *)
Lemma fuzzy_cached_hit space_id name api_key octopus_url cache w r :
  names_of cache octopus_url space_id !! name = Some r ->
  fuzzy_cached resolver space_id name api_key octopus_url (cache, w) = (Ok r, (cache, w)).
Proof.
  intros H. rewrite fuzzy_cached_unfold. cbv zeta.
  rewrite (guards_idle _ _ _ _ _ H), get_true_lookup, H. reflexivity.
Qed.

(** A miss on which the resolver succeeds: its result is returned and
    stored, and the world is the one it leaves. *)
Lemma fuzzy_cached_miss space_id name api_key octopus_url cache w r w1 :
  names_of cache octopus_url space_id !! name = None ->
  resolver space_id name api_key octopus_url w = (Ok r, w1) ->
  exists cache',
    fuzzy_cached resolver space_id name api_key octopus_url (cache, w) = (Ok r, (cache', w1))
    /\ names_of cache' octopus_url space_id !! name = Some r.
Proof.
  intros Hnone Hres. rewrite fuzzy_cached_unfold. cbv zeta.
  set (cache2 := guard_space (guard_url cache octopus_url) octopus_url space_id).
  replace (get_true (names_of cache2 octopus_url space_id) name) with (@None Item)
    by (subst cache2;
        now rewrite get_true_lookup, names_of_guard_space, names_of_guard_url).
  rewrite Hres. eexists. split; [reflexivity|].
  rewrite names_of_store. rewrite decide_True by tauto. reflexivity.
Qed.

(** No cached lookup, whatever its arguments and its outcome, removes or
    replaces an entry. *)
Lemma fuzzy_cached_keeps space_id name api_key octopus_url cache w u s n r :
  names_of cache u s !! n = Some r ->
  names_of (fst (snd (fuzzy_cached resolver space_id name api_key octopus_url (cache, w))))
           u s !! n = Some r.
Proof.
  intros H. rewrite fuzzy_cached_unfold. cbv zeta.
  set (cache2 := guard_space (guard_url cache octopus_url) octopus_url space_id).
  assert (Hview : forall u s, names_of cache2 u s = names_of cache u s).
  { intros u' s'. subst cache2. now rewrite names_of_guard_space, names_of_guard_url. }
  destruct (get_true (names_of cache2 octopus_url space_id) name) as [found|] eqn:Hentry.
  - simpl. now rewrite Hview.
  - destruct (resolver space_id name api_key octopus_url w) as [[r'|e] w']; simpl.
    + rewrite names_of_store. case_decide as Hkey; [|now rewrite Hview].
      destruct Hkey as (-> & -> & ->).
      rewrite get_true_lookup, Hview in Hentry. congruence.
    + now rewrite Hview.
Qed.

Lemma run_calls_keeps calls : forall st u s n r,
  names_of (fst st) u s !! n = Some r ->
  names_of (fst (run_calls (fuzzy_cached resolver) calls st)) u s !! n = Some r.
Proof.
  induction calls as [|[[[space_id name] api_key] octopus_url] calls IH];
    intros [cache w] u s n r H; simpl; [exact H|].
  apply IH. now apply fuzzy_cached_keeps.
Qed.

(** The first lookup of a key runs the resolver and stores what it
    found; after any further lookups, a lookup of that key returns the
    stored value and leaves the cache and the world as they are. *)
Lemma fuzzy_cached_once space_id name api_key octopus_url cache w r w1 :
  names_of cache octopus_url space_id !! name = None ->
  resolver space_id name api_key octopus_url w = (Ok r, w1) ->
  let first := fuzzy_cached resolver space_id name api_key octopus_url (cache, w) in
  fst first = Ok r
  /\ snd (snd first) = w1
  /\ names_of (fst (snd first)) octopus_url space_id !! name = Some r
  /\ forall calls api_key',
      let st := run_calls (fuzzy_cached resolver) calls (snd first) in
      fuzzy_cached resolver space_id name api_key' octopus_url st = (Ok r, st).
Proof.
  intros Hnone Hres first.
  destruct (fuzzy_cached_miss _ _ _ _ _ _ _ _ Hnone Hres) as (cache' & Hfirst & Hstored).
  subst first. rewrite Hfirst. simpl.
  split; [reflexivity|split; [reflexivity|split; [exact Hstored|]]].
  intros calls api_key'.
  pose proof (run_calls_keeps calls (cache', w1) _ _ _ _ Hstored) as Hkept.
  destruct (run_calls (fuzzy_cached resolver) calls (cache', w1)) as [cache'' w''].
  now apply fuzzy_cached_hit.
Qed.

End Cached.

(** C4. For [get_environment_fuzzy_cached] and [get_tenant_fuzzy_cached]:
    the first lookup of a (server url, space id, name) key, one for which
    the cache has no entry, runs the resolver, returns what it found and
    stores it, leaving the world as the resolver left it; after any further
    cached lookups, a lookup of the same key returns the stored resource and
    leaves the cache and the world untouched, so the resolver does not run
    again. With a resolver that counts its invocations, the first lookup
    counts one and the later lookups of the key count none. *)
Theorem cached_lookup_resolves_once {T : Py.Text} {W : Type} (E : Env W) :
  (forall space_id name api_key octopus_url cache w r w1,
      names_of cache octopus_url space_id !! name = None ->
      get_environment_fuzzy space_id name api_key octopus_url w = (Ok r, w1) ->
      let first := get_environment_fuzzy_cached space_id name api_key octopus_url (cache, w) in
      fst first = Ok r
      /\ snd (snd first) = w1
      /\ names_of (fst (snd first)) octopus_url space_id !! name = Some r
      /\ forall calls api_key',
          let st := run_calls get_environment_fuzzy_cached calls (snd first) in
          get_environment_fuzzy_cached space_id name api_key' octopus_url st = (Ok r, st))
  /\ (forall space_id name api_key octopus_url cache w r w1,
         names_of cache octopus_url space_id !! name = None ->
         get_tenant_fuzzy space_id name api_key octopus_url w = (Ok r, w1) ->
         let first := get_tenant_fuzzy_cached space_id name api_key octopus_url (cache, w) in
         fst first = Ok r
         /\ snd (snd first) = w1
         /\ names_of (fst (snd first)) octopus_url space_id !! name = Some r
         /\ forall calls api_key',
             let st := run_calls get_tenant_fuzzy_cached calls (snd first) in
             get_tenant_fuzzy_cached space_id name api_key' octopus_url st = (Ok r, st))
  /\ (forall (resolver : string -> string -> string -> string -> M W Item)
             space_id name api_key octopus_url cache w r w1 count,
         names_of cache octopus_url space_id !! name = None ->
         resolver space_id name api_key octopus_url w = (Ok r, w1) ->
         let first :=
           fuzzy_cached (counted resolver) space_id name api_key octopus_url
                        (cache, (w, count)) in
         snd (snd (snd first)) = S count
         /\ forall calls api_key',
             let st := run_calls (fuzzy_cached (counted resolver)) calls (snd first) in
             let again :=
               fuzzy_cached (counted resolver) space_id name api_key' octopus_url st in
             fst again = Ok r /\ snd (snd (snd again)) = snd (snd st)).
Proof.
  split; [|split].
  - intros space_id name api_key octopus_url cache w r w1 Hnone Hres.
    exact (fuzzy_cached_once get_environment_fuzzy _ _ _ _ _ _ _ _ Hnone Hres).
  - intros space_id name api_key octopus_url cache w r w1 Hnone Hres.
    exact (fuzzy_cached_once get_tenant_fuzzy _ _ _ _ _ _ _ _ Hnone Hres).
  - intros resolver space_id name api_key octopus_url cache w r w1 count Hnone Hres first.
    assert (Hcounted : counted resolver space_id name api_key octopus_url (w, count)
                       = (Ok r, (w1, S count))).
    { unfold counted. simpl. now rewrite Hres. }
    destruct (fuzzy_cached_once (counted resolver) _ _ _ _ _ _ _ _ Hnone Hcounted)
      as (_ & Hworld & _ & Hagain).
    fold first in Hworld, Hagain. split; [now rewrite Hworld|].
    intros calls api_key' st again. subst again st.
    now rewrite Hagain.
Qed.

Section CachedSamples.

#[local] Existing Instance StandIn.ascii_text.

Lemma cached_lookup_witness :
  let world := [Ok (StandIn.response_of 200 "Production")] in
  let found := mkItem "Id-Production" "Production" in
  let first := get_environment_fuzzy_cached (E := StandIn.scripted)
                 "Spaces-1" "Production" "API-KEY" "https://octopus.example" (∅, world) in
  fst first = Ok found
  /\ get_environment_fuzzy_cached (E := StandIn.scripted)
       "Spaces-1" "Production" "API-KEY" "https://octopus.example" (snd first)
     = (Ok found, snd first)
  /\ get_tenant_fuzzy_cached (E := StandIn.scripted)
       "Spaces-1" "Production" "API-KEY" "https://octopus.example"
       (snd (get_tenant_fuzzy_cached (E := StandIn.scripted)
               "Spaces-1" "Production" "API-KEY" "https://octopus.example" (∅, world)))
     = (Ok found,
        snd (get_tenant_fuzzy_cached (E := StandIn.scripted)
               "Spaces-1" "Production" "API-KEY" "https://octopus.example" (∅, world))).
Proof.
  intros world found first.
  destruct (cached_lookup_resolves_once StandIn.scripted) as (Henv & Htenant & _).
  assert (Hnone : names_of (∅ : Cache) "https://octopus.example" "Spaces-1" !! "Production"
                  = None) by reflexivity.
  destruct (Henv "Spaces-1" "Production" "API-KEY" "https://octopus.example"
                 ∅ world found [] Hnone eq_refl) as (Hfst & _ & _ & Hagain).
  destruct (Htenant "Spaces-1" "Production" "API-KEY" "https://octopus.example"
                    ∅ world found [] Hnone eq_refl) as (_ & _ & _ & Hagain').
  split; [exact Hfst|split].
  - exact (Hagain [] "API-KEY").
  - exact (Hagain' [] "API-KEY").
Defined.

End CachedSamples.

End CacheFacts.

(** * Properties of the page generators *)

Module PaginatorFacts.

Section Loop.

Context {W A : Type}.
Variable get_batch : Z -> Z -> M W (list A).

Lemma page_requests_length n skip take : length (page_requests n skip take) = n.
Proof. revert skip. induction n as [|n IH]; intros skip; simpl; [reflexivity|]. now rewrite IH. Qed.

Lemma full_pages_length (full : list (list A)) (n : nat) :
  Forall (fun b => length b = n) full -> length (concat full) = (n * length full)%nat.
Proof.
  induction 1 as [|b full Hb _ IH]; simpl; [lia|].
  rewrite length_app, Hb, IH. lia.
Qed.

(** The generator on a run of full pages followed by one page of another
    length: it asks for the pages one after the other, yields their items
    in that order and leaves its loop after the odd page. *)
Lemma generator_loop_pages take (full : list (list A)) (last : list A) :
  Forall (fun b => Z.of_nat (length b) = take) full ->
  Z.of_nat (length last) <> take ->
  forall fuel skip w w' log,
    fetches get_batch skip take (full ++ [last]) w w' ->
    (length full < fuel)%nat ->
    generator_loop fuel (logged_batch get_batch) skip take (w, log)
    = ((concat full ++ last)%list, Exhausted,
       (w', (log ++ page_requests (S (length full)) skip take)%list)).
Proof.
  intros Hfull Hlast. induction Hfull as [|b full Hb _ IH];
    intros fuel skip w w' log Hfetch Hfuel.
  - destruct fuel as [|fuel]; [simpl in Hfuel; lia|].
    simpl in Hfetch. destruct Hfetch as (w1 & Hget & ->).
    simpl. unfold logged_batch at 1. simpl. rewrite Hget.
    apply Z.eqb_neq in Hlast. rewrite Hlast. reflexivity.
  - destruct fuel as [|fuel]; [simpl in Hfuel; lia|].
    simpl in Hfetch. destruct Hfetch as (w1 & Hget & Hrest).
    simpl. unfold logged_batch at 1. simpl. rewrite Hget.
    apply Z.eqb_eq in Hb. rewrite Hb. simpl.
    rewrite (IH fuel (skip + take) w1 w' (log ++ [(skip, take)])%list Hrest)
      by (simpl in Hfuel; lia).
    now rewrite <- !app_assoc.
Qed.

(** Without the record of the requests. *)
Lemma generator_loop_items take (full : list (list A)) (last : list A) :
  Forall (fun b => Z.of_nat (length b) = take) full ->
  Z.of_nat (length last) <> take ->
  forall fuel skip w w',
    fetches get_batch skip take (full ++ [last]) w w' ->
    (length full < fuel)%nat ->
    generator_loop fuel get_batch skip take w
    = ((concat full ++ last)%list, Exhausted, w').
Proof.
  intros Hfull Hlast. induction Hfull as [|b full Hb _ IH];
    intros fuel skip w w' Hfetch Hfuel.
  - destruct fuel as [|fuel]; [simpl in Hfuel; lia|].
    simpl in Hfetch. destruct Hfetch as (w1 & Hget & ->).
    simpl. rewrite Hget. apply Z.eqb_neq in Hlast. now rewrite Hlast.
  - destruct fuel as [|fuel]; [simpl in Hfuel; lia|].
    simpl in Hfetch. destruct Hfetch as (w1 & Hget & Hrest).
    simpl. rewrite Hget. apply Z.eqb_eq in Hb. rewrite Hb. simpl.
    rewrite (IH fuel (skip + take) w1 w' Hrest) by (simpl in Hfuel; lia).
    now rewrite app_assoc.
Qed.

(** While every page is full the generator keeps asking: whatever the
    fuel, it is still suspended when the fuel is spent. *)
Lemma generator_loop_full_pages take (full : list (list A)) :
  Forall (fun b => Z.of_nat (length b) = take) full ->
  forall skip w w',
    fetches get_batch skip take full w w' ->
    generator_loop (length full) get_batch skip take w
    = (concat full, Suspended, w').
Proof.
  induction 1 as [|b full Hb _ IH]; intros skip w w' Hfetch; simpl in *.
  - now subst.
  - destruct Hfetch as (w1 & Hget & Hrest). rewrite Hget.
    apply Z.eqb_eq in Hb. rewrite Hb. simpl. now rewrite (IH _ _ _ Hrest).
Qed.

End Loop.

Lemma sizes_split {A : Type} (full : list (list A)) (last : list A) sizes n :
  map length (full ++ [last]) = (sizes ++ [n])%list ->
  length full = length sizes /\ length last = n.
Proof.
  rewrite map_app. simpl. intros H. apply app_inj_tail in H as [Hfull Hlast].
  split; [|exact Hlast]. now rewrite <- Hfull, length_map.
Qed.

(** C2. For every batch function: when the pages asked from [skip = 0] with
    [take = 30] are full for a while and then one page has another length,
    the generator, given enough fuel to ask for them, asks exactly for
    those pages, at skips 0, 30, 60, ... in this order and 30 items each,
    yields the concatenation of the batches in that order and leaves its
    loop right after the odd page. So batches of sizes 30, 30, 17 give 77
    items for 3 requests, and batches of sizes 30, 30, 30, 0 give 90 items
    for 4 requests. [get_spaces_generator] and [get_projects_generator] are
    this loop over their batch functions. *)
Theorem paginator_stops_after_first_short_page
        {W A : Type} (get_batch : Z -> Z -> M W (list A))
        (full : list (list A)) (last : list A) (fuel : nat) (w w' : W) (log : list (Z * Z)) :
  Forall (fun b => length b = 30%nat) full ->
  length last <> 30%nat ->
  fetches get_batch 0 30 (full ++ [last]) w w' ->
  (length full < fuel)%nat ->
  let run := generator_loop fuel (logged_batch get_batch) 0 30 (w, log) in
  run = ((concat full ++ last)%list, Exhausted,
         (w', (log ++ page_requests (S (length full)) 0 30)%list))
  /\ length (fst (fst run)) = (30 * length full + length last)%nat
  /\ length (page_requests (S (length full)) 0 30) = S (length full)
  /\ (map length (full ++ [last]) = [30; 30; 17]%nat ->
      length (fst (fst run)) = 77%nat
      /\ snd (snd run) = (log ++ [(0, 30); (30, 30); (60, 30)])%list)
  /\ (map length (full ++ [last]) = [30; 30; 30; 0]%nat ->
      length (fst (fst run)) = 90%nat
      /\ snd (snd run) = (log ++ [(0, 30); (30, 30); (60, 30); (90, 30)])%list)
  /\ (forall (E : Env W) api_key octopus_url (pages : list (list Item)) (tail : list Item) v v',
         Forall (fun b => length b = 30%nat) pages ->
         length tail <> 30%nat ->
         fetches (fun skip take => get_spaces_batch skip take api_key octopus_url)
                 0 30 (pages ++ [tail]) v v' ->
         (length pages < fuel)%nat ->
         get_spaces_generator fuel api_key octopus_url v
         = ((concat pages ++ tail)%list, Exhausted, v'))
  /\ (forall (E : Env W) space_id api_key octopus_url
             (pages : list (list Item)) (tail : list Item) v v',
         Forall (fun b => length b = 30%nat) pages ->
         length tail <> 30%nat ->
         fetches (fun skip take => get_projects_batch skip take space_id api_key octopus_url)
                 0 30 (pages ++ [tail]) v v' ->
         (length pages < fuel)%nat ->
         get_projects_generator fuel space_id api_key octopus_url v
         = ((concat pages ++ tail)%list, Exhausted, v')).
Proof.
  intros Hfull Hlast Hfetch Hfuel run.
  assert (Hz : forall (B : Type) (l : list (list B)),
             Forall (fun b => length b = 30%nat) l ->
             Forall (fun b => Z.of_nat (length b) = 30) l).
  { intros B l H. eapply Forall_impl; [exact H|]. intros b Hb. simpl in Hb. lia. }
  assert (Hrun : run = ((concat full ++ last)%list, Exhausted,
                        (w', (log ++ page_requests (S (length full)) 0 30)%list))).
  { subst run. apply generator_loop_pages; auto. lia. }
  assert (Hlen : length (fst (fst run)) = (30 * length full + length last)%nat).
  { rewrite Hrun. simpl. rewrite length_app, (full_pages_length full 30 Hfull). lia. }
  split; [exact Hrun|]. split; [exact Hlen|]. split; [apply page_requests_length|].
  split; [|split; [|split]].
  - intros Hsizes.
    apply (sizes_split full last [30; 30]%nat 17%nat) in Hsizes as [Hn Hl].
    split; [rewrite Hlen, Hn, Hl; reflexivity|].
    rewrite Hrun, Hn. reflexivity.
  - intros Hsizes.
    apply (sizes_split full last [30; 30; 30]%nat 0%nat) in Hsizes as [Hn Hl].
    split; [rewrite Hlen, Hn, Hl; reflexivity|].
    rewrite Hrun, Hn. reflexivity.
  - intros E api_key octopus_url pages tail v v' Hpages Htail Hf Hfu.
    unfold get_spaces_generator. cbv zeta. apply generator_loop_items; auto. lia.
  - intros E space_id api_key octopus_url pages tail v v' Hpages Htail Hf Hfu.
    unfold get_projects_generator. cbv zeta. apply generator_loop_items; auto. lia.
Qed.

Lemma paginator_witness :
  let batches := [repeat 1%nat 30; repeat 2%nat 30; repeat 3%nat 17] in
  let run := generator_loop 5 (logged_batch StandIn.fake_batches) 0 30 (batches, []) in
  length (fst (fst run)) = 77%nat
  /\ snd (fst run) = Exhausted
  /\ snd (snd run) = [(0, 30); (30, 30); (60, 30)].
Proof.
  intros batches run.
  destruct (paginator_stops_after_first_short_page StandIn.fake_batches
              [repeat 1%nat 30; repeat 2%nat 30] (repeat 3%nat 17) 5 batches [] [])
    as (Hrun & _ & _ & Hsizes & _).
  - repeat constructor.
  - simpl. lia.
  - simpl. eexists. split; [reflexivity|]. eexists. split; [reflexivity|].
    eexists. split; reflexivity.
  - simpl. lia.
  - destruct (Hsizes eq_refl) as [Hlen Hlog].
    fold run in Hrun. split; [exact Hlen|split; [|exact Hlog]].
    now rewrite Hrun.
Defined.

(** The second scenario, evaluated: four requests for 90 items. *)
Example paginator_empty_last_page :
  let batches := [repeat 1%nat 30; repeat 2%nat 30; repeat 3%nat 30; []] in
  let run := generator_loop 6 (logged_batch StandIn.fake_batches) 0 30 (batches, []) in
  length (fst (fst run)) = 90%nat
  /\ snd (fst run) = Exhausted
  /\ snd (snd run) = [(0, 30); (30, 30); (60, 30); (90, 30)].
Proof. vm_compute. repeat split. Qed.

End PaginatorFacts.

(** * Further properties of the activity-log renderer *)

Module ActivityLogMore.

Import ActivityLog ActivityLogFacts.

Lemma sublist_In {A : Type} (l1 l2 : list A) :
  sublist l1 l2 -> forall x, In x l1 -> In x l2.
Proof.
  induction 1 as [|x l1 l2 _ IH|x l1 l2 _ IH]; intros y Hy; simpl in *; [tauto| |auto].
  destruct Hy as [->|Hy]; auto.
Qed.

Lemma flat_map_sublist {A B : Type} (f g : A -> list B) (l : list A) :
  Forall (fun x => sublist (f x) (g x)) l -> sublist (flat_map f l) (flat_map g l).
Proof.
  induction 1 as [|x xs Hx _ IH]; simpl; [constructor|]. now apply sublist_app.
Qed.

Lemma contains_In x xs : Py.contains x xs = true <-> In x xs.
Proof.
  unfold Py.contains. rewrite existsb_exists. split.
  - intros (y & Hy & Heq). apply String.eqb_eq in Heq. now subst.
  - intros H. exists x. split; [exact H|apply String.eqb_refl].
Qed.

Section Renderer.

Variable string_to_int : string -> option Z.
Variable normalize_log_step_name : string -> string.
Variable fuzz_ratio : string -> string -> Z.

Local Abbreviation filter_logs :=
  (filter_logs string_to_int normalize_log_step_name fuzz_ratio).
Local Abbreviation get_logs := (get_logs string_to_int normalize_log_step_name fuzz_ratio).

Lemma filter_logs_falsy log_item steps :
  Py.truthy_list steps = false -> filter_logs log_item steps = true.
Proof. destruct steps as [[|s l]|]; simpl; intros H; [reflexivity|discriminate|reflexivity]. Qed.

(** Below the root, what [get_logs] returns is what the unpruned traversal
    returns with some lines left out. *)
Lemma get_logs_sublist_below_root steps categories include_name log_item depth :
  sublist (get_logs log_item (S depth) steps categories include_name)
          (subtree_logs log_item categories include_name).
Proof.
  destruct depth as [|depth].
  - rewrite get_logs_step. destruct (filter_logs log_item steps); [reflexivity|].
    rewrite subtree_logs_unfold. now apply sublist_inserts_r.
  - now rewrite get_logs_deep.
Qed.

(** X1. Without a step filter ([None] or the empty list) nothing is pruned:
    below the root [get_logs] is the unpruned pre-order rendering of the
    subtree, and so it is at a root that has log elements or children. *)
Theorem no_step_filter_renders_everything steps categories include_name :
  Py.truthy_list steps = false ->
  (forall node depth,
      get_logs node (S depth) steps categories include_name
      = subtree_logs node categories include_name)
  /\ (forall name status elements children,
         (Nat.eqb (length elements) 0 && Nat.eqb (length children) 0)%bool = false ->
         get_logs (mkLogItem name status elements children) 0 steps categories include_name
         = subtree_logs (mkLogItem name status elements children) categories include_name).
Proof.
  intros Hsteps.
  assert (Hbelow : forall node depth,
             get_logs node (S depth) steps categories include_name
             = subtree_logs node categories include_name).
  { intros node [|depth]; [|apply get_logs_deep].
    rewrite get_logs_step. now rewrite filter_logs_falsy. }
  split; [exact Hbelow|].
  intros name status elements children Hcontent.
  rewrite get_logs_root, Hcontent, subtree_logs_unfold. simpl.
  f_equal. apply flat_map_Forall_eq, Forall_forall. intros child _. apply Hbelow.
Qed.

(** X2. The step filter only ever leaves lines out: whatever the filter,
    the lines [get_logs] returns for a node below the root, or for a root
    that has log elements or children, are lines of the unpruned rendering
    of that node, in the same order. *)
Theorem pruning_only_removes_lines steps categories include_name :
  (forall node depth,
      sublist (get_logs node (S depth) steps categories include_name)
              (subtree_logs node categories include_name))
  /\ (forall name status elements children,
         (Nat.eqb (length elements) 0 && Nat.eqb (length children) 0)%bool = false ->
         sublist
           (get_logs (mkLogItem name status elements children) 0 steps categories include_name)
           (subtree_logs (mkLogItem name status elements children) categories include_name)).
Proof.
  split; [intros; apply get_logs_sublist_below_root|].
  intros name status elements children Hcontent.
  rewrite get_logs_root, Hcontent, subtree_logs_unfold. simpl.
  apply sublist_app; [reflexivity|].
  apply flat_map_sublist, Forall_forall. intros child _.
  apply get_logs_sublist_below_root.
Qed.

Lemma own_logs_origin log_item category categories include_name line :
  In line (own_logs log_item (Some (category :: categories)) include_name) ->
  (include_name = true /\ line = Name log_item)
  \/ exists e, In e (LogElements log_item) /\ MessageText e = line
               /\ In (Category e) (category :: categories).
Proof.
  unfold own_logs. simpl Py.truthy_list. cbv iota. simpl default.
  rewrite in_app_iff, in_map_iff. intros [Hname|(e & <- & He)].
  - left. destruct include_name; simpl in Hname; [|tauto].
    destruct Hname as [<-|[]]. auto.
  - right. apply filter_In in He as [He Hcat]. exists e.
    split; [exact He|split; [reflexivity|]]. now apply contains_In.
Qed.

Lemma subtree_logs_origin category categories include_name :
  forall log_item line,
    In line (subtree_logs log_item (Some (category :: categories)) include_name) ->
    (include_name = true /\ In line (all_names log_item))
    \/ exists e, In e (all_elements log_item) /\ MessageText e = line
                 /\ In (Category e) (category :: categories).
Proof.
  induction log_item as [name status elements children IH] using LogItem_tree_ind.
  intros line. rewrite subtree_logs_unfold, in_app_iff. simpl Children.
  intros [Hown|Hchild].
  - apply own_logs_origin in Hown as [[Hinc ->]|(e & He & Hm & Hc)].
    + left. split; [exact Hinc|]. simpl. auto.
    + right. exists e. split; [|auto]. simpl. apply in_app_iff. auto.
  - apply in_flat_map in Hchild as (child & Hin & Hline).
    rewrite Forall_forall in IH.
    destruct (IH child (proj2 (list_elem_of_In _ _) Hin) line Hline)
      as [[Hinc Hn]|(e & He & Hm & Hc)].
    + left. split; [exact Hinc|]. simpl. right. apply in_flat_map. eauto.
    + right. exists e. split; [|auto]. simpl. apply in_app_iff. right.
      apply in_flat_map. eauto.
Qed.

(** X3. Under a non-empty category filter every line of the rendering, at
    any depth and whatever the step filter, is either the name of a node of
    the tree (only when [include_name]) or the message of a log element of
    the tree whose category is in the filter: no message of another
    category and no placeholder line is emitted. *)
Theorem category_filter_is_sound steps category categories include_name node depth line :
  In line (get_logs node depth steps (Some (category :: categories)) include_name) ->
  (include_name = true /\ In line (all_names node))
  \/ exists e, In e (all_elements node) /\ MessageText e = line
               /\ In (Category e) (category :: categories).
Proof.
  intros Hline. apply subtree_logs_origin.
  destruct depth as [|depth].
  - destruct node as [name status elements children].
    rewrite get_logs_root in Hline.
    destruct (Nat.eqb (length elements) 0 && Nat.eqb (length children) 0)%bool eqn:Hdeg.
    + simpl in Hline. contradiction.
    + rewrite subtree_logs_unfold. simpl Children.
      apply in_app_iff in Hline as [Hown|Hchild]; apply in_app_iff; [now left|right].
      apply in_flat_map in Hchild as (child & Hin & Hl). apply in_flat_map.
      exists child. split; [exact Hin|].
      eapply sublist_In; [apply get_logs_sublist_below_root|exact Hl].
  - eapply sublist_In; [apply get_logs_sublist_below_root|exact Hline].
Qed.

(** X4. On filters that have tokens, [filter_logs] depends on which tokens
    are present and not on their order or number, and more tokens never
    turn an accepted node into a rejected one: a node accepted under a
    non-empty filter is accepted under every filter that contains its
    tokens. *)
Theorem more_tokens_accept_more log_item (steps more : list string) :
  steps <> [] ->
  (forall tok, In tok steps -> In tok more) ->
  filter_logs log_item (Some steps) = true ->
  filter_logs log_item (Some more) = true.
Proof.
  intros Hne Hsub Hacc.
  destruct steps as [|s steps]; [contradiction|].
  destruct more as [|m more]; [reflexivity|].
  apply filter_logs_true_iff. apply filter_logs_true_iff in Hacc.
  destruct Hacc as [(tok & Hin & H)|(tok & Hin & H)]; [left|right];
    exists tok; split; auto.
Qed.

End Renderer.

Lemma no_step_filter_witness :
  let leaf := mkLogItem "Deploy on web01" "Success" [mkLogElement "Info" "copied"] [] in
  let step := mkLogItem "Step 2 Notify" "Success" [mkLogElement "Info" "notifying"] [leaf] in
  let root := mkLogItem "Task" "Success" [] [step] in
  get_logs StandIn.string_to_int StandIn.normalize_log_step_name StandIn.fuzz_ratio
           root 0 (Some []) None true
  = ["Task"; "Step 2 Notify"; "notifying"; "Deploy on web01"; "copied"].
Proof.
  intros leaf step root. subst root.
  rewrite (proj2 (no_step_filter_renders_everything
                    StandIn.string_to_int StandIn.normalize_log_step_name StandIn.fuzz_ratio
                    (Some []) None true eq_refl) "Task" "Success" [] [step] eq_refl).
  reflexivity.
Defined.

Lemma pruning_witness :
  let leaf := mkLogItem "Deploy on web01" "Success" [mkLogElement "Info" "copied"] [] in
  let step := mkLogItem "Step 2 Notify" "Success" [mkLogElement "Info" "notifying"] [leaf] in
  sublist
    (get_logs StandIn.string_to_int StandIn.normalize_log_step_name StandIn.fuzz_ratio
              (mkLogItem "Task" "Success" [] [step]) 0 (Some ["1"]) None true)
    ["Task"; "Step 2 Notify"; "notifying"; "Deploy on web01"; "copied"].
Proof.
  intros leaf step.
  exact (proj2 (pruning_only_removes_lines
                  StandIn.string_to_int StandIn.normalize_log_step_name StandIn.fuzz_ratio
                  (Some ["1"]) None true) "Task" "Success" [] [step] eq_refl).
Defined.

Lemma category_filter_witness :
  let node := mkLogItem "Step 1 Deploy" "Success"
                        [mkLogElement "Info" "deploying"; mkLogElement "Error" "failed"] [] in
  (false = true /\ In "failed" (all_names node))
  \/ exists e, In e (all_elements node) /\ MessageText e = "failed"
               /\ In (Category e) ["Error"].
Proof.
  intros node.
  apply (category_filter_is_sound
           StandIn.string_to_int StandIn.normalize_log_step_name StandIn.fuzz_ratio
           None "Error" [] false node 1 "failed").
  vm_compute. auto.
Defined.

Lemma more_tokens_witness :
  filter_logs StandIn.string_to_int StandIn.normalize_log_step_name StandIn.fuzz_ratio
              (mkLogItem "Step 1 Deploy" "Success" [] []) (Some ["notify"; "1"]) = true.
Proof.
  apply (more_tokens_accept_more
           StandIn.string_to_int StandIn.normalize_log_step_name StandIn.fuzz_ratio
           (mkLogItem "Step 1 Deploy" "Success" [] []) ["1"] ["notify"; "1"]).
  - discriminate.
  - simpl. tauto.
  - vm_compute. reflexivity.
Defined.

End ActivityLogMore.

(** * Further properties of the remote calls *)

Module RemoteFacts.

Import TransportFacts ResolverFacts.

Section Calls.

Context {T : Py.Text} {W : Type} (E : Env W).

Lemma handle_response_returned {V : Type} (callback : M V Response) v resp v' :
  handle_response callback v = (Ok resp, v') ->
  callback v = (Ok resp, v') /\ (status resp = 200 \/ status resp = 201).
Proof.
  unfold handle_response, bind, lift, logger_info, ret, raise.
  destruct (callback v) as [[r|e] v0]; [|discriminate].
  destruct (status r =? 401) eqn:H401; [destruct (Utf8.decode (data r)); discriminate|].
  destruct (status r =? 200) eqn:H200; simpl.
  - intros [= <- <-]. apply Z.eqb_eq in H200. auto.
  - destruct (status r =? 201) eqn:H201; simpl.
    + intros [= <- <-]. apply Z.eqb_eq in H201. auto.
    + destruct (Utf8.decode (data r)); discriminate.
Qed.

(** One attempt of a call made of one request, over the recording
    transport, when the transport hands back a response. *)
Lemma attempt_on_response {A : Type} (reader : Response -> option A) req w log resp w1 :
  http_request req w = (Ok resp, w1) ->
  exists r,
    (do got <- handle_response (http_request (Env := logged E) req);
     lift_json (reader got)) (w, log)
    = (r, (w1, (log ++ [req])%list))
    /\ r <> Raise HTTPError
    /\ (status resp = 200 \/ status resp = 201 ->
        r = match reader resp with Some a => Ok a | None => Raise JSONDecodeError end)
    /\ (forall text, status resp = 401 -> Utf8.decode (data resp) = Ok text ->
                     r = Raise OctopusApiKeyInvalid)
    /\ (forall text, status resp <> 401 -> status resp <> 200 -> status resp <> 201 ->
                     Utf8.decode (data resp) = Ok text ->
                     r = Raise (OctopusRequestFailed ("Request failed with " ++ text))).
Proof.
  intros Hreq.
  set (cb := http_request (Env := logged E) req).
  assert (Hcb : cb (w, log) = (Ok resp, (w1, (log ++ [req])%list))).
  { subst cb. simpl. now rewrite Hreq. }
  unfold bind at 1.
  destruct (handle_response cb (w, log)) as [[got|e] st] eqn:Hhr.
  - apply handle_response_returned in Hhr as [Hgot Hs].
    rewrite Hcb in Hgot. injection Hgot as <- <-.
    exists (match reader resp with Some a => Ok a | None => Raise JSONDecodeError end).
    split; [unfold lift_json; destruct (reader resp); reflexivity|].
    split; [destruct (reader resp); discriminate|].
    split; [reflexivity|]. split.
    + intros text H401. rewrite H401 in Hs. destruct Hs; discriminate.
    + intros text _ H200 H201. tauto.
  - pose proof (handle_response_world cb (w, log)) as Hw. rewrite Hhr, Hcb in Hw.
    simpl in Hw. subst st.
    pose proof (handle_response_http_error cb (w, log)) as Hh. rewrite Hhr, Hcb in Hh.
    simpl in Hh.
    exists (Raise e). split; [reflexivity|].
    split; [intros [= ->]; now discriminate Hh|].
    split.
    + intros Hs. rewrite (handle_response_success cb _ _ _ Hcb Hs) in Hhr. discriminate.
    + split.
      * intros text H401 Hd.
        rewrite (handle_response_decodable cb _ _ _ text Hcb Hd), H401 in Hhr. simpl in Hhr.
        now injection Hhr as <-.
      * intros text H401 H200 H201 Hd.
        rewrite (handle_response_decodable cb _ _ _ text Hcb Hd) in Hhr.
        apply Z.eqb_neq in H401, H200, H201. rewrite H401, H200, H201 in Hhr. simpl in Hhr.
        now injection Hhr as <-.
Qed.

(** One attempt when the transport raises. *)
Lemma attempt_on_error {A : Type} (reader : Response -> option A) req w log e w1 :
  http_request req w = (Raise e, w1) ->
  (do got <- handle_response (http_request (Env := logged E) req);
   lift_json (reader got)) (w, log)
  = (Raise e, (w1, (log ++ [req])%list)).
Proof.
  intros Hreq. unfold bind at 1.
  rewrite (handle_response_raise _ (w, log) e (w1, (log ++ [req])%list)); [reflexivity|].
  simpl. now rewrite Hreq.
Qed.

(** A call made of one request, retried: a response of any status ends it
    after that one request. *)
Lemma retried_on_response {A : Type} (reader : Response -> option A) req w log resp w1 tries :
  http_request req w = (Ok resp, w1) ->
  exists r,
    retry tries
      (do got <- handle_response (http_request (Env := logged E) req);
       lift_json (reader got)) (w, log)
    = (r, (w1, (log ++ [req])%list))
    /\ r <> Raise HTTPError
    /\ (status resp = 200 \/ status resp = 201 ->
        r = match reader resp with Some a => Ok a | None => Raise JSONDecodeError end)
    /\ (forall text, status resp = 401 -> Utf8.decode (data resp) = Ok text ->
                     r = Raise OctopusApiKeyInvalid)
    /\ (forall text, status resp <> 401 -> status resp <> 200 -> status resp <> 201 ->
                     Utf8.decode (data resp) = Ok text ->
                     r = Raise (OctopusRequestFailed ("Request failed with " ++ text))).
Proof.
  intros Hreq.
  destruct (attempt_on_response reader req w log resp w1 Hreq) as (r & Hrun & Hne & Hrest).
  exists r. split; [|split; [exact Hne|exact Hrest]].
  rewrite retry_first; rewrite Hrun; [reflexivity|exact Hne].
Qed.

(** A call made of one request, retried three times against a transport
    that raises [HTTPError] on that request whatever the world: the request
    is sent three times and [HTTPError] comes out. *)
Lemma retried_on_dead_transport {A : Type} (reader : Response -> option A) req w log :
  (forall v, fst (http_request req v) = Raise HTTPError) ->
  let run := retry 3
               (do got <- handle_response (http_request (Env := logged E) req);
                lift_json (reader got)) (w, log) in
  fst run = Raise HTTPError /\ snd (snd run) = (log ++ [req; req; req])%list.
Proof.
  intros Hdead run.
  assert (Hstep : forall v l,
             (do got <- handle_response (http_request (Env := logged E) req);
              lift_json (reader got)) (v, l)
             = (Raise HTTPError, (snd (http_request req v), (l ++ [req])%list))).
  { intros v l. apply attempt_on_error.
    specialize (Hdead v). destruct (http_request req v) as [r v']. simpl in *. now subst. }
  subst run. simpl. rewrite !Hstep. simpl. split; [reflexivity|].
  now rewrite <- !app_assoc.
Qed.

(** X5. [handle_response] hands back a response only when the callback
    returned that very response and its status is 200 or 201, and an
    exception raised by the callback comes out unchanged: no response of
    another status is ever returned to a caller. *)
Theorem handle_response_returns_only_success {V : Type} (callback : M V Response) v :
  (forall resp v', handle_response callback v = (Ok resp, v') ->
                   callback v = (Ok resp, v') /\ (status resp = 200 \/ status resp = 201))
  /\ (forall e v', callback v = (Raise e, v') -> handle_response callback v = (Raise e, v')).
Proof.
  split.
  - intros resp v'. apply handle_response_returned.
  - intros e v'. apply handle_response_raise.
Qed.

(** X6. A response whose body is well-formed UTF-8 is classified by its
    status alone: 401 raises the invalid-API-key error, any other status
    but 200 and 201 raises the failed-request error whose message is
    "Request failed with " followed by the body, and 200 and 201 return
    the response. *)
Theorem text_responses_are_classified {V : Type} (callback : M V Response) v resp v' text :
  callback v = (Ok resp, v') ->
  Utf8.decode (data resp) = Ok text ->
  (status resp = 401 -> handle_response callback v = (Raise OctopusApiKeyInvalid, v'))
  /\ (status resp <> 401 -> status resp <> 200 -> status resp <> 201 ->
      handle_response callback v
      = (Raise (OctopusRequestFailed ("Request failed with " ++ text)), v'))
  /\ (status resp = 200 \/ status resp = 201 -> handle_response callback v = (Ok resp, v')).
Proof.
  intros Hcb Hd. rewrite (handle_response_decodable callback v resp v' text Hcb Hd).
  split; [|split].
  - intros ->. reflexivity.
  - intros H401 H200 H201. apply Z.eqb_neq in H401, H200, H201.
    now rewrite H401, H200, H201.
  - intros [-> | ->]; reflexivity.
Qed.

(** X7. The listing of one page and the fetch of one resource are retried
    on transport errors only: as soon as the transport hands back a
    response, whatever its status, the six batch functions, [get_tenant]
    and [get_channel] have sent their one request once, and they end with
    the items read (200, 201), the invalid-key error (401) or the failed
    request (any other status), never with a second attempt. *)
Theorem a_response_ends_the_call skip take space_id project_id an_id key url :
  let page := [("take", QInt take); ("skip", QInt skip)] in
  let get path query := mkRequest "GET" (build_url url path query) (get_octopus_headers key) in
  ends_after_one_request E (get_spaces_batch (E := logged E) skip take key url)
    (get "api/Spaces" page) json_items
  /\ ends_after_one_request E (get_projects_batch (E := logged E) skip take space_id key url)
       (get ("api/" ++ quote_safe space_id ++ "/Projects") page) json_items
  /\ ends_after_one_request E (get_environments_batch (E := logged E) skip take space_id key url)
       (get ("api/" ++ quote_safe space_id ++ "/Environments") page) json_items
  /\ ends_after_one_request E (get_tenants_batch (E := logged E) skip take space_id key url)
       (get ("api/" ++ quote_safe space_id ++ "/Tenants") page) json_items
  /\ ends_after_one_request E
       (get_runbooks_batch (E := logged E) skip take space_id project_id key url)
       (get ("api/" ++ quote_safe space_id ++ "/Projects/" ++ quote_safe project_id
                    ++ "/Runbooks") page) json_items
  /\ ends_after_one_request E (get_all_runbooks_batch (E := logged E) skip take space_id key url)
       (get ("api/" ++ quote_safe space_id ++ "/Runbooks") page) json_items
  /\ ends_after_one_request E (get_tenant (E := logged E) space_id an_id key url)
       (get ("api/" ++ quote_safe space_id ++ "/Tenants/" ++ quote_safe an_id) []) json_item
  /\ ends_after_one_request E (get_channel (E := logged E) space_id an_id key url)
       (get ("api/" ++ quote_safe space_id ++ "/Channels/" ++ quote_safe an_id) []) json_item.
Proof.
  intros page get.
  repeat apply conj; intros w log resp w1 Hreq;
    first [ exact (retried_on_response json_items _ w log resp w1 3 Hreq)
          | exact (retried_on_response json_item _ w log resp w1 3 Hreq) ].
Qed.

(** X8. Against a transport that keeps raising [HTTPError], each of these
    calls sends its request exactly three times and then lets [HTTPError]
    out. *)
Theorem a_dead_transport_costs_three_attempts skip take space_id project_id an_id key url :
  let page := [("take", QInt take); ("skip", QInt skip)] in
  let get path query := mkRequest "GET" (build_url url path query) (get_octopus_headers key) in
  gives_up_after E (get_spaces_batch (E := logged E) skip take key url)
    (get "api/Spaces" page) 3
  /\ gives_up_after E (get_projects_batch (E := logged E) skip take space_id key url)
       (get ("api/" ++ quote_safe space_id ++ "/Projects") page) 3
  /\ gives_up_after E (get_environments_batch (E := logged E) skip take space_id key url)
       (get ("api/" ++ quote_safe space_id ++ "/Environments") page) 3
  /\ gives_up_after E (get_tenants_batch (E := logged E) skip take space_id key url)
       (get ("api/" ++ quote_safe space_id ++ "/Tenants") page) 3
  /\ gives_up_after E
       (get_runbooks_batch (E := logged E) skip take space_id project_id key url)
       (get ("api/" ++ quote_safe space_id ++ "/Projects/" ++ quote_safe project_id
                    ++ "/Runbooks") page) 3
  /\ gives_up_after E (get_all_runbooks_batch (E := logged E) skip take space_id key url)
       (get ("api/" ++ quote_safe space_id ++ "/Runbooks") page) 3
  /\ gives_up_after E (get_tenant (E := logged E) space_id an_id key url)
       (get ("api/" ++ quote_safe space_id ++ "/Tenants/" ++ quote_safe an_id) []) 3
  /\ gives_up_after E (get_channel (E := logged E) space_id an_id key url)
       (get ("api/" ++ quote_safe space_id ++ "/Channels/" ++ quote_safe an_id) []) 3.
Proof.
  intros page get.
  repeat apply conj; intros Hdead w log;
    first [ apply (retried_on_dead_transport json_items _ w log Hdead)
          | apply (retried_on_dead_transport json_item _ w log Hdead) ].
Qed.

(** Three attempts of a call that raises [HTTPError] after having sent some
    requests send them three times over. *)
Lemma retry_three_failures {A : Type} (f : M (W * list Request) A) (sent : list Request) :
  (forall v l, exists v', f (v, l) = (Raise HTTPError, (v', (l ++ sent)%list))) ->
  forall w log,
    fst (retry 3 f (w, log)) = Raise HTTPError
    /\ snd (snd (retry 3 f (w, log))) = (log ++ sent ++ sent ++ sent)%list.
Proof.
  intros Hf w log.
  destruct (Hf w log) as (v1 & H1).
  destruct (Hf v1 (log ++ sent)%list) as (v2 & H2).
  destruct (Hf v2 ((log ++ sent) ++ sent)%list) as (v3 & H3).
  simpl. rewrite H1, H2, H3. simpl. split; [reflexivity|]. now rewrite <- !app_assoc.
Qed.

(** X9. The retries nest: [get_channel_by_name] and [get_default_channel]
    are retried three times and call [get_channels], itself retried three
    times, so against a transport that keeps raising [HTTPError] they send
    the channel listing nine times before [HTTPError] comes out. *)
Theorem nested_retries_multiply json_channels space_id project_id channel_name key url :
  let req := mkRequest "GET"
               (build_url url ("api/" ++ quote_safe space_id ++ "/projects/"
                                      ++ quote_safe project_id ++ "/Channels") [])
               (get_octopus_headers key) in
  gives_up_after E
    (get_channel_by_name (E := logged E) space_id project_id channel_name key url) req 9
  /\ gives_up_after E
       (get_default_channel (E := logged E) json_channels space_id project_id key url) req 9.
Proof.
  intros req. split; intros Hdead w log.
  - apply (retry_three_failures _ (repeat req 3)). intros v l.
    pose proof (retried_on_dead_transport json_items req v l Hdead) as [Hr Hl].
    unfold get_channels, get_channels_as, bind at 1. cbv zeta.
    match goal with |- context [retry 3 ?f (v, l)] =>
      change (retry 3 f (v, l)) with
        (retry 3 (do got <- handle_response (http_request (Env := logged E) req);
                  lift_json (json_items got)) (v, l)) end.
    destruct (retry 3 _ (v, l)) as [r [v' l']]. simpl in Hr, Hl. subst r l'.
    now exists v'.
  - apply (retry_three_failures _ (repeat req 3)). intros v l.
    pose proof (retried_on_dead_transport json_channels req v l Hdead) as [Hr Hl].
    unfold get_channels_as, bind at 1. cbv zeta.
    match goal with |- context [retry 3 ?f (v, l)] =>
      change (retry 3 f (v, l)) with
        (retry 3 (do got <- handle_response (http_request (Env := logged E) req);
                  lift_json (json_channels got)) (v, l)) end.
    destruct (retry 3 _ (v, l)) as [r [v' l']]. simpl in Hr, Hl. subst r l'.
    now exists v'.
Qed.

End Calls.

Section Resolution.

Context {T : Py.Text} {W : Type} (E : Env W).

Lemma answers_logged req w items w' log :
  answers (E := E) req w items w' ->
  answers (E := logged E) req (w, log) items (w', (log ++ [req])%list).
Proof.
  intros (resp & Hreq & Hs & Hj). exists resp. split; [|split; [exact Hs|exact Hj]].
  simpl. now rewrite Hreq.
Qed.

Lemma not_one {A B : Type} (l : list A) (f : A -> B) (d : B) :
  length l <> 1%nat ->
  match l with
  | [x] => f x
  | _ => d
  end = d.
Proof. destruct l as [|a [|b l]]; simpl; intros H; trivial. now contradiction H. Qed.

(** X10. An argument that fails [ensure_string_not_empty] ends
    [get_space_id_and_name_from_name], [get_space] and [get_project] with
    the [ValueError] of the first failing argument, in the order the source
    checks them, before anything is sent: the world and the record of
    requests are as they were. [get_project] checks neither the key nor the
    url. *)
Theorem validation_failures_send_nothing (space key url project : string)
        (st : W * list Request) :
  (string_not_empty space = false ->
   get_space_id_and_name_from_name (E := logged E) space key url st
   = (Raise (ValueError
               "space_name must be a non-empty string (get_space_id_and_name_from_name)."), st))
  /\ (string_not_empty space = true -> string_not_empty url = false ->
      get_space_id_and_name_from_name (E := logged E) space key url st
      = (Raise (ValueError
                  "my_octopus_api must be the Octopus Url (get_space_id_and_name_from_name)."),
         st))
  /\ (string_not_empty space = true -> string_not_empty url = true ->
      string_not_empty key = false ->
      get_space_id_and_name_from_name (E := logged E) space key url st
      = (Raise (ValueError
                  "my_api_key must be the Octopus Api key (get_space_id_and_name_from_name)."),
         st))
  /\ (string_not_empty space = false ->
      get_space (E := logged E) space key url st
      = (Raise (ValueError "space_id must be a non-empty string (get_space)."), st))
  /\ (string_not_empty space = false ->
      get_project (E := logged E) space project key url st
      = (Raise (ValueError "space_id must be a non-empty string (get_project)."), st))
  /\ (string_not_empty space = true -> string_not_empty project = false ->
      get_project (E := logged E) space project key url st
      = (Raise (ValueError "project_name must be a non-empty string (get_project)."), st)).
Proof.
  repeat apply conj.
  - intros Ha. unfold get_space_id_and_name_from_name, ensure_string_not_empty.
    cbn [string_not_empty logged]. now rewrite Ha.
  - intros Ha Hc. unfold get_space_id_and_name_from_name, ensure_string_not_empty.
    cbn [string_not_empty logged]. now rewrite Ha, Hc.
  - intros Ha Hc Hb. unfold get_space_id_and_name_from_name, ensure_string_not_empty.
    cbn [string_not_empty logged]. now rewrite Ha, Hc, Hb.
  - intros Ha. unfold get_space. rewrite retry_first;
      unfold ensure_string_not_empty; cbn [string_not_empty logged]; rewrite Ha;
      [reflexivity|discriminate].
  - intros Ha. unfold get_project. rewrite retry_first;
      unfold ensure_string_not_empty; cbn [string_not_empty logged]; rewrite Ha;
      [reflexivity|discriminate].
  - intros Ha Hb. unfold get_project. rewrite retry_first;
      unfold ensure_string_not_empty; cbn [string_not_empty logged]; rewrite Ha, Hb;
      [reflexivity|discriminate].
Qed.

(** What [get_space_id_and_name_from_name] does with the listing of the
    spaces, for a name that is not an id. *)
Lemma space_by_listing space_name key url items w w' log :
  Py.startswith space_name "Spaces-" = false ->
  string_not_empty space_name = true ->
  string_not_empty url = true ->
  string_not_empty key = true ->
  answers (mkRequest "GET" (build_url url "api/spaces" [("take", QInt TAKE_ALL)])
                     (get_octopus_headers key)) w items w' ->
  get_space_id_and_name_from_name (E := logged E) space_name key url (w, log)
  = (match exact_matches items space_name with
     | [s] => Ok (Id s, Name s)
     | _ => match loose_matches items space_name with
            | [s] => Ok (Id s, Name s)
            | _ => Raise (SpaceNotFound space_name)
            end
     end,
     (w', (log ++ [mkRequest "GET" (build_url url "api/spaces" [("take", QInt TAKE_ALL)])
                             (get_octopus_headers key)])%list)).
Proof.
  intros Hprefix Hname Hurl Hkey Hans.
  unfold get_space_id_and_name_from_name, ensure_string_not_empty.
  cbn [string_not_empty logged]. rewrite Hname, Hurl, Hkey, Hprefix.
  unfold bind at 1 2 3. cbn [ret].
  rewrite (listing_answered (E := logged E) _ _ _ _ _ (answers_logged _ _ _ _ log Hans)).
  change (List.filter (fun s => String.eqb (Name s) space_name) items)
    with (exact_matches items space_name).
  change (List.filter _ items) with (loose_matches items space_name).
  destruct (exact_matches items space_name) as [|s [|s' l]]; try reflexivity;
    destruct (loose_matches items space_name) as [|t [|t' l']]; reflexivity.
Qed.

(** X11. When exactly one listed space has the queried name, character for
    character, [get_space_id_and_name_from_name] returns its id and name
    after the one listing request, however many other spaces have that name
    up to case and surrounding whitespace. *)
Theorem unique_exact_space_wins space_name key url items s w w' log :
  Py.startswith space_name "Spaces-" = false ->
  string_not_empty space_name = true ->
  string_not_empty url = true ->
  string_not_empty key = true ->
  answers (mkRequest "GET" (build_url url "api/spaces" [("take", QInt TAKE_ALL)])
                     (get_octopus_headers key)) w items w' ->
  exact_matches items space_name = [s] ->
  get_space_id_and_name_from_name (E := logged E) space_name key url (w, log)
  = (Ok (Id s, space_name),
     (w', (log ++ [mkRequest "GET" (build_url url "api/spaces" [("take", QInt TAKE_ALL)])
                             (get_octopus_headers key)])%list)).
Proof.
  intros Hprefix Hname Hurl Hkey Hans Hexact.
  rewrite (space_by_listing _ _ _ _ _ _ log Hprefix Hname Hurl Hkey Hans), Hexact.
  assert (Hin : In s (exact_matches items space_name)) by (rewrite Hexact; now left).
  apply filter_In in Hin as [_ Heq]. apply String.eqb_eq in Heq. now rewrite Heq.
Qed.

(** X12. When the exact comparison does not single out a space and exactly
    one listed space has the queried name once both are lowercased and
    stripped by [str.lower] and [str.strip], whatever these do outside
    ASCII, that space is returned, under its actual name. *)
Theorem unique_loose_space_is_found space_name key url items s w w' log :
  Py.startswith space_name "Spaces-" = false ->
  string_not_empty space_name = true ->
  string_not_empty url = true ->
  string_not_empty key = true ->
  answers (mkRequest "GET" (build_url url "api/spaces" [("take", QInt TAKE_ALL)])
                     (get_octopus_headers key)) w items w' ->
  length (exact_matches items space_name) <> 1%nat ->
  loose_matches items space_name = [s] ->
  get_space_id_and_name_from_name (E := logged E) space_name key url (w, log)
  = (Ok (Id s, Name s),
     (w', (log ++ [mkRequest "GET" (build_url url "api/spaces" [("take", QInt TAKE_ALL)])
                             (get_octopus_headers key)])%list)).
Proof.
  intros Hprefix Hname Hurl Hkey Hans Hexact Hloose.
  rewrite (space_by_listing _ _ _ _ _ _ log Hprefix Hname Hurl Hkey Hans).
  rewrite not_one by exact Hexact. now rewrite Hloose.
Qed.

(** X13. Once the listing is answered, the resolution of a space name ends
    in one of two ways: [SpaceNotFound] with the queried name, or the id
    and name of a listed space whose name is the queried name up to case
    and surrounding whitespace, as [str.lower] and [str.strip] see them.
    A space with another name is never returned. *)
Theorem resolved_space_is_listed space_name key url items w w' log :
  Py.startswith space_name "Spaces-" = false ->
  string_not_empty space_name = true ->
  string_not_empty url = true ->
  string_not_empty key = true ->
  answers (mkRequest "GET" (build_url url "api/spaces" [("take", QInt TAKE_ALL)])
                     (get_octopus_headers key)) w items w' ->
  let result :=
    fst (get_space_id_and_name_from_name (E := logged E) space_name key url (w, log)) in
  result = Raise (SpaceNotFound space_name)
  \/ exists s, In s items
               /\ result = Ok (Id s, Name s)
               /\ Py.strip (Py.lower (Name s)) = Py.strip (Py.lower space_name).
Proof.
  intros Hprefix Hname Hurl Hkey Hans result. subst result.
  rewrite (space_by_listing _ _ _ _ _ _ log Hprefix Hname Hurl Hkey Hans). simpl.
  assert (Hex : forall s, In s (exact_matches items space_name) ->
                          In s items
                          /\ Py.strip (Py.lower (Name s)) = Py.strip (Py.lower space_name)).
  { intros s Hs. apply filter_In in Hs as [Hin Heq]. apply String.eqb_eq in Heq.
    split; [exact Hin|now rewrite Heq]. }
  assert (Hlo : forall s, In s (loose_matches items space_name) ->
                          In s items
                          /\ Py.strip (Py.lower (Name s)) = Py.strip (Py.lower space_name)).
  { intros s Hs. apply filter_In in Hs as [Hin Heq]. apply String.eqb_eq in Heq. auto. }
  destruct (exact_matches items space_name) as [|s [|s' l]].
  - destruct (loose_matches items space_name) as [|t [|t' l']]; [now left| |now left].
    right. exists t. destruct (Hlo t (or_introl eq_refl)). auto.
  - right. exists s. destruct (Hex s (or_introl eq_refl)). auto.
  - destruct (loose_matches items space_name) as [|t [|t' l']]; [now left| |now left].
    right. exists t. destruct (Hlo t (or_introl eq_refl)). auto.
Qed.

End Resolution.

Section Tiers.

Context {T : Py.Text} {W : Type} (E : Env W).

Lemma probe_hit kind base_url name key url tries :
  resolves_in_one_request E
    (retry tries (probe_then_list (E := logged E) kind base_url name key url))
    (mkRequest "GET" (build_url url base_url [("partialname", QStr name)])
               (get_octopus_headers key)) name.
Proof.
  intros w log items found w1 Hprobe Hfound.
  assert (Hbody : probe_then_list (E := logged E) kind base_url name key url (w, log)
                  = (Ok found,
                     (w1, (log ++ [mkRequest "GET"
                                     (build_url url base_url [("partialname", QStr name)])
                                     (get_octopus_headers key)])%list))).
  { unfold probe_then_list.
    rewrite (listing_answered (E := logged E) _ _ _ _ _ (answers_logged E _ _ _ _ log Hprobe)).
    now rewrite Hfound. }
  rewrite retry_first; rewrite Hbody; [reflexivity|discriminate].
Qed.

Lemma probe_miss_then_hit kind base_url name key url tries :
  resolves_in_two_requests E
    (retry tries (probe_then_list (E := logged E) kind base_url name key url))
    (mkRequest "GET" (build_url url base_url [("partialname", QStr name)])
               (get_octopus_headers key))
    (mkRequest "GET" (build_url url base_url []) (get_octopus_headers key)) name.
Proof.
  intros w log l1 l2 found w1 w2 Hprobe Hnone Hfull Hfound.
  assert (Hbody : probe_then_list (E := logged E) kind base_url name key url (w, log)
                  = (Ok found,
                     (w2, (log ++ [mkRequest "GET"
                                     (build_url url base_url [("partialname", QStr name)])
                                     (get_octopus_headers key);
                                   mkRequest "GET" (build_url url base_url [])
                                     (get_octopus_headers key)])%list))).
  { unfold probe_then_list.
    rewrite (listing_answered (E := logged E) _ _ _ _ _ (answers_logged E _ _ _ _ log Hprobe)).
    rewrite Hnone.
    rewrite (listing_answered (E := logged E) _ _ _ _ _ (answers_logged E _ _ _ _ _ Hfull)).
    rewrite Hfound. now rewrite <- app_assoc. }
  rewrite retry_first; rewrite Hbody; [reflexivity|discriminate].
Qed.

(** X14. When the listing filtered by [partialname] is answered and
    [get_item_fuzzy] selects a candidate in it, the resolvers return that
    candidate after this one request: the unfiltered listing is not asked
    for. This holds for [get_environment_fuzzy], [get_tenant_fuzzy],
    [get_project_fuzzy], [get_runbook_fuzzy], and for [get_project] on a
    name that is not an id and arguments that pass validation. *)
Theorem probe_hit_needs_one_request space_id project_id name key url :
  let get path query := mkRequest "GET" (build_url url path query) (get_octopus_headers key) in
  let by_name := [("partialname", QStr name)] in
  resolves_in_one_request E (get_environment_fuzzy (E := logged E) space_id name key url)
    (get ("api/" ++ quote_safe space_id ++ "/Environments") by_name) name
  /\ resolves_in_one_request E (get_tenant_fuzzy (E := logged E) space_id name key url)
       (get ("api/" ++ quote_safe space_id ++ "/Tenants") by_name) name
  /\ resolves_in_one_request E (get_project_fuzzy (E := logged E) space_id name key url)
       (get ("api/" ++ quote_safe space_id ++ "/Projects") by_name) name
  /\ resolves_in_one_request E
       (get_runbook_fuzzy (E := logged E) space_id project_id name key url)
       (get ("api/" ++ quote_safe space_id ++ "/Projects/" ++ quote_safe project_id
                    ++ "/Runbooks") by_name) name
  /\ (Py.startswith name "Projects-" = false ->
      string_not_empty space_id = true ->
      string_not_empty name = true ->
      resolves_in_one_request E (get_project (E := logged E) space_id name key url)
        (get ("api/" ++ quote_safe space_id ++ "/Projects") by_name) name).
Proof.
  intros get by_name. repeat apply conj.
  - apply probe_hit.
  - apply probe_hit.
  - apply probe_hit.
  - apply probe_hit.
  - intros Hprefix Hspace Hname w log items found w1 Hprobe Hfound.
    unfold get_project. rewrite retry_first;
      unfold ensure_string_not_empty; cbn [string_not_empty logged];
      rewrite Hspace, Hname, Hprefix; unfold bind at 1 2; cbn [ret];
      rewrite (listing_answered (E := logged E) _ _ _ _ _
                 (answers_logged E _ _ _ _ log Hprobe)), Hfound;
      [reflexivity|discriminate].
Qed.

(** X15. When the filtered listing selects nothing and the listing asked
    for next selects a candidate, the resolvers return that candidate after
    exactly these two requests, in this order. The second request of the
    four fuzzy resolvers carries no query at all, that of [get_project]
    asks for [take=TAKE_ALL]. *)
Theorem fallback_needs_two_requests space_id project_id name key url :
  let get path query := mkRequest "GET" (build_url url path query) (get_octopus_headers key) in
  let by_name := [("partialname", QStr name)] in
  resolves_in_two_requests E (get_environment_fuzzy (E := logged E) space_id name key url)
    (get ("api/" ++ quote_safe space_id ++ "/Environments") by_name)
    (get ("api/" ++ quote_safe space_id ++ "/Environments") []) name
  /\ resolves_in_two_requests E (get_tenant_fuzzy (E := logged E) space_id name key url)
       (get ("api/" ++ quote_safe space_id ++ "/Tenants") by_name)
       (get ("api/" ++ quote_safe space_id ++ "/Tenants") []) name
  /\ resolves_in_two_requests E (get_project_fuzzy (E := logged E) space_id name key url)
       (get ("api/" ++ quote_safe space_id ++ "/Projects") by_name)
       (get ("api/" ++ quote_safe space_id ++ "/Projects") []) name
  /\ resolves_in_two_requests E
       (get_runbook_fuzzy (E := logged E) space_id project_id name key url)
       (get ("api/" ++ quote_safe space_id ++ "/Projects/" ++ quote_safe project_id
                    ++ "/Runbooks") by_name)
       (get ("api/" ++ quote_safe space_id ++ "/Projects/" ++ quote_safe project_id
                    ++ "/Runbooks") []) name
  /\ (Py.startswith name "Projects-" = false ->
      string_not_empty space_id = true ->
      string_not_empty name = true ->
      resolves_in_two_requests E (get_project (E := logged E) space_id name key url)
        (get ("api/" ++ quote_safe space_id ++ "/Projects") by_name)
        (get ("api/" ++ quote_safe space_id ++ "/Projects") [("take", QInt TAKE_ALL)]) name).
Proof.
  intros get by_name. repeat apply conj.
  - apply probe_miss_then_hit.
  - apply probe_miss_then_hit.
  - apply probe_miss_then_hit.
  - apply probe_miss_then_hit.
  - intros Hprefix Hspace Hname w log l1 l2 found w1 w2 Hprobe Hnone Hfull Hfound.
    unfold get_project. rewrite retry_first;
      unfold ensure_string_not_empty; cbn [string_not_empty logged];
      rewrite Hspace, Hname, Hprefix; unfold bind at 1 2; cbn [ret];
      rewrite (listing_answered (E := logged E) _ _ _ _ _
                 (answers_logged E _ _ _ _ log Hprobe)), Hnone;
      cbn [TAKE_ALL logged];
      rewrite (listing_answered (E := logged E) _ _ _ _ _
                 (answers_logged E _ _ _ _ _ Hfull)), Hfound;
      rewrite <- ?app_assoc; [reflexivity|discriminate].
Qed.

End Tiers.

Section Lookups.

Context {T : Py.Text} {W : Type} {E : Env W}.

(** The channel listing, answered. *)
Lemma channels_answered {A : Type} (reader : Response -> option (list A))
      space_id project_id key url resp channels w w' :
  http_request (mkRequest "GET"
                  (build_url url ("api/" ++ quote_safe space_id ++ "/projects/"
                                         ++ quote_safe project_id ++ "/Channels") [])
                  (get_octopus_headers key)) w = (Ok resp, w') ->
  status resp = 200 \/ status resp = 201 ->
  reader resp = Some channels ->
  get_channels_as reader space_id project_id key url w = (Ok channels, w').
Proof.
  intros Hreq Hs Hread. unfold get_channels_as.
  assert (Hbody :
            (do got <- handle_response
                         (http_request
                            (mkRequest "GET"
                               (build_url url ("api/" ++ quote_safe space_id ++ "/projects/"
                                                      ++ quote_safe project_id ++ "/Channels") [])
                               (get_octopus_headers key)));
             lift_json (reader got)) w = (Ok channels, w')).
  { unfold bind. rewrite (handle_response_success _ _ _ _ Hreq Hs).
    unfold lift_json. now rewrite Hread. }
  cbv zeta. rewrite retry_first; rewrite Hbody; [reflexivity|discriminate].
Qed.

(** X16. With the channels of the project listed, [get_channel_by_name]
    returns the channel [get_item_fuzzy] selects; when none is selected it
    raises [ResourceNotFound] for the kind "Channel" with the id of the
    project, not the name of the channel that was asked for. *)
Theorem channel_not_found_names_the_project space_id project_id channel_name key url
        channels w w' :
  answers (mkRequest "GET"
             (build_url url ("api/" ++ quote_safe space_id ++ "/projects/"
                                    ++ quote_safe project_id ++ "/Channels") [])
             (get_octopus_headers key)) w channels w' ->
  (get_item_fuzzy channels channel_name = None ->
   get_channel_by_name space_id project_id channel_name key url w
   = (Raise (ResourceNotFound "Channel" project_id), w'))
  /\ (forall found,
         get_item_fuzzy channels channel_name = Some found ->
         get_channel_by_name space_id project_id channel_name key url w = (Ok found, w')).
Proof.
  intros (resp & Hreq & Hs & Hread).
  pose proof (channels_answered json_items space_id project_id key url resp channels w w'
                Hreq Hs Hread) as Hlist.
  split.
  - intros Hnone. unfold get_channel_by_name.
    rewrite retry_first; unfold bind, get_channels; rewrite Hlist, Hnone;
      [reflexivity|discriminate].
  - intros found Hfound. unfold get_channel_by_name.
    rewrite retry_first; unfold bind, get_channels; rewrite Hlist, Hfound;
      [reflexivity|discriminate].
Qed.

Lemma filter_first {A : Type} (p : A -> bool) (pre post : list A) (x : A) :
  Forall (fun y => p y = false) pre -> p x = true ->
  List.filter p (pre ++ x :: post) = x :: List.filter p post.
Proof.
  intros Hpre Hx. induction Hpre as [|y pre Hy _ IH]; simpl; [now rewrite Hx|now rewrite Hy].
Qed.

(** X17. With the channels of the project listed, [get_default_channel]
    returns the first listed channel whose [IsDefault] is true, and raises
    [ResourceNotFound] for the kind "Default Channel" with the id of the
    project when no listed channel is the default. *)
Theorem default_channel_is_the_first_default json_channels space_id project_id key url
        resp channels w w' :
  http_request (mkRequest "GET"
                  (build_url url ("api/" ++ quote_safe space_id ++ "/projects/"
                                         ++ quote_safe project_id ++ "/Channels") [])
                  (get_octopus_headers key)) w = (Ok resp, w') ->
  status resp = 200 \/ status resp = 201 ->
  json_channels resp = Some channels ->
  (forall pre found post,
      channels = (pre ++ found :: post)%list ->
      Forall (fun c => IsDefault c = false) pre ->
      IsDefault found = true ->
      get_default_channel json_channels space_id project_id key url w = (Ok found, w'))
  /\ (Forall (fun c => IsDefault c = false) channels ->
      get_default_channel json_channels space_id project_id key url w
      = (Raise (ResourceNotFound "Default Channel" project_id), w')).
Proof.
  intros Hreq Hs Hread.
  pose proof (channels_answered json_channels space_id project_id key url resp channels w w'
                Hreq Hs Hread) as Hlist.
  split.
  - intros pre found post -> Hpre Hfound. unfold get_default_channel.
    rewrite retry_first; unfold bind; rewrite Hlist;
      rewrite (filter_first IsDefault pre post found Hpre Hfound);
      [reflexivity|discriminate].
  - intros Hnone. unfold get_default_channel.
    rewrite retry_first; unfold bind; rewrite Hlist;
      rewrite (ResolverFacts.filter_none IsDefault channels Hnone);
      [reflexivity|discriminate].
Qed.

(** X18. [get_release_fuzzy] compares versions exactly: with the releases
    listed, it returns the first listed release whose version is the
    queried one character for character, and raises [ResourceNotFound] for
    the kind "Release" with the queried version when no listed release has
    exactly that version. *)
Theorem release_version_is_matched_exactly json_releases space_id project_id version key url
        resp releases w w' :
  http_request (mkRequest "GET"
                  (build_url url ("api/" ++ quote_safe space_id ++ "/projects/"
                                         ++ quote_safe project_id ++ "/releases")
                             [("searchByVersion", QStr version)])
                  (get_octopus_headers key)) w = (Ok resp, w') ->
  status resp = 200 \/ status resp = 201 ->
  json_releases resp = Some releases ->
  (forall pre found post,
      releases = (pre ++ found :: post)%list ->
      Forall (fun r => Version r <> version) pre ->
      Version found = version ->
      get_release_fuzzy json_releases space_id project_id version key url w = (Ok found, w'))
  /\ (Forall (fun r => Version r <> version) releases ->
      get_release_fuzzy json_releases space_id project_id version key url w
      = (Raise (ResourceNotFound "Release" version), w')).
Proof.
  intros Hreq Hs Hread.
  assert (Hne : forall l, Forall (fun r => Version r <> version) l ->
                          Forall (fun r => String.eqb (Version r) version = false) l).
  { intros l Hl. eapply Forall_impl; [exact Hl|]. intros r Hr. now apply String.eqb_neq. }
  split.
  - intros pre found post -> Hpre Hfound. unfold get_release_fuzzy.
    rewrite retry_first; unfold bind; rewrite (handle_response_success _ _ _ _ Hreq Hs);
      unfold lift_json; rewrite Hread; unfold ret;
      rewrite (filter_first _ pre post found (Hne _ Hpre)
                 (proj2 (String.eqb_eq _ _) Hfound));
      [reflexivity|discriminate].
  - intros Hnone. unfold get_release_fuzzy.
    rewrite retry_first; unfold bind; rewrite (handle_response_success _ _ _ _ Hreq Hs);
      unfold lift_json; rewrite Hread; unfold ret;
      rewrite (ResolverFacts.filter_none _ releases (Hne _ Hnone));
      [reflexivity|discriminate].
Qed.

(** X19. [get_task] asks the server nothing when no task is named: for a
    task id that is [None] or empty it returns [None] and leaves the world
    as it is, whatever the transport would have answered, provided the
    space id passes validation; when it does not, the [ValueError] comes
    first. *)
Theorem no_task_id_no_request space_id key url (w : W) :
  (string_not_empty space_id = true ->
   get_task space_id None key url w = (Ok None, w)
   /\ get_task space_id (Some "") key url w = (Ok None, w))
  /\ (string_not_empty space_id = false ->
      forall task_id,
        get_task space_id task_id key url w
        = (Raise (ValueError "space_id must be a non-empty string (get_task)."), w)).
Proof.
  split.
  - intros Hspace. split; unfold get_task; rewrite retry_first;
      unfold ensure_string_not_empty; rewrite Hspace; try reflexivity; discriminate.
  - intros Hspace task_id. unfold get_task. rewrite retry_first;
      unfold ensure_string_not_empty; rewrite Hspace; [reflexivity|discriminate].
Qed.

(** The result of [retry] is the result of one of the attempts. *)
Lemma retry_result {V A : Type} (P : Result A -> Prop) (f : M V A) tries :
  (forall v, P (fst (f v))) -> forall v, P (fst (retry tries f v)).
Proof.
  intros Hf. induction tries as [|n IH]; intros v; simpl; [apply Hf|].
  destruct n as [|n]; [apply Hf|].
  pose proof (Hf v) as Hv. destruct (f v) as [[a|e] v']; simpl in *; trivial.
  destruct e; trivial.
Qed.

(** X20. [get_task_interruptions] and [get_users] never return an empty
    list: whatever the transport does, their result is [None], a list with
    at least one element, or an exception. *)
Theorem an_empty_listing_is_none space_id server_task key url (w : W) :
  fst (get_task_interruptions space_id server_task key url w) <> Ok (Some [])
  /\ fst (get_users key url w) <> Ok (Some []).
Proof.
  split.
  - unfold get_task_interruptions. cbv zeta.
    apply (retry_result (fun r => r <> Ok (Some []))). intros v.
    unfold bind. destruct (handle_response _ v) as [[resp|e] v1]; [|discriminate].
    unfold lift_json. destruct (json_items resp) as [[|i l]|]; simpl; discriminate.
  - unfold get_users. cbv zeta.
    apply (retry_result (fun r => r <> Ok (Some []))). intros v.
    unfold bind. destruct (handle_response _ v) as [[resp|e] v1]; [|discriminate].
    unfold lift_json. destruct (json_items resp) as [[|i l]|]; simpl; discriminate.
Qed.

End Lookups.

Section RemoteSamples.

#[local] Existing Instance StandIn.ascii_text.

Lemma handle_response_returns_witness :
  status (StandIn.response_of 201 "made") = 200 \/ status (StandIn.response_of 201 "made") = 201.
Proof.
  exact (proj2 (proj1 (handle_response_returns_only_success
                         (ret (StandIn.response_of 201 "made")) tt)
                      (StandIn.response_of 201 "made") tt eq_refl)).
Defined.

Lemma text_responses_witness :
  handle_response (ret (StandIn.response_of 404 "missing")) tt
  = (Raise (OctopusRequestFailed "Request failed with missing"), tt).
Proof.
  apply (text_responses_are_classified
           (ret (StandIn.response_of 404 "missing")) tt
           (StandIn.response_of 404 "missing") tt "missing" eq_refl eq_refl);
    discriminate.
Defined.

Lemma a_response_ends_the_call_witness :
  get_spaces_batch (E := logged StandIn.scripted) 0 30 "API-KEY" "https://octopus.example"
    ([Ok (StandIn.response_of 401 "denied"); Ok (StandIn.response_of 200 "Default")], [])
  = (Raise OctopusApiKeyInvalid,
     ([Ok (StandIn.response_of 200 "Default")],
      [mkRequest "GET"
         (build_url "https://octopus.example" "api/Spaces"
                    [("take", QInt 30); ("skip", QInt 0)])
         (get_octopus_headers "API-KEY")])).
Proof.
  pose proof (a_response_ends_the_call StandIn.scripted
                0 30 "Spaces-1" "Projects-1" "Tenants-1" "API-KEY" "https://octopus.example")
    as H.
  cbv zeta in H. destruct H as (Hspaces & _).
  destruct (Hspaces
              [Ok (StandIn.response_of 401 "denied"); Ok (StandIn.response_of 200 "Default")]
              [] (StandIn.response_of 401 "denied")
              [Ok (StandIn.response_of 200 "Default")] eq_refl)
    as (r & Hrun & _ & _ & H401 & _).
  rewrite Hrun, (H401 "denied" eq_refl eq_refl). reflexivity.
Defined.

Lemma a_dead_transport_witness :
  let req := mkRequest "GET"
               (build_url "https://octopus.example" "api/Spaces-1/Tenants"
                          [("take", QInt 30); ("skip", QInt 60)])
               (get_octopus_headers "API-KEY") in
  let run := get_tenants_batch (E := logged StandInMore.dead) 60 30 "Spaces-1" "API-KEY"
               "https://octopus.example" (tt, []) in
  fst run = Raise HTTPError /\ snd (snd run) = [req; req; req].
Proof.
  intros req run.
  pose proof (a_dead_transport_costs_three_attempts StandInMore.dead
                60 30 "Spaces-1" "Projects-1" "Tenants-1" "API-KEY" "https://octopus.example")
    as H.
  cbv zeta in H. destruct H as (_ & _ & _ & Htenants & _).
  apply (Htenants (fun v => eq_refl) tt []).
Defined.

Lemma nested_retries_witness :
  let req := mkRequest "GET"
               (build_url "https://octopus.example" "api/Spaces-1/projects/Projects-1/Channels"
                          [])
               (get_octopus_headers "API-KEY") in
  let run := get_channel_by_name (E := logged StandInMore.dead)
               "Spaces-1" "Projects-1" "Default" "API-KEY" "https://octopus.example" (tt, []) in
  fst run = Raise HTTPError /\ snd (snd run) = repeat req 9.
Proof.
  intros req run.
  pose proof (nested_retries_multiply StandInMore.dead StandInMore.channels_of_lines
                "Spaces-1" "Projects-1" "Default" "API-KEY" "https://octopus.example") as H.
  cbv zeta in H. destruct H as (Hname & _).
  apply (Hname (fun v => eq_refl) tt []).
Defined.

Lemma validation_witness :
  get_project (E := logged StandIn.scripted) "Spaces-1" "" "API-KEY" "https://octopus.example"
              ([Ok (StandIn.response_of 200 "Web")], [])
  = (Raise (ValueError "project_name must be a non-empty string (get_project)."),
     ([Ok (StandIn.response_of 200 "Web")], [])).
Proof.
  destruct (validation_failures_send_nothing StandIn.scripted
              "Spaces-1" "API-KEY" "https://octopus.example" ""
              ([Ok (StandIn.response_of 200 "Web")], []))
    as (_ & _ & _ & _ & _ & Hproject).
  exact (Hproject eq_refl eq_refl).
Defined.

Lemma unique_exact_space_witness :
  let nl := String "010"%char EmptyString in
  fst (get_space_id_and_name_from_name (E := logged StandIn.scripted)
         "Default" "API-KEY" "https://octopus.example"
         ([Ok (StandIn.response_of 200 ("default" ++ nl ++ "Default" ++ nl ++ "DEFAULT "))], []))
  = Ok ("Id-Default", "Default").
Proof.
  intros nl.
  rewrite (unique_exact_space_wins StandIn.scripted
             "Default" "API-KEY" "https://octopus.example"
             [mkItem "Id-default" "default"; mkItem "Id-Default" "Default";
              mkItem "Id-DEFAULT " "DEFAULT "]
             (mkItem "Id-Default" "Default")
             [Ok (StandIn.response_of 200 ("default" ++ nl ++ "Default" ++ nl ++ "DEFAULT "))]
             [] []); try reflexivity.
  scripted_answer.
Defined.

Lemma unique_loose_space_witness :
  fst (get_space_id_and_name_from_name (E := logged StandIn.scripted)
         " default" "API-KEY" "https://octopus.example"
         ([Ok (StandIn.response_of 200 "Default")], []))
  = Ok ("Id-Default", "Default").
Proof.
  rewrite (unique_loose_space_is_found StandIn.scripted
             " default" "API-KEY" "https://octopus.example"
             [mkItem "Id-Default" "Default"] (mkItem "Id-Default" "Default")
             [Ok (StandIn.response_of 200 "Default")] [] []); try reflexivity.
  - scripted_answer.
  - vm_compute. discriminate.
Defined.

Lemma resolved_space_witness :
  let run := fst (get_space_id_and_name_from_name (E := logged StandIn.scripted)
                    "Dev" "API-KEY" "https://octopus.example"
                    ([Ok (StandIn.response_of 200 "Default")], [])) in
  run = Raise (SpaceNotFound "Dev")
  \/ exists s, In s [mkItem "Id-Default" "Default"]
               /\ run = Ok (Id s, Name s)
               /\ Py.strip (Py.lower (Name s)) = Py.strip (Py.lower "Dev").
Proof.
  apply (resolved_space_is_listed StandIn.scripted
           "Dev" "API-KEY" "https://octopus.example" [mkItem "Id-Default" "Default"]
           [Ok (StandIn.response_of 200 "Default")] [] []); try reflexivity.
  scripted_answer.
Defined.

Lemma probe_hit_witness :
  get_environment_fuzzy (E := logged StandIn.scripted)
    "Spaces-1" "Production" "API-KEY" "https://octopus.example"
    ([Ok (StandIn.response_of 200 "Production")], [])
  = (Ok (mkItem "Id-Production" "Production"),
     ([], [mkRequest "GET"
             (build_url "https://octopus.example" "api/Spaces-1/Environments"
                        [("partialname", QStr "Production")])
             (get_octopus_headers "API-KEY")])).
Proof.
  pose proof (probe_hit_needs_one_request StandIn.scripted
                "Spaces-1" "Projects-1" "Production" "API-KEY" "https://octopus.example") as H.
  cbv zeta in H. destruct H as (Henv & _).
  apply (Henv [Ok (StandIn.response_of 200 "Production")] []
              [mkItem "Id-Production" "Production"]); [scripted_answer|reflexivity].
Defined.

Lemma fallback_witness :
  let nl := String "010"%char EmptyString in
  fst (get_project (E := logged StandIn.scripted)
         "Spaces-1" "web" "API-KEY" "https://octopus.example"
         ([Ok (StandIn.response_of 200 ("Web" ++ nl ++ "WEB"));
           Ok (StandIn.response_of 200 ("Api" ++ nl ++ "Web"))], []))
  = Ok (mkItem "Id-Web" "Web").
Proof.
  intros nl.
  pose proof (fallback_needs_two_requests StandIn.scripted
                "Spaces-1" "Projects-1" "web" "API-KEY" "https://octopus.example") as H.
  cbv zeta in H. destruct H as (_ & _ & _ & _ & Hproject).
  rewrite (Hproject eq_refl eq_refl eq_refl
             [Ok (StandIn.response_of 200 ("Web" ++ nl ++ "WEB"));
              Ok (StandIn.response_of 200 ("Api" ++ nl ++ "Web"))] []
             [mkItem "Id-Web" "Web"; mkItem "Id-WEB" "WEB"]
             [mkItem "Id-Api" "Api"; mkItem "Id-Web" "Web"]
             (mkItem "Id-Web" "Web")
             [Ok (StandIn.response_of 200 ("Api" ++ nl ++ "Web"))] []);
    [reflexivity|scripted_answer|reflexivity|scripted_answer|reflexivity].
Defined.

Lemma channel_not_found_witness :
  get_channel_by_name (E := StandIn.scripted)
    "Spaces-1" "Projects-7" "Hotfix" "API-KEY" "https://octopus.example"
    [Ok (StandIn.response_of 200 "Default")]
  = (Raise (ResourceNotFound "Channel" "Projects-7"), []).
Proof.
  apply (channel_not_found_names_the_project (E := StandIn.scripted)
           "Spaces-1" "Projects-7" "Hotfix" "API-KEY" "https://octopus.example"
           [mkItem "Id-Default" "Default"]); [scripted_answer|reflexivity].
Defined.

Lemma default_channel_witness :
  let nl := String "010"%char EmptyString in
  fst (get_default_channel (E := StandIn.scripted) StandInMore.channels_of_lines
         "Spaces-1" "Projects-7" "API-KEY" "https://octopus.example"
         [Ok (StandIn.response_of 200 ("Hotfix" ++ nl ++ "*Default" ++ nl ++ "*Other"))])
  = Ok (mkChannel "Id-Default" "Default" true).
Proof.
  intros nl.
  destruct (default_channel_is_the_first_default (E := StandIn.scripted)
              StandInMore.channels_of_lines
              "Spaces-1" "Projects-7" "API-KEY" "https://octopus.example"
              (StandIn.response_of 200 ("Hotfix" ++ nl ++ "*Default" ++ nl ++ "*Other"))
              [mkChannel "Id-Hotfix" "Hotfix" false; mkChannel "Id-Default" "Default" true;
               mkChannel "Id-Other" "Other" true]
              [Ok (StandIn.response_of 200 ("Hotfix" ++ nl ++ "*Default" ++ nl ++ "*Other"))]
              [] eq_refl (or_introl eq_refl) eq_refl) as [Hfirst _].
  rewrite (Hfirst [mkChannel "Id-Hotfix" "Hotfix" false]
                  (mkChannel "Id-Default" "Default" true)
                  [mkChannel "Id-Other" "Other" true] eq_refl);
    [reflexivity|repeat constructor|reflexivity].
Defined.

Lemma release_version_witness :
  let nl := String "010"%char EmptyString in
  fst (get_release_fuzzy (E := StandIn.scripted) StandInMore.releases_of_lines
         "Spaces-1" "Projects-7" "1.0.1" "API-KEY" "https://octopus.example"
         [Ok (StandIn.response_of 200 ("1.0.10" ++ nl ++ "1.0.1 "))])
  = Raise (ResourceNotFound "Release" "1.0.1").
Proof.
  intros nl.
  destruct (release_version_is_matched_exactly (E := StandIn.scripted)
              StandInMore.releases_of_lines
              "Spaces-1" "Projects-7" "1.0.1" "API-KEY" "https://octopus.example"
              (StandIn.response_of 200 ("1.0.10" ++ nl ++ "1.0.1 "))
              [mkRelease "Releases-1.0.10" "1.0.10"; mkRelease "Releases-1.0.1 " "1.0.1 "]
              [Ok (StandIn.response_of 200 ("1.0.10" ++ nl ++ "1.0.1 "))]
              [] eq_refl (or_introl eq_refl) eq_refl) as [_ Hnone].
  rewrite Hnone; [reflexivity|]. repeat constructor; discriminate.
Defined.

Lemma no_task_id_witness :
  get_task (E := StandIn.scripted) "Spaces-1" None "API-KEY" "https://octopus.example"
           [Ok (StandIn.response_of 200 "ServerTasks-1")]
  = (Ok None, [Ok (StandIn.response_of 200 "ServerTasks-1")]).
Proof.
  exact (proj1 (proj1 (no_task_id_no_request (E := StandIn.scripted)
                         "Spaces-1" "API-KEY" "https://octopus.example"
                         [Ok (StandIn.response_of 200 "ServerTasks-1")]) eq_refl)).
Defined.

End RemoteSamples.

End RemoteFacts.

(** * Further properties of the caches *)

Module CacheMore.

Import CacheFacts.

Section Cached.

Context {W : Type}.
Variable resolver : string -> string -> string -> string -> M W Item.

Lemma guards_view (cache : Cache) octopus_url space_id u s :
  names_of (guard_space (guard_url cache octopus_url) octopus_url space_id) u s
  = names_of cache u s.
Proof. now rewrite names_of_guard_space, names_of_guard_url. Qed.

Lemma fuzzy_cached_failure space_id name api_key octopus_url cache w e w1 :
  names_of cache octopus_url space_id !! name = None ->
  resolver space_id name api_key octopus_url w = (Raise e, w1) ->
  fuzzy_cached resolver space_id name api_key octopus_url (cache, w)
  = (Raise e, (guard_space (guard_url cache octopus_url) octopus_url space_id, w1)).
Proof.
  intros Hnone Hres. rewrite fuzzy_cached_unfold. cbv zeta.
  rewrite get_true_lookup, guards_view, Hnone, Hres. reflexivity.
Qed.

Lemma fuzzy_cached_forgets : forgets_failures resolver (fuzzy_cached resolver).
Proof.
  intros space_id name api_key octopus_url cache w e w1 Hnone Hres failed.
  subst failed. rewrite (fuzzy_cached_failure _ _ _ _ _ _ _ _ Hnone Hres).
  cbn [fst snd].
  split; [reflexivity|split; [reflexivity|split]].
  - intros u s n. now rewrite guards_view.
  - intros r w2 Hok.
    assert (Hnone' : names_of (guard_space (guard_url cache octopus_url) octopus_url space_id)
                              octopus_url space_id !! name = None)
      by now rewrite guards_view.
    destruct (fuzzy_cached_miss resolver _ _ _ _ _ _ _ _ Hnone' Hok) as (c' & Hrun & _).
    now rewrite Hrun.
Qed.

Lemma fuzzy_cached_isolates : keeps_other_keys (fuzzy_cached resolver).
Proof.
  intros space_id name api_key octopus_url [cache w] u s n Hother.
  rewrite fuzzy_cached_unfold. cbv zeta.
  destruct (get_true _ name) as [found|]; cbn [fst snd]; [now rewrite guards_view|].
  destruct (resolver space_id name api_key octopus_url w) as [[r|e] w']; cbn [fst snd];
    [|now rewrite guards_view].
  rewrite (@names_of_store W resolver), guards_view. case_decide as Hkey; [|reflexivity].
  destruct Hkey as (-> & -> & ->). now contradiction Hother.
Qed.

Lemma fuzzy_cached_resolves_once : resolves_once resolver (fuzzy_cached resolver).
Proof.
  intros space_id name api_key octopus_url cache w r w1 Hnone Hres.
  destruct (fuzzy_cached_once resolver _ _ _ _ _ _ _ _ Hnone Hres) as (H1 & H2 & _ & H3).
  repeat split; assumption.
Qed.

(** A successful lookup leaves an entry for its key that holds its result. *)
Lemma fuzzy_cached_result_entry space_id name api_key octopus_url st r st' :
  fuzzy_cached resolver space_id name api_key octopus_url st = (Ok r, st') ->
  names_of (fst st') octopus_url space_id !! name = Some r.
Proof.
  destruct st as [cache w]. rewrite fuzzy_cached_unfold. cbv zeta.
  destruct (get_true _ name) as [found|] eqn:Hentry.
  - intros [= <- <-]. cbn [fst snd]. now rewrite <- get_true_lookup.
  - destruct (resolver space_id name api_key octopus_url w) as [[r'|e] w'];
      [|discriminate].
    intros [= <- <-]. cbn [fst snd]. rewrite (@names_of_store W resolver). now rewrite decide_True.
Qed.

Lemma map_m_keeps space_id api_key octopus_url names :
  forall st rs st' u s n r,
    map_m (fun name => fuzzy_cached resolver space_id name api_key octopus_url) names st
    = (Ok rs, st') ->
    names_of (fst st) u s !! n = Some r ->
    names_of (fst st') u s !! n = Some r.
Proof.
  induction names as [|name names IH]; intros st rs st' u s n r; cbn [map_m].
  - unfold ret. intros [= <- <-]. trivial.
  - unfold bind at 1.
    destruct (fuzzy_cached resolver space_id name api_key octopus_url st)
      as [[r0|e] st1] eqn:Hhead; [|discriminate].
    unfold bind at 1.
    destruct (map_m _ names st1) as [[rs'|e] st2] eqn:Htail; [|discriminate].
    unfold ret. intros [= <- <-] Hentry. eapply IH; [exact Htail|].
    destruct st as [cache w].
    pose proof (fuzzy_cached_keeps resolver space_id name api_key octopus_url
                  cache w u s n r Hentry) as Hkept.
    now rewrite Hhead in Hkept.
Qed.

Lemma map_m_entries space_id api_key octopus_url names :
  forall st rs st',
    map_m (fun name => fuzzy_cached resolver space_id name api_key octopus_url) names st
    = (Ok rs, st') ->
    Forall2 (fun name r => names_of (fst st') octopus_url space_id !! name = Some r) names rs.
Proof.
  induction names as [|name names IH]; intros st rs st'; cbn [map_m].
  - unfold ret. intros [= <- <-]. constructor.
  - unfold bind at 1.
    destruct (fuzzy_cached resolver space_id name api_key octopus_url st)
      as [[r0|e] st1] eqn:Hhead; [|discriminate].
    unfold bind at 1.
    destruct (map_m _ names st1) as [[rs'|e] st2] eqn:Htail; [|discriminate].
    unfold ret. intros [= <- <-]. constructor; [|eapply IH; exact Htail].
    eapply map_m_keeps; [exact Htail|].
    eapply fuzzy_cached_result_entry; exact Hhead.
Qed.

Lemma map_m_hits space_id api_key octopus_url names :
  forall st rs,
    Forall2 (fun name r => names_of (fst st) octopus_url space_id !! name = Some r) names rs ->
    map_m (fun name => fuzzy_cached resolver space_id name api_key octopus_url) names st
    = (Ok rs, st).
Proof.
  intros [cache w] rs H. cbn [fst] in H.
  induction H as [|name r names rs Hentry _ IH]; cbn [map_m]; [reflexivity|].
  unfold bind at 1. rewrite (fuzzy_cached_hit resolver _ _ _ _ _ _ _ Hentry).
  unfold bind at 1. now rewrite IH.
Qed.

(** Resolving a list of names through the cache, twice. *)
Lemma map_m_twice space_id api_key api_key' octopus_url names st rs st' :
  map_m (fun name => fuzzy_cached resolver space_id name api_key octopus_url) names st
  = (Ok rs, st') ->
  map_m (fun name => fuzzy_cached resolver space_id name api_key' octopus_url) names st'
  = (Ok rs, st')
  /\ length rs = length names.
Proof.
  intros Hrun. pose proof (map_m_entries _ _ _ _ _ _ _ Hrun) as Hentries.
  split; [now apply map_m_hits|]. symmetry. eapply Forall2_length; exact Hentries.
Qed.

End Cached.

Section Named.

Context {T : Py.Text} {W : Type} {E : Env W}.

(** X21. A resolution that fails is not remembered: when a key has no
    entry and the resolver raises, [get_environment_fuzzy_cached],
    [get_tenant_fuzzy_cached] and [get_channel_cached] raise the same
    exception and give no key an entry, so the next lookup of the key runs
    the resolver again and returns what it then finds. *)
Theorem failed_resolutions_are_not_cached :
  forgets_failures get_environment_fuzzy get_environment_fuzzy_cached
  /\ forgets_failures get_tenant_fuzzy get_tenant_fuzzy_cached
  /\ forgets_failures get_channel get_channel_cached.
Proof. repeat apply conj; apply fuzzy_cached_forgets. Qed.

(** X22. A cached lookup touches the entry of its own key at most: for the
    three cached functions, whatever the arguments and the outcome, the
    entry of any other (server url, space id, name) key is what it was. *)
Theorem cached_lookups_keep_other_keys :
  keeps_other_keys get_environment_fuzzy_cached
  /\ keeps_other_keys get_tenant_fuzzy_cached
  /\ keeps_other_keys get_channel_cached.
Proof. repeat apply conj; apply fuzzy_cached_isolates. Qed.

(** X23. [get_channel_cached] fetches a channel once: the first lookup of
    a (server url, space id, channel id) key runs [get_channel] and stores
    the channel; after any further lookups a lookup of that key returns the
    stored channel and leaves the cache and the world as they are. *)
Theorem channel_is_fetched_once : resolves_once get_channel get_channel_cached.
Proof. apply fuzzy_cached_resolves_once. Qed.

(** X24. The list forms of the cached resolvers: a list of names that is
    [None] or empty gives the empty list and leaves cache and world alone;
    and once [get_environments_fuzzy_cached] or [get_tenants_fuzzy_cached]
    has resolved a list of names, resolving the same list again gives the
    same resources, one per name, with no change to the cache or the
    world. *)
Theorem cached_lists_resolve_once space_id api_key api_key' octopus_url
        (st : Cache * W) :
  get_environments_fuzzy_cached space_id None api_key octopus_url st = (Ok [], st)
  /\ get_environments_fuzzy_cached space_id (Some []) api_key octopus_url st = (Ok [], st)
  /\ get_tenants_fuzzy_cached space_id None api_key octopus_url st = (Ok [], st)
  /\ get_tenants_fuzzy_cached space_id (Some []) api_key octopus_url st = (Ok [], st)
  /\ (forall names rs st',
         get_environments_fuzzy_cached space_id (Some names) api_key octopus_url st
         = (Ok rs, st') ->
         get_environments_fuzzy_cached space_id (Some names) api_key' octopus_url st'
         = (Ok rs, st')
         /\ length rs = length names)
  /\ (forall names rs st',
         get_tenants_fuzzy_cached space_id (Some names) api_key octopus_url st
         = (Ok rs, st') ->
         get_tenants_fuzzy_cached space_id (Some names) api_key' octopus_url st'
         = (Ok rs, st')
         /\ length rs = length names).
Proof.
  repeat apply conj; try reflexivity.
  - intros [|name names] rs st' Hrun.
    + injection Hrun as <- <-. now split.
    + apply (map_m_twice get_environment_fuzzy space_id api_key api_key' octopus_url
                         (name :: names) st rs st' Hrun).
  - intros [|name names] rs st' Hrun.
    + injection Hrun as <- <-. now split.
    + apply (map_m_twice get_tenant_fuzzy space_id api_key api_key' octopus_url
                         (name :: names) st rs st' Hrun).
Qed.

End Named.

Section NamedSamples.

#[local] Existing Instance StandIn.ascii_text.

Lemma failed_resolution_witness :
  fst (get_environment_fuzzy_cached (E := StandIn.scripted)
         "Spaces-1" "Production" "API-KEY" "https://octopus.example" (∅, []))
  = Raise HTTPError.
Proof.
  destruct (failed_resolutions_are_not_cached (E := StandIn.scripted)) as (Henv & _).
  assert (Hnone : names_of (∅ : Cache) "https://octopus.example" "Spaces-1" !! "Production"
                  = None) by reflexivity.
  destruct (Henv "Spaces-1" "Production" "API-KEY" "https://octopus.example"
                 ∅ [] HTTPError [] Hnone eq_refl) as (Hfst & _).
  exact Hfst.
Defined.

Lemma other_keys_witness :
  names_of
    (fst (snd (get_tenant_fuzzy_cached (E := StandIn.scripted)
                 "Spaces-1" "Acme" "API-KEY" "https://octopus.example"
                 (∅, [Ok (StandIn.response_of 200 "Acme")]))))
    "https://octopus.example" "Spaces-2" !! "Acme"
  = None.
Proof.
  destruct (cached_lookups_keep_other_keys (E := StandIn.scripted)) as (_ & Htenant & _).
  rewrite (Htenant "Spaces-1" "Acme" "API-KEY" "https://octopus.example"
                   (∅, [Ok (StandIn.response_of 200 "Acme")])
                   "https://octopus.example" "Spaces-2" "Acme"); [reflexivity|].
  intros [=].
Defined.

Lemma channel_fetched_once_witness :
  let world := [Ok (StandIn.response_of 200 "Default")] in
  let first := get_channel_cached (E := StandIn.scripted)
                 "Spaces-1" "Channels-1" "API-KEY" "https://octopus.example" (∅, world) in
  fst first = Ok (mkItem "Id-Default" "Default")
  /\ get_channel_cached (E := StandIn.scripted)
       "Spaces-1" "Channels-1" "OTHER-KEY" "https://octopus.example" (snd first)
     = (Ok (mkItem "Id-Default" "Default"), snd first).
Proof.
  intros world first.
  assert (Hnone : names_of (∅ : Cache) "https://octopus.example" "Spaces-1" !! "Channels-1"
                  = None) by reflexivity.
  destruct (channel_is_fetched_once (E := StandIn.scripted)
              "Spaces-1" "Channels-1" "API-KEY" "https://octopus.example"
              ∅ world (mkItem "Id-Default" "Default") [] Hnone eq_refl)
    as (Hfst & _ & Hagain).
  split; [exact Hfst|exact (Hagain [] "OTHER-KEY")].
Defined.

Lemma cached_lists_witness :
  let world := [Ok (StandIn.response_of 200 "Production")] in
  let found := mkItem "Id-Production" "Production" in
  let first := get_environments_fuzzy_cached (E := StandIn.scripted)
                 "Spaces-1" (Some ["Production"; "Production"]) "API-KEY"
                 "https://octopus.example" (∅, world) in
  get_environments_fuzzy_cached (E := StandIn.scripted)
    "Spaces-1" (Some ["Production"; "Production"]) "API-KEY" "https://octopus.example"
    (snd first)
  = (Ok [found; found], snd first).
Proof.
  intros world found first.
  destruct (cached_lists_resolve_once (E := StandIn.scripted)
              "Spaces-1" "API-KEY" "API-KEY" "https://octopus.example" (∅, world))
    as (_ & _ & _ & _ & Henv & _).
  apply (Henv ["Production"; "Production"] [found; found] (snd first)).
  rewrite (surjective_pairing first) at 1. f_equal; vm_compute; reflexivity.
Defined.

End NamedSamples.

End CacheMore.

(** * Further properties of the page generators *)

Module PaginatorMore.

Import PaginatorFacts.

Section Loop.

Context {W A : Type}.
Variable get_batch : Z -> Z -> M W (list A).

(** Full pages, then a fetch that raises: the items of the full pages have
    been yielded when the exception leaves the generator. *)
Lemma generator_loop_failure take (pages : list (list A)) e :
  Forall (fun b => Z.of_nat (length b) = take) pages ->
  forall fuel skip w w1 w2,
    fetches get_batch skip take pages w w1 ->
    get_batch (skip + take * Z.of_nat (length pages)) take w1 = (Raise e, w2) ->
    (length pages < fuel)%nat ->
    generator_loop fuel get_batch skip take w = (concat pages, Failed e, w2).
Proof.
  induction 1 as [|b pages Hb _ IH]; intros fuel skip w w1 w2 Hfetch Hfail Hfuel.
  - destruct fuel as [|fuel]; [simpl in Hfuel; lia|].
    simpl in Hfetch. subst w1.
    replace (skip + take * Z.of_nat (length (@nil (list A)))) with skip in Hfail
      by (simpl length; lia).
    simpl. now rewrite Hfail.
  - destruct fuel as [|fuel]; [simpl in Hfuel; lia|].
    simpl in Hfetch. destruct Hfetch as (w' & Hget & Hrest).
    simpl. rewrite Hget. apply Z.eqb_eq in Hb. rewrite Hb. simpl.
    rewrite (IH fuel (skip + take) w' w1 w2 Hrest); [reflexivity| |simpl in Hfuel; lia].
    replace (skip + take + take * Z.of_nat (length pages))
      with (skip + take * Z.of_nat (length (b :: pages))) by (simpl length; lia).
    exact Hfail.
Qed.

(** A listing that serves a full page to every call keeps the generator in
    its loop. *)
Lemma generator_loop_endless take :
  (forall skip w, exists b w', get_batch skip take w = (Ok b, w')
                               /\ Z.of_nat (length b) = take) ->
  forall fuel skip w,
    snd (fst (generator_loop fuel get_batch skip take w)) = Suspended
    /\ Z.of_nat (length (fst (fst (generator_loop fuel get_batch skip take w))))
       = take * Z.of_nat fuel.
Proof.
  intros Hfull. induction fuel as [|fuel IH]; intros skip w.
  - simpl. split; [reflexivity|lia].
  - destruct (Hfull skip w) as (b & w' & Hget & Hb).
    cbn [generator_loop]. rewrite Hget. pose proof Hb as Hb'.
    apply Z.eqb_eq in Hb'. rewrite Hb'. cbn [negb].
    destruct (IH (skip + take) w') as [Hend Hlen].
    destruct (generator_loop fuel get_batch (skip + take) take w') as [[rest e] w''].
    simpl in *. split; [exact Hend|]. rewrite length_app. lia.
Qed.

End Loop.

(** X25. The generators of environments, tenants, runbooks of a project
    and runbooks of a space run the same loop as those of spaces and
    projects: when their pages, asked from [skip = 0] with [take = 30], are
    full and then one has another length, they yield the concatenation of
    the batches in order and leave the loop after that page, given the fuel
    to ask for them. *)
Theorem other_generators_stop_after_first_short_page
        {W : Type} (E : Env W) (fuel : nat) (space_id project_id api_key octopus_url : string)
        (pages : list (list Item)) (tail : list Item) (v v' : W) :
  Forall (fun b => length b = 30%nat) pages ->
  length tail <> 30%nat ->
  (length pages < fuel)%nat ->
  (fetches (fun skip take => get_environments_batch skip take space_id api_key octopus_url)
           0 30 (pages ++ [tail]) v v' ->
   get_environments_generator fuel space_id api_key octopus_url v
   = ((concat pages ++ tail)%list, Exhausted, v'))
  /\ (fetches (fun skip take => get_tenants_batch skip take space_id api_key octopus_url)
              0 30 (pages ++ [tail]) v v' ->
      get_tenants_generator fuel space_id api_key octopus_url v
      = ((concat pages ++ tail)%list, Exhausted, v'))
  /\ (fetches (fun skip take =>
                 get_runbooks_batch skip take space_id project_id api_key octopus_url)
              0 30 (pages ++ [tail]) v v' ->
      get_runbooks_generator fuel space_id project_id api_key octopus_url v
      = ((concat pages ++ tail)%list, Exhausted, v'))
  /\ (fetches (fun skip take => get_all_runbooks_batch skip take space_id api_key octopus_url)
              0 30 (pages ++ [tail]) v v' ->
      get_all_runbooks_generator fuel space_id api_key octopus_url v
      = ((concat pages ++ tail)%list, Exhausted, v')).
Proof.
  intros Hpages Htail Hfuel.
  assert (Hz : Forall (fun b : list Item => Z.of_nat (length b) = 30) pages).
  { eapply Forall_impl; [exact Hpages|]. intros b Hb. simpl in Hb. lia. }
  assert (Ht : Z.of_nat (length tail) <> 30) by lia.
  repeat apply conj; intros Hfetch.
  - unfold get_environments_generator. cbv zeta. now apply generator_loop_items.
  - unfold get_tenants_generator. cbv zeta. now apply generator_loop_items.
  - unfold get_runbooks_generator. cbv zeta. now apply generator_loop_items.
  - unfold get_all_runbooks_generator. cbv zeta. now apply generator_loop_items.
Qed.

(** X26. A fetch that raises ends the generator with that exception, and
    what was yielded before stays yielded: after full pages from
    [skip = 0], when the fetch of the next page (at [skip] = 30 times the
    number of pages) raises, the generator has yielded the items of the
    full pages and ends with the exception. This is the loop of all six
    generators; it is stated for any batch function and for the generators
    of spaces and of projects. *)
Theorem a_failed_page_keeps_what_was_yielded
        {W A : Type} (get_batch : Z -> Z -> M W (list A))
        (pages : list (list A)) (e : Exn) (fuel : nat) (w w1 w2 : W) :
  Forall (fun b => length b = 30%nat) pages ->
  (length pages < fuel)%nat ->
  (fetches get_batch 0 30 pages w w1 ->
   get_batch (30 * Z.of_nat (length pages)) 30 w1 = (Raise e, w2) ->
   generator_loop fuel get_batch 0 30 w = (concat pages, Failed e, w2))
  /\ (forall (E : Env W) api_key octopus_url (listed : list (list Item)),
         Forall (fun b => length b = 30%nat) listed ->
         (length listed < fuel)%nat ->
         fetches (fun skip take => get_spaces_batch skip take api_key octopus_url)
                 0 30 listed w w1 ->
         get_spaces_batch (30 * Z.of_nat (length listed)) 30 api_key octopus_url w1
         = (Raise e, w2) ->
         get_spaces_generator fuel api_key octopus_url w = (concat listed, Failed e, w2))
  /\ (forall (E : Env W) space_id api_key octopus_url (listed : list (list Item)),
         Forall (fun b => length b = 30%nat) listed ->
         (length listed < fuel)%nat ->
         fetches (fun skip take => get_projects_batch skip take space_id api_key octopus_url)
                 0 30 listed w w1 ->
         get_projects_batch (30 * Z.of_nat (length listed)) 30 space_id api_key octopus_url w1
         = (Raise e, w2) ->
         get_projects_generator fuel space_id api_key octopus_url w
         = (concat listed, Failed e, w2)).
Proof.
  intros Hpages Hfuel.
  assert (Hz : forall (B : Type) (l : list (list B)),
             Forall (fun b => length b = 30%nat) l ->
             Forall (fun b => Z.of_nat (length b) = 30) l).
  { intros B l H. eapply Forall_impl; [exact H|]. intros b Hb. simpl in Hb. lia. }
  repeat apply conj.
  - intros Hfetch Hfail.
    apply (generator_loop_failure get_batch 30 pages e (Hz _ _ Hpages) fuel 0 w w1 w2);
      trivial.
  - intros E api_key octopus_url listed Hlisted Hfu Hfetch Hfail.
    unfold get_spaces_generator. cbv zeta.
    apply (generator_loop_failure _ 30 listed e (Hz _ _ Hlisted) fuel 0 w w1 w2); trivial.
  - intros E space_id api_key octopus_url listed Hlisted Hfu Hfetch Hfail.
    unfold get_projects_generator. cbv zeta.
    apply (generator_loop_failure _ 30 listed e (Hz _ _ Hlisted) fuel 0 w w1 w2); trivial.
Qed.

(** X27. The loop has no other exit than a page whose length is not 30 or
    an exception: against a listing that answers every request with a full
    page of 30 items, the generator is still in its loop after any number
    of pages, having yielded 30 items per page. *)
Theorem full_pages_never_end_the_loop
        {W A : Type} (get_batch : Z -> Z -> M W (list A)) :
  (forall skip w, exists b w', get_batch skip 30 w = (Ok b, w') /\ length b = 30%nat) ->
  forall fuel w,
    snd (fst (generator_loop fuel get_batch 0 30 w)) = Suspended
    /\ length (fst (fst (generator_loop fuel get_batch 0 30 w))) = (30 * fuel)%nat.
Proof.
  intros Hfull fuel w.
  destruct (generator_loop_endless get_batch 30) with (fuel := fuel) (skip := 0) (w := w)
    as [Hend Hlen].
  - intros skip v. destruct (Hfull skip v) as (b & v' & Hget & Hb).
    exists b, v'. split; [exact Hget|lia].
  - split; [exact Hend|lia].
Qed.

Lemma other_generators_witness :
  fst (get_tenants_generator (E := StandIn.scripted) 3 "Spaces-1" "API-KEY"
         "https://octopus.example" [Ok (StandIn.response_of 200 "Acme")])
  = ([mkItem "Id-Acme" "Acme"], Exhausted).
Proof.
  destruct (other_generators_stop_after_first_short_page StandIn.scripted
              3 "Spaces-1" "Projects-1" "API-KEY" "https://octopus.example"
              [] [mkItem "Id-Acme" "Acme"] [Ok (StandIn.response_of 200 "Acme")] [])
    as (_ & Htenants & _).
  - constructor.
  - simpl. lia.
  - simpl. lia.
  - rewrite Htenants; [reflexivity|].
    simpl. eexists. split; reflexivity.
Defined.

Lemma a_failed_page_witness :
  generator_loop 5 StandInMore.scripted_batches 0 30
    [Ok (repeat 1%nat 30); Raise HTTPError; Ok [2%nat]]
  = (repeat 1%nat 30, Failed HTTPError, [Ok [2%nat]]).
Proof.
  destruct (a_failed_page_keeps_what_was_yielded StandInMore.scripted_batches
              [repeat 1%nat 30] HTTPError 5
              [Ok (repeat 1%nat 30); Raise HTTPError; Ok [2%nat]]
              [Raise HTTPError; Ok [2%nat]] [Ok [2%nat]]) as (Hloop & _).
  - repeat constructor.
  - simpl. lia.
  - rewrite Hloop; [reflexivity| |reflexivity].
    simpl. eexists. split; reflexivity.
Defined.

Lemma full_pages_witness :
  snd (fst (generator_loop 4 StandInMore.same_page 0 30 tt)) = Suspended
  /\ length (fst (fst (generator_loop 4 StandInMore.same_page 0 30 tt))) = 120%nat.
Proof.
  apply (full_pages_never_end_the_loop StandInMore.same_page).
  intros skip w. exists (repeat 7%nat 30), w. split; reflexivity.
Defined.

End PaginatorMore.
